(** * daily_stats_bot: the extractor and the notifier, embedded and verified

    The repository holds two scheduled jobs.

    - [src/daily_bot_stats_extract.py] (module [Extract] below) opens a
      warehouse connection, runs four aggregate queries, flattens the rows
      into one insertion-ordered mapping and hands it to the second job.
    - [src/revii_stats_notify.py] (module [Notify] below) queries an
      analytics API over a fixed grid, composes a text report from the
      mapping and posts it to a chat webhook.

    Python values are embedded as they are at run time: [str] as [string]
    (the UTF-8 bytes of the text), [int] as [Z], [float] as an IEEE binary64
    value ([spec_float] at precision 53), [decimal.Decimal] as sign,
    coefficient and exponent, [dict] as an association list in insertion
    order.  External calls (warehouse, HTTP, SNS, Lambda) are answered by an
    explicit [world] record and leave an event in a trace, so that what a run
    did and did not do can be stated. *)

From Stdlib Require Import ZArith List String Ascii Bool Lia.
From Stdlib Require Import SpecFloat DecimalString.
Import ListNotations.

Local Open Scope string_scope.
Local Open Scope Z_scope.

Set Implicit Arguments.
Set Warnings "-register-all".

(* ===================================================================== *)
(** * Python strings *)
(* ===================================================================== *)

Module PyStr.

(** [s.startswith(p)] *)
Fixpoint startswith (s p : string) {struct p} : bool :=
  match p, s with
  | EmptyString, _ => true
  | String a p', String b s' => Ascii.eqb a b && startswith s' p'
  | String _ _, EmptyString => false
  end.

(** [s.endswith(suf)]: [s] is [suf], or the tail of [s] ends with [suf]. *)
Fixpoint endswith (s suf : string) : bool :=
  String.eqb s suf ||
  match s with
  | EmptyString => false
  | String _ s' => endswith s' suf
  end.

(** [sub in s] *)
Fixpoint contains (s sub : string) : bool :=
  startswith s sub ||
  match s with
  | EmptyString => false
  | String _ s' => contains s' sub
  end.

(** [s.replace(old, new)] for a non-empty [old]: scan from the left; at an
    occurrence of [old] emit [new] and skip the occurrence, otherwise copy
    one character.  [skip] counts the characters of the current occurrence
    that are still to be passed over. *)
Fixpoint replace_from (old new : string) (skip : nat) (s : string) : string :=
  match s with
  | EmptyString => EmptyString
  | String c s' =>
      match skip with
      | S k => replace_from old new k s'
      | O =>
          if startswith s old
          then new ++ replace_from old new (Nat.pred (String.length old)) s'
          else String c (replace_from old new O s')
      end
  end.

(** With an empty [old] Python puts [new] before every character and at
    the end. *)
Fixpoint intersperse (new s : string) : string :=
  match s with
  | EmptyString => new
  | String c s' => new ++ String c (intersperse new s')
  end.

Definition replace (s old new : string) : string :=
  match old with
  | EmptyString => intersperse new s
  | String _ _ => replace_from old new O s
  end.

(** [c.lower()] on one character: the letters A to Z move to a to z.  The
    other bytes stay; the only use in the program compares the lowered
    text with an ASCII literal, and no character outside ASCII lowers to
    one of the letters of that literal. *)
Definition lower_ascii (c : ascii) : ascii :=
  let n := nat_of_ascii c in
  if (Nat.leb 65 n && Nat.leb n 90)%bool then ascii_of_nat (n + 32) else c.

Fixpoint lower (s : string) : string :=
  match s with
  | EmptyString => EmptyString
  | String c s' => String (lower_ascii c) (lower s')
  end.

(** [str(z)] for an [int]. *)
Definition of_Z (z : Z) : string := NilZero.string_of_int (Z.to_int z).

(** The number of decimal digits of an [int], the sign apart. *)
Definition digits (z : Z) : Z := Z.of_nat (String.length (of_Z (Z.abs z))).

End PyStr.

(* ===================================================================== *)
(** * Python dictionaries *)
(* ===================================================================== *)

Module PyDict.

(** A [dict] with [str] keys: the items in insertion order, each key once. *)
Definition dict (V : Type) : Type := list (string * V).

Section Ops.
Variable V : Type.

(** [d.get(k)]: [None] when the key is absent. *)
Fixpoint get (d : dict V) (k : string) : option V :=
  match d with
  | [] => None
  | (k', v) :: d' => if String.eqb k' k then Some v else get d' k
  end.

(** [d.get(k, default)] *)
Definition get_default (d : dict V) (k : string) (default : V) : V :=
  match get d k with
  | Some v => v
  | None => default
  end.

(** [d[k] = v]: a present key keeps its place and takes the new value, a
    new key goes to the end. *)
Fixpoint set (d : dict V) (k : string) (v : V) : dict V :=
  match d with
  | [] => [(k, v)]
  | (k', v') :: d' =>
      if String.eqb k' k then (k', v) :: d' else (k', v') :: set d' k v
  end.

(** [list(d)], the keys in iteration order. *)
Definition keys (d : dict V) : list string := map fst d.

(** [d.update(items)] and [dict(items)]: the items are stored one after
    the other. *)
Definition update (d : dict V) (items : list (string * V)) : dict V :=
  fold_left (fun acc kv => set acc (fst kv) (snd kv)) items d.

Definition of_items (items : list (string * V)) : dict V := update [] items.

End Ops.

End PyDict.

Import PyDict.

(* ===================================================================== *)
(** * Python values and exceptions *)
(* ===================================================================== *)

Module PyVal.

(** ** Floats: IEEE binary64, round to nearest even *)

Definition prec : Z := 53.
Definition emax : Z := 1024.

Definition pyfloat : Type := spec_float.

Definition float_add (x y : pyfloat) : pyfloat := SFadd prec emax x y.

(** The nearest float of an integer (infinite when out of range). *)
Definition float_of_Z (z : Z) : pyfloat := binary_normalize prec emax z 0 false.

(** ** [decimal.Decimal] *)

Inductive pydecimal : Type :=
| DecFinite (negative : bool) (coefficient : N) (exponent : Z)
| DecInfinity (negative : bool)
| DecNaN.

(** [float(d)] for a Decimal: the float nearest to the exact value
    [coefficient * 10 ^ exponent]. *)
Definition float_of_decimal (d : pydecimal) : pyfloat :=
  match d with
  | DecNaN => S754_nan
  | DecInfinity s => S754_infinity s
  | DecFinite s N0 _ => S754_zero s
  | DecFinite s (Npos c) e =>
      if 0 <=? e
      then binary_normalize prec emax (cond_Zopp s (Zpos c * 10 ^ e)) 0 s
      else
        match 10 ^ (- e) with
        | Zpos p => SFdiv prec emax (S754_finite s c 0) (S754_finite false p 0)
        | _ => S754_nan
        end
  end.

(** ** Values the warehouse driver returns in a row *)

Inductive dbval : Type :=
| DNone
| DBool (b : bool)
| DInt (z : Z)             (* of a column of 64 bits at most: int2, int4, int8 *)
| DFloat (f : pyfloat)
| DDecimal (d : pydecimal)
| DStr (s : string).

(** [isinstance(v, Decimal)] *)
Definition is_decimal (v : dbval) : bool :=
  match v with DDecimal _ => true | _ => false end.

(** [isinstance(v, float)] *)
Definition is_float (v : dbval) : bool :=
  match v with DFloat _ => true | _ => false end.

(** ** JSON documents, as [json.loads] and [Response.json] build them *)

Inductive json : Type :=
| JNull
| JBool (b : bool)
| JInt (z : Z)
| JFloat (f : pyfloat)
| JStr (s : string)
| JArr (items : list json)
| JObj (members : list (string * json)).

(** ** Exceptions

    An exception object: class name, [str(e)] and [__context__], the
    exception that was being handled when this one was raised.  Only
    subclasses of [Exception] occur.  The messages of the exceptions that
    the interpreter raises follow the wording of CPython 3.11. *)
Inductive py_exn : Type :=
| PyExn (cls : string) (msg : string) (context : option py_exn).

Definition exn_cls (e : py_exn) : string := let 'PyExn c _ _ := e in c.
Definition exn_str (e : py_exn) : string := let 'PyExn _ m _ := e in m.
Definition exn_context (e : py_exn) : option py_exn := let 'PyExn _ _ c := e in c.

(** An exception that escapes a library call made inside an [except e0]
    block: the end of its context chain is [e0]. *)
Fixpoint raised_while_handling (e0 e : py_exn) : py_exn :=
  match e with
  | PyExn c m ctx =>
      PyExn c m (Some match ctx with
                      | None => e0
                      | Some e' => raised_while_handling e0 e'
                      end)
  end.

Definition result (A : Type) : Type := (py_exn + A)%type.

(** ** The text of an [int]

    [str(z)], [repr(z)] and [format(z, "")]: CPython refuses to convert an
    [int] of more than 4300 decimal digits
    ([sys.int_info.default_max_str_digits]). *)
Definition int_max_str_digits : Z := 4300.

Definition too_long (z : Z) : bool := int_max_str_digits <? PyStr.digits z.

Definition digits_error : py_exn :=
  PyExn "ValueError"
        ("Exceeds the limit (4300 digits) for integer string conversion; "
         ++ "use sys.set_int_max_str_digits() to increase the limit") None.

Definition str_of_int (z : Z) : result string :=
  if too_long z then inl digits_error else inr (PyStr.of_Z z).

(** A document with an [int] of more than 4300 digits somewhere inside:
    [str] of a list or a dict converts every [int] it holds. *)
Fixpoint has_long_int (v : json) : bool :=
  match v with
  | JInt z => too_long z
  | JArr items => existsb has_long_int items
  | JObj members => existsb (fun kv => has_long_int (snd kv)) members
  | _ => false
  end.

(** ** Numbers and [sum] *)

Inductive number : Type :=
| NInt (z : Z)
| NFloat (f : pyfloat).

Definition json_of_number (n : number) : json :=
  match n with NInt z => JInt z | NFloat f => JFloat f end.

(** [type(v).__name__], for the message of a [TypeError]. *)
Definition type_name (v : json) : string :=
  match v with
  | JNull => "NoneType" | JBool _ => "bool" | JInt _ => "int"
  | JFloat _ => "float" | JStr _ => "str" | JArr _ => "list" | JObj _ => "dict"
  end.

(** [float(z)] for an [int]: an integer that rounds out of the range of
    the floats raises. *)
Definition int_to_float (z : Z) : result pyfloat :=
  match float_of_Z z with
  | S754_infinity _ => inl (PyExn "OverflowError" "int too large to convert to float" None)
  | f => inr f
  end.

(** [acc + v] where [acc] is a number: [bool] counts as [int], an [int]
    meeting a [float] is converted, everything else is a [TypeError]. *)
Definition add (acc : number) (v : json) : result number :=
  let type_error :=
    inl (PyExn "TypeError"
           ("unsupported operand type(s) for +: '"
            ++ type_name (json_of_number acc) ++ "' and '" ++ type_name v ++ "'") None) in
  let as_number : option number :=
    match v with
    | JInt z => Some (NInt z)
    | JBool b => Some (NInt (if b then 1 else 0))
    | JFloat f => Some (NFloat f)
    | _ => None
    end in
  match as_number with
  | None => type_error
  | Some (NInt y) =>
      match acc with
      | NInt x => inr (NInt (x + y))
      | NFloat x =>
          match int_to_float y with
          | inl e => inl e
          | inr fy => inr (NFloat (float_add x fy))
          end
      end
  | Some (NFloat y) =>
      match acc with
      | NInt x =>
          match int_to_float x with
          | inl e => inl e
          | inr fx => inr (NFloat (float_add fx y))
          end
      | NFloat x => inr (NFloat (float_add x y))
      end
  end.

(** [sum(items)]: the items are added to 0 from the left, the first
    failing addition ends the sum.  Floats are added one at a time with the
    IEEE addition, as CPython does up to 3.11; later versions add floats with
    a compensated sum, which can change the last bit of a float total and
    never whether the sum raises. *)
Fixpoint sum_from (acc : number) (items : list json) : result number :=
  match items with
  | [] => inr acc
  | v :: rest =>
      match add acc v with
      | inl e => inl e
      | inr acc' => sum_from acc' rest
      end
  end.

Definition sum (items : list json) : result number := sum_from (NInt 0) items.

(** [bool(v)], the truth value of a JSON value. *)
Definition truthy (v : json) : bool :=
  match v with
  | JNull => false
  | JBool b => b
  | JInt z => negb (z =? 0)
  | JFloat f => match f with S754_zero _ => false | _ => true end
  | JStr s => negb (String.eqb s "")
  | JArr l => match l with [] => false | _ => true end
  | JObj m => match m with [] => false | _ => true end
  end.

End PyVal.

Import PyVal.

(* ===================================================================== *)
(** * Effects: a trace of external calls, exceptions, [try]/[except] *)
(* ===================================================================== *)

Module Eff.

(** A computation reads the exception being handled (the innermost
    enclosing [except] block, if any), extends the trace of events and
    ends with a value or with an exception. *)
Definition M (E A : Type) : Type :=
  option py_exn -> list E -> list E * result A.

Section Ops.
Variable E : Type.

Definition ret (A : Type) (a : A) : M E A :=
  fun _ tr => (tr, inr a).

Definition bind (A B : Type) (m : M E A) (k : A -> M E B) : M E B :=
  fun h tr =>
    match m h tr with
    | (tr', inr a) => k a h tr'
    | (tr', inl e) => (tr', inl e)
    end.

(** An observable step. *)
Definition emit (ev : E) : M E unit :=
  fun _ tr => ((tr ++ [ev])%list, inr tt).

(** An exception raised now, by a [raise C(...)] statement, by the
    interpreter or inside a library: its context is the exception being
    handled. *)
Definition raise_ (A : Type) (e : py_exn) : M E A :=
  fun h tr =>
    (tr, inl match h with
             | None => e
             | Some e0 => raised_while_handling e0 e
             end).

(** The bare [raise] of an [except] block: the caught exception goes on
    as it is. *)
Definition reraise (A : Type) (e : py_exn) : M E A :=
  fun _ tr => (tr, inl e).

(** [try: body  except Exception as e: handler e] *)
Definition try_except (A : Type) (body : M E A) (handler : py_exn -> M E A) : M E A :=
  fun h tr =>
    match body h tr with
    | (tr', inl e) => handler e (Some e) tr'
    | r => r
    end.

(** A pure step that may raise. *)
Definition lift (A : Type) (r : result A) : M E A :=
  match r with
  | inl e => raise_ A e
  | inr a => ret a
  end.

(** A call that returns nothing: [None] is success. *)
Definition check (r : option py_exn) : M E unit :=
  match r with
  | Some e => raise_ unit e
  | None => ret tt
  end.

(** A loop that carries an accumulator. *)
Fixpoint fold_m (A S : Type) (xs : list A) (s : S) (body : S -> A -> M E S) : M E S :=
  match xs with
  | [] => ret s
  | x :: rest => bind (body s x) (fun s' => fold_m rest s' body)
  end.

(** Running a job: nothing is being handled, nothing has happened yet. *)
Definition run (A : Type) (m : M E A) : list E * result A := m None [].

End Ops.

Arguments ret {E A} a.
Arguments raise_ {E A} e.
Arguments reraise {E A} e.
Arguments lift {E A} r.
Arguments check {E} r.
Arguments emit {E} ev.

Declare Scope eff_scope.
Delimit Scope eff_scope with eff.
Notation "x <- m ;; k" := (bind m (fun x => k))
  (at level 61, m at next level, right associativity) : eff_scope.
Notation "m ;; k" := (bind m (fun _ => k))
  (at level 61, right associativity) : eff_scope.

End Eff.

Import Eff.

(* ===================================================================== *)
(** * The churn query of the extractor (its three CTEs) *)
(* ===================================================================== *)

Module Calendar.

(** A calendar date of the proleptic Gregorian calendar. *)
Record date : Type := mk_date { year : Z; month : Z; day : Z }.

(** Days since 1970-01-01. *)
Definition days_from_civil (d : date) : Z :=
  let y := if month d <=? 2 then year d - 1 else year d in
  let era := y / 400 in
  let yoe := y - era * 400 in
  let mp := if 2 <? month d then month d - 3 else month d + 9 in
  let doy := (153 * mp + 2) / 5 + day d - 1 in
  let doe := yoe * 365 + yoe / 4 - yoe / 100 + doy in
  era * 146097 + doe - 719468.

Definition civil_from_days (z : Z) : date :=
  let z := z + 719468 in
  let era := z / 146097 in
  let doe := z - era * 146097 in
  let yoe := (doe - doe / 1460 + doe / 36524 - doe / 146096) / 365 in
  let doy := doe - (365 * yoe + yoe / 4 - yoe / 100) in
  let mp := (5 * doy + 2) / 153 in
  let d := doy - (153 * mp + 2) / 5 + 1 in
  let m := if mp <? 10 then mp + 3 else mp - 9 in
  let y := yoe + era * 400 in
  mk_date (if m <=? 2 then y + 1 else y) m d.

Definition is_leap (y : Z) : bool :=
  ((y mod 4 =? 0) && negb (y mod 100 =? 0)) || (y mod 400 =? 0).

Definition days_in_month (y m : Z) : Z :=
  if m =? 2 then (if is_leap y then 29 else 28)
  else if (m =? 4) || (m =? 6) || (m =? 9) || (m =? 11) then 30
  else 31.

(** [d - INTERVAL 'n days'] *)
Definition minus_days (d : date) (n : Z) : date :=
  civil_from_days (days_from_civil d - n).

(** [d - INTERVAL 'n month']: the same day of the earlier month, or the
    last day of that month when it is shorter. *)
Definition minus_months (d : date) (n : Z) : date :=
  let idx := year d * 12 + (month d - 1) - n in
  let y := idx / 12 in
  let m := idx mod 12 + 1 in
  mk_date y m (Z.min (day d) (days_in_month y m)).

(** [a >= b] and [a < b] on dates. *)
Definition geb (a b : date) : bool := days_from_civil b <=? days_from_civil a.
Definition ltb (a b : date) : bool := days_from_civil a <? days_from_civil b.

End Calendar.

Module Churn.

Import Calendar.

(** A row of [daily_bot_signup_churn]; [None] is SQL [NULL].  Only the
    day of [status_date] is kept: every comparison of the query is against
    a midnight. *)
Record churn_row : Type := mk_churn_row {
  email : option string;
  status : option string;
  status_date : option date
}.

Definition table : Type := list churn_row.

(** A comparison with a [NULL] operand is not true. *)
Definition status_is (r : churn_row) (label : string) : bool :=
  match status r with
  | Some s => String.eqb s label
  | None => false
  end.

(** [status_date >= d] *)
Definition date_on_or_after (r : churn_row) (d : date) : bool :=
  match status_date r with
  | Some sd => geb sd d
  | None => false
  end.

(** [status_date < d] *)
Definition date_before (r : churn_row) (d : date) : bool :=
  match status_date r with
  | Some sd => ltb sd d
  | None => false
  end.

(** [email IS NOT NULL] *)
Definition email_not_null (r : churn_row) : bool :=
  match email r with Some _ => true | None => false end.

(** [CASE WHEN cond THEN email END] *)
Definition case_when (cond : churn_row -> bool) (r : churn_row) : option string :=
  if cond r then email r else None.

Fixpoint non_null (xs : list (option string)) : list string :=
  match xs with
  | [] => []
  | Some x :: rest => x :: non_null rest
  | None :: rest => non_null rest
  end.

(** [COUNT(DISTINCT e)] over the selected rows: the distinct values that
    are not [NULL]. *)
Definition count_distinct (e : churn_row -> option string) (rows : list churn_row) : Z :=
  Z.of_nat (List.length (nodup string_dec (non_null (map e rows)))).

(** The five figures of one CTE. *)
Record churn_counts : Type := mk_churn_counts {
  churn_conversion : Z;
  churn_canceled : Z;
  churn_none : Z;
  churn_new_signup : Z;
  churn_past_due : Z
}.

(** [churn_total]: all rows with an email. *)
Definition churn_total (t : table) (current_date : date) : churn_counts :=
  let rows := filter email_not_null t in
  {| churn_conversion := count_distinct (case_when (fun r => status_is r "Conversion")) rows;
     churn_canceled := count_distinct (case_when (fun r => status_is r "Canceled")) rows;
     churn_none := count_distinct (case_when (fun r => status_is r "None")) rows;
     churn_new_signup := count_distinct (case_when (fun r => status_is r "New Signup")) rows;
     churn_past_due :=
       count_distinct (case_when (fun r => date_on_or_after r (minus_days current_date 7))) rows |}.

(** [churn_last_week] *)
Definition churn_last_week (t : table) (current_date : date) : churn_counts :=
  let rows :=
    filter (fun r => email_not_null r
                     && date_on_or_after r (minus_days current_date 7)
                     && date_before r current_date) t in
  {| churn_conversion := count_distinct (case_when (fun r => status_is r "Conversion")) rows;
     churn_canceled := count_distinct (case_when (fun r => status_is r "Canceled")) rows;
     churn_none := count_distinct (case_when (fun r => status_is r "None")) rows;
     churn_new_signup := count_distinct (case_when (fun r => status_is r "New Signup")) rows;
     churn_past_due :=
       count_distinct (case_when (fun r => date_on_or_after r (minus_days current_date 7))) rows |}.

(** [churn_last_month] *)
Definition churn_last_month (t : table) (current_date : date) : churn_counts :=
  let rows :=
    filter (fun r => email_not_null r
                     && date_on_or_after r (minus_months current_date 1)
                     && date_before r current_date) t in
  {| churn_conversion := count_distinct (case_when (fun r => status_is r "Conversion")) rows;
     churn_canceled := count_distinct (case_when (fun r => status_is r "Canceled")) rows;
     churn_none := count_distinct (case_when (fun r => status_is r "None")) rows;
     churn_new_signup := count_distinct (case_when (fun r => status_is r "New Signup")) rows;
     churn_past_due :=
       count_distinct (case_when (fun r => date_on_or_after r (minus_months current_date 1))) rows |}.

(** The distinct emails of the rows with an email whose status date is on
    or after [since]. *)
Definition emails_since (t : table) (since : date) : Z :=
  count_distinct email
    (filter (fun r => email_not_null r && date_on_or_after r since) t).

(** The distinct emails of the rows with an email whose status date is on
    or after [since] and before [until]. *)
Definition emails_in_window (t : table) (since until : date) : Z :=
  count_distinct email
    (filter (fun r => email_not_null r && date_on_or_after r since && date_before r until) t).

End Churn.

(* ===================================================================== *)
(** * src/daily_bot_stats_extract.py *)
(* ===================================================================== *)

Module Extract.

Local Open Scope eff_scope.

(** The four queries, by name. *)
Inductive query : Type :=
| static_metrics_query
| churn_query
| coupon_query
| signup_query.

(** The column names of the first two queries, as their [SELECT] lists
    give them to [cursor.description]. *)
Definition static_cols : list string :=
  [ "report_date"; "total"; "trials"; "daily_bot2025_trials"; "revenue30_trials";
    "active_subscriptions"; "past_due_subscriptions"; "yearly_subscriptions";
    "cancelled_subscriptions"; "cancel_after_trial"; "cancel_during_trial";
    "ios_first_time_downloads"; "ios_total_downloads"; "google_play_active_installs" ].

Definition churn_cols : list string :=
  [ "churn_conversion_all"; "churn_canceled_all"; "churn_none_all";
    "churn_new_signup_all"; "churn_past_due_all";
    "churn_conversion_week"; "churn_canceled_week"; "churn_none_week";
    "churn_new_signup_week"; "churn_past_due_week";
    "churn_conversion_month"; "churn_canceled_month"; "churn_none_month";
    "churn_new_signup_month"; "churn_past_due_month" ].

(** A row of the coupon query: [coupon_code] is a text column that the
    join keeps free of [NULL]. *)
Record coupon_row : Type := mk_coupon_row {
  code : string;
  active : dbval;
  trials : dbval;
  convs : dbval;
  rate : dbval
}.

(** A row of the signup query: [period] is one of its three literals. *)
Record signup_row : Type := mk_signup_row {
  period : string;
  without_coupon : dbval;
  with_coupon : dbval;
  total : dbval
}.

(** What is outside the job. *)
Record world : Type := mk_world {
  environ : dict string;
  connect : string -> string -> string -> string -> string -> option py_exn;
  cursor : option py_exn;
  execute : query -> option py_exn;
  fetchone : query -> result (option (list dbval));
  fetchall_coupon : result (list coupon_row);
  fetchall_signup : result (list signup_row);
  cursor_close : option py_exn;
  conn_close : option py_exn;
  invoke : dict json -> option py_exn;
  sns_client : option py_exn;
  sns_publish : string -> string -> string -> option py_exn
}.

(** The calls the job makes, and its log lines. *)
Inductive call : Type :=
| Connect (dbname user password host port : string)
| Cursor
| Execute (q : query)
| FetchOne (q : query)
| FetchAll (q : query)
| CursorClose
| ConnClose
| LambdaInvoke (function_name invocation_type : string) (payload : dict json)
| SnsClient
| SnsPublish (topic_arn subject message : string).

Inductive effect : Type :=
| Called (c : call) (failure : option py_exn)
| LogInfo (msg : string)
| LogError (msg : string).

Definition failure_of (A : Type) (r : result A) : option py_exn :=
  match r with inl e => Some e | inr _ => None end.

(** A call for its effect, and a call for its value. *)
Definition do_call (c : call) (outcome : option py_exn) : M effect unit :=
  emit (Called c outcome) ;; check outcome.

Definition do_fetch (A : Type) (c : call) (outcome : result A) : M effect A :=
  emit (Called c (failure_of outcome)) ;; lift outcome.

(** [os.environ[k]].  For a missing name [os._Environ.__getitem__] catches
    the [KeyError] of its store, whose keys are bytes, and raises
    [KeyError(k) from None]: the exception that leaves it has the inner
    [KeyError(b'k')] as its [__context__].  ([from None] sets
    [__suppress_context__], which only changes how a traceback is printed;
    the model does not keep it.) *)
Definition environ_lookup (w : world) (k : string) : result string :=
  match get (environ w) k with
  | Some v => inr v
  | None =>
      inl (PyExn "KeyError" ("'" ++ k ++ "'")
                 (Some (PyExn "KeyError" ("b'" ++ k ++ "'") None)))
  end.

(** [zip(cols, row)]; [fetchone] gives [None] when there is no row. *)
Definition zip_row (cols : list string) (row : option (list dbval))
  : result (list (string * dbval)) :=
  match row with
  | Some vals => inr (combine cols vals)
  | None => inl (PyExn "TypeError" "'NoneType' object is not iterable" None)
  end.

(** [float(rate) if isinstance(rate, Decimal) else rate] *)
Definition conversion_rate (rate : dbval) : dbval :=
  match rate with
  | DDecimal d => DFloat (float_of_decimal d)
  | _ => rate
  end.

(** The body of the loop over the coupon rows (lines 157 to 161). *)
Definition store_coupon_row (result : dict dbval) (row : coupon_row) : dict dbval :=
  let result := set result (code row ++ "_coupon_active_subscriptions") (active row) in
  let result := set result (code row ++ "_total_trials") (trials row) in
  let result := set result (code row ++ "_total_conversions") (convs row) in
  set result (code row ++ "_conversion_rate") (conversion_rate (rate row)).

(** The loop over the coupon rows. *)
Definition flatten_coupons (result : dict dbval) (rows : list coupon_row) : dict dbval :=
  fold_left store_coupon_row rows result.

(** The body of the loop over the signup rows (lines 207 to 209). *)
Definition store_signup_row (result : dict dbval) (row : signup_row) : dict dbval :=
  let result := set result (period row ++ "_new_signups_without_coupon") (without_coupon row) in
  let result := set result (period row ++ "_new_signups_with_coupon") (with_coupon row) in
  set result (period row ++ "_total_new_signups") (total row).

Definition flatten_signups (result : dict dbval) (rows : list signup_row) : dict dbval :=
  fold_left store_signup_row rows result.

Definition get_data_from_redshift (w : world) : M effect (dict dbval) :=
  try_except
    (dbname <- lift (environ_lookup w "DBNAME") ;;
     user <- lift (environ_lookup w "USER") ;;
     password <- lift (environ_lookup w "PASSWORD") ;;
     host <- lift (environ_lookup w "HOST") ;;
     port <- lift (environ_lookup w "PORT") ;;
     do_call (Connect dbname user password host port)
             (connect w dbname user password host port) ;;
     do_call Cursor (cursor w))
    (fun e =>
       raise_ (PyExn "RuntimeError" ("Error connecting to Redshift: " ++ exn_str e) None)) ;;
  let result : dict dbval := [] in
  (* 1) daily metrics *)
  do_call (Execute static_metrics_query) (execute w static_metrics_query) ;;
  row <- do_fetch (FetchOne static_metrics_query) (fetchone w static_metrics_query) ;;
  items <- lift (zip_row static_cols row) ;;
  let result := update result (of_items items) in
  (* 2) churn by period *)
  do_call (Execute churn_query) (execute w churn_query) ;;
  churn_row <- do_fetch (FetchOne churn_query) (fetchone w churn_query) ;;
  churn_items <- lift (zip_row churn_cols churn_row) ;;
  let result := update result (of_items churn_items) in
  (* 3) coupons *)
  do_call (Execute coupon_query) (execute w coupon_query) ;;
  coupon_rows <- do_fetch (FetchAll coupon_query) (fetchall_coupon w) ;;
  let result := flatten_coupons result coupon_rows in
  (* 4) signups by coupon *)
  do_call (Execute signup_query) (execute w signup_query) ;;
  rows <- do_fetch (FetchAll signup_query) (fetchall_signup w) ;;
  let result := flatten_signups result rows in
  do_call CursorClose (cursor_close w) ;;
  do_call ConnClose (conn_close w) ;;
  ret result.

(** [json.dumps] on one value: a Decimal is not serializable. *)
Definition to_json (v : dbval) : result json :=
  match v with
  | DNone => inr JNull
  | DBool b => inr (JBool b)
  | DInt z => inr (JInt z)
  | DFloat f => inr (JFloat f)
  | DStr s => inr (JStr s)
  | DDecimal _ =>
      inl (PyExn "TypeError" "Object of type Decimal is not JSON serializable" None)
  end.

(** [json.dumps(d)]: the document that the text encodes, key by key. *)
Fixpoint json_dumps (d : dict dbval) : result (dict json) :=
  match d with
  | [] => inr []
  | (k, v) :: rest =>
      match to_json v with
      | inl e => inl e
      | inr j =>
          match json_dumps rest with
          | inl e => inl e
          | inr rest' => inr ((k, j) :: rest')
          end
      end
  end.

Definition send_sns_notification (w : world) (message : string) : M effect unit :=
  do_call SnsClient (sns_client w) ;;
  try_except
    (topic_arn <- lift (environ_lookup w "SNS_TOPIC_ARN") ;;
     let subject := "Slack Notification" in
     let body := "Lambda job daily_bot_stats_extract failed: " ++ message in
     do_call (SnsPublish topic_arn subject body) (sns_publish w topic_arn subject body) ;;
     emit (LogInfo "SNS notification sent successfully."))
    (fun e =>
       emit (LogError ("Failed to send SNS notification: " ++ exn_str e)) ;;
       reraise e).

(** The [try] block of [lambda_handler] (lines 230 to 236). *)
Definition try_block (w : world) : M effect (dict string) :=
  redshift_data <- get_data_from_redshift w ;;
  payload <- lift (json_dumps redshift_data) ;;
  do_call (LambdaInvoke "daily_bot-stats-notify" "Event" payload) (invoke w payload) ;;
  ret [("status", "Payload sent to daily_bot_stats_notify")].

Definition lambda_handler (w : world) : M effect (dict string) :=
  try_except
    (try_block w)
    (fun e =>
       emit (LogError ("Lambda daily_bot_stats_extract failed: " ++ exn_str e)) ;;
       send_sns_notification w (exn_str e) ;;
       reraise e).

End Extract.

(* ===================================================================== *)
(** * src/revii_stats_notify.py *)
(* ===================================================================== *)

Module Notify.

Local Open Scope eff_scope.

(** ** Text with formatted values

    The report is text into which values are formatted.  The characters
    of an [int], of [None], of a [bool] and of a [str] are written out;
    the characters [str(v)] of a float, a list or a dict are kept as the
    piece [Repr v]. *)
Inductive piece : Type :=
| Lit (s : string)
| Repr (v : json).

Definition text : Type := list piece.

(** ["{v}"] in an f-string.  The interpreter refuses an [int] of more than
    4300 digits, alone or inside a list or a dict.  It can refuse a list or
    a dict for a reason that depends on its own state (nesting beyond the
    recursion limit gives [RecursionError]): [refused v] is the exception
    that [str(v)] raises then, if any. *)
Definition format (refused : json -> option py_exn) (v : json) : result text :=
  match v with
  | JStr s => inr [Lit s]
  | JInt z =>
      match str_of_int z with
      | inl e => inl e
      | inr s => inr [Lit s]
      end
  | JNull => inr [Lit "None"]
  | JBool b => inr [Lit (if b then "True" else "False")]
  | JFloat _ => inr [Repr v]
  | JArr _ | JObj _ =>
      match refused v with
      | Some e => inl e
      | None => if has_long_int v then inl digits_error else inr [Repr v]
      end
  end.

Definition newline : string := String (ascii_of_nat 10) EmptyString.

(** ["\n".join(lines)] *)
Fixpoint join_lines (lines : list text) : text :=
  match lines with
  | [] => []
  | [l] => l
  | l :: rest => (l ++ Lit newline :: join_lines rest)%list
  end.

(** The characters of a text without [Repr] pieces. *)
Fixpoint text_str (t : text) : option string :=
  match t with
  | [] => Some EmptyString
  | Lit s :: rest =>
      match text_str rest with
      | Some r => Some (s ++ r)
      | None => None
      end
  | Repr _ :: _ => None
  end.

(** ** Configuration: the module-level constants read from the
    environment when the module is loaded *)
Record config : Type := mk_config {
  SLACK_WEBHOOK_URL : string;
  API_KEY : string;
  API_URL : string;
  START : string;
  END_ : string;
  SEGMENT_A_ID : string;
  SEGMENT_B_ID : string;
  PAGE_WEB_ID : string;
  PAGE_IOS_ID : string;
  PAGE_ANDROID_ID : string;
  FEATURE_ROLEPLAY_ID : string;
  FEATURE_AUTOMATION_1_ID : string;
  FEATURE_AUTOMATION_2_ID : string;
  FEATURE_AUTOMATION_3_ID : string
}.

Definition SEGMENTS (c : config) : list (string * string) :=
  [ ("Segment-A", SEGMENT_A_ID c); ("Segment-B", SEGMENT_B_ID c) ].

Definition PAGES (c : config) : list (string * string) :=
  [ ("Web", PAGE_WEB_ID c); ("iOS", PAGE_IOS_ID c); ("Android", PAGE_ANDROID_ID c) ].

Definition FEATURE_GROUPS (c : config) : list (string * list string) :=
  [ ("Roleplay", [FEATURE_ROLEPLAY_ID c]);
    ("Automation",
     [FEATURE_AUTOMATION_1_ID c; FEATURE_AUTOMATION_2_ID c; FEATURE_AUTOMATION_3_ID c]) ].

(** ** The analytics API *)

Inductive source : Type :=
| pageEvents (pageId : string)
| featureEvents (featureId : string).

(** The pipeline document posted to the API. *)
Record pendo_query : Type := mk_query {
  name : string;
  events : source;
  first : string;
  last : string;
  segment : string;
  group_field : string;
  requestId : string
}.

(** An HTTP response: [status_code] is the number of three digits of the
    status line, [json_body] is what [Response.json()] gives. *)
Record response : Type := mk_response {
  status_code : Z;
  reason : string;
  url : string;
  body_text : string;
  json_body : result json
}.

(** [Response.ok]: [raise_for_status] does not raise. *)
Definition ok (r : response) : bool :=
  negb ((400 <=? status_code r) && (status_code r <? 600)).

(** [Response.raise_for_status()] *)
Definition raise_for_status (r : response) : result unit :=
  let s := status_code r in
  if (400 <=? s) && (s <? 500) then
    inl (PyExn "HTTPError"
           (PyStr.of_Z s ++ " Client Error: " ++ reason r ++ " for url: " ++ url r) None)
  else if (500 <=? s) && (s <? 600) then
    inl (PyExn "HTTPError"
           (PyStr.of_Z s ++ " Server Error: " ++ reason r ++ " for url: " ++ url r) None)
  else inr tt.

(** ** Python operations on decoded JSON *)

(** [v.get(k, default)] *)
Definition py_get (v : json) (k : string) (default : json) : result json :=
  match v with
  | JObj m => inr (get_default m k default)
  | _ => inl (PyExn "AttributeError"
                ("'" ++ type_name v ++ "' object has no attribute 'get'") None)
  end.

(** [v[0]]; of a text only the first byte is kept, every use goes on with
    an operation that a text does not have. *)
Definition py_first (v : json) : result json :=
  match v with
  | JArr (x :: _) => inr x
  | JArr [] => inl (PyExn "IndexError" "list index out of range" None)
  | JObj _ => inl (PyExn "KeyError" "0" None)
  | JStr (String c _) => inr (JStr (String c EmptyString))
  | JStr EmptyString => inl (PyExn "IndexError" "string index out of range" None)
  | _ => inl (PyExn "TypeError"
                ("'" ++ type_name v ++ "' object is not subscriptable") None)
  end.

(** [v[k]] for a text key *)
Definition py_item (v : json) (k : string) : result json :=
  match v with
  | JObj m =>
      match get m k with
      | Some x => inr x
      | None => inl (PyExn "KeyError" ("'" ++ k ++ "'") None)
      end
  | JArr _ => inl (PyExn "TypeError" "list indices must be integers or slices, not str" None)
  | JStr _ => inl (PyExn "TypeError" "string indices must be integers, not 'str'" None)
  | _ => inl (PyExn "TypeError"
                ("'" ++ type_name v ++ "' object is not subscriptable") None)
  end.

(** ** Events and world *)

Inductive printed : Type :=
| Status (code : Z)
| ResponseBody (head_of : string).   (* the first 1000 characters of this text *)

Inductive effect : Type :=
| PendoPost (q : pendo_query) (outcome : result response)
| SlackPost (webhook : string) (message : text) (outcome : result response)
| SnsClient (failure : option py_exn)
| SnsPublish (topic_arn : option string) (subject message : string)
             (failure : option py_exn)
| Print (what : printed)
| LogInfo (msg : text)
| LogError (msg : string).

(** What is outside the job.  The answer of the analytics API may depend
    on everything that happened before in the run. *)
Record world : Type := mk_world {
  json_loads : string -> result json;
  str_refused : json -> option py_exn;   (* [str(v)] of a list or a dict *)
  pendo_post : list effect -> pendo_query -> result response;
  slack_post : text -> result response;
  sns_client : option py_exn;
  sns_topic_arn : option string;
  sns_publish : option string -> string -> string -> option py_exn
}.

(** [requests.post(API_URL, headers=HEADERS, data=json.dumps(payload))] *)
Definition post_query (w : world) (q : pendo_query) : M effect response :=
  fun h tr =>
    let outcome := pendo_post w tr q in
    ((emit (PendoPost q outcome) ;; lift outcome) h tr).

Definition clicks_for_feature (c : config) (w : world) (seg_id feat_id : string)
  : M effect json :=
  let payload :=
    {| name := "oneFeature"; events := featureEvents feat_id;
       first := START c; last := END_ c; segment := seg_id;
       group_field := "clicks"; requestId := "oneFeature" |} in
  r <- post_query w payload ;;
  lift (raise_for_status r) ;;
  doc <- lift (json_body r) ;;
  results <- lift (py_get doc "results" (JArr [JObj []])) ;;
  row <- lift (py_first results) ;;
  lift (py_get row "clicks" (JInt 0)).

(** A row of each dataframe. *)
Record view_record : Type := mk_view {
  view_Segment : string;
  view_Page : string;
  view_Views : json
}.

Record click_record : Type := mk_click {
  click_Segment : string;
  click_Feature_Group : string;
  click_Clicks : json
}.

(** [itertools.product(xs, ys)]: the first component varies slowest. *)
Definition product (A B : Type) (xs : list A) (ys : list B) : list (A * B) :=
  flat_map (fun x => map (fun y => (x, y)) ys) xs.

(** The body of the first loop of [extract_data] (lines 86 to 120). *)
Definition view_step (c : config) (w : world) (results : list view_record)
           (cell : (string * string) * (string * string))
  : M effect (list view_record) :=
  let '((seg_name, seg_id), (page_name, page_id)) := cell in
  let payload :=
    {| name := seg_name ++ "-" ++ page_name; events := pageEvents page_id;
       first := START c; last := END_ c; segment := seg_id;
       group_field := "views"; requestId := seg_name ++ "-" ++ page_name |} in
  resp <- post_query w payload ;;
  emit (Print (Status (status_code resp))) ;;
  emit (Print (ResponseBody (body_text resp))) ;;
  lift (raise_for_status resp) ;;
  doc <- lift (json_body resp) ;;
  view_rows <- lift (py_get doc "results" (JArr [])) ;;
  total_views <-
    (if truthy view_rows
     then (row <- lift (py_first view_rows) ;; lift (py_item row "views"))
     else ret (JInt 0)) ;;
  ret (results ++ [mk_view seg_name page_name total_views])%list.

(** [sum(clicks_for_feature(seg_id, fid) for fid in feats)]: each call is
    made when the sum asks for the next item. *)
Definition sum_clicks (c : config) (w : world) (seg_id : string) (feats : list string)
  : M effect number :=
  fold_m feats (NInt 0)
    (fun acc fid => v <- clicks_for_feature c w seg_id fid ;; lift (add acc v)).

(** The body of the second loop (lines 123 to 130), over the pairs of a
    segment and a feature group. *)
Definition click_step (c : config) (w : world) (rows : list click_record)
           (cell : (string * string) * (string * list string))
  : M effect (list click_record) :=
  let '((seg_name, seg_id), (grp_name, feats)) := cell in
  total_clicks <- sum_clicks c w seg_id feats ;;
  ret (rows ++ [mk_click seg_name grp_name (json_of_number total_clicks)])%list.

Definition extract_data (c : config) (w : world)
  : M effect (list click_record * list view_record) :=
  results <- fold_m (product (SEGMENTS c) (PAGES c)) [] (view_step c w) ;;
  rows <- fold_m (product (SEGMENTS c) (FEATURE_GROUPS c)) [] (click_step c w) ;;
  let df_clicks := rows in
  let df_views := results in
  ret (df_clicks, df_views).

Definition send_sns_notification (w : world) (message : string) : M effect unit :=
  emit (SnsClient (sns_client w)) ;;
  check (sns_client w) ;;
  try_except
    (let topic_arn := sns_topic_arn w in
     let subject := "Slack Notification Error" in
     let outcome := sns_publish w topic_arn subject message in
     emit (SnsPublish topic_arn subject message outcome) ;;
     check outcome ;;
     emit (LogInfo [Lit "SNS notification sent successfully."]))
    (fun e =>
       emit (LogError ("Failed to send SNS notification: " ++ exn_str e)) ;;
       reraise e).

Definition send_to_slack (c : config) (w : world) (message : text) : M effect unit :=
  try_except
    (let outcome := slack_post w message in
     emit (SlackPost (SLACK_WEBHOOK_URL c) message outcome) ;;
     resp <- lift outcome ;;
     lift (raise_for_status resp))
    (fun e => raise_ (PyExn "Exception" ("Failed to send to Slack: " ++ exn_str e) None)).

(** ** The report *)

(** [[key.replace("_coupon_active_subscriptions", "") for key in event
      if key.endswith("_coupon_active_subscriptions")]] *)
Definition coupon_prefixes (event : dict json) : list string :=
  map (fun key => PyStr.replace key "_coupon_active_subscriptions" "")
      (filter (fun key => PyStr.endswith key "_coupon_active_subscriptions") (keys event)).

(** [p.lower() == "no coupon code"] *)
Definition is_no_coupon (p : string) : bool :=
  String.eqb (PyStr.lower p) "no coupon code".

(** [bool(k)] for [k] a [str] or [None] *)
Definition key_truthy (k : option string) : bool :=
  match k with
  | Some s => negb (String.eqb s "")
  | None => false
  end.

Definition bind_result (A B : Type) (r : result A) (k : A -> result B) : result B :=
  match r with
  | inl e => inl e
  | inr a => k a
  end.

(** The local variables of [build_message], each with the right-hand side
    of its assignment. *)
Definition total_active_users (event : dict json) : result number :=
  sum (map (fun p => get_default event (p ++ "_coupon_active_subscriptions") (JInt 0))
           (coupon_prefixes event)).

(** [next((p for p in coupon_prefixes if p.lower() == "no coupon code"), None)] *)
Definition no_coupon_key (event : dict json) : option string :=
  find is_no_coupon (coupon_prefixes event).

(** ["{k}"] for [k] a [str] or [None] *)
Definition format_key (k : option string) : string :=
  match k with
  | Some s => s
  | None => "None"
  end.

Definition trials_without_coupon (event : dict json) : json :=
  if key_truthy (no_coupon_key event)
  then get_default event (format_key (no_coupon_key event) ++ "_total_trials") (JInt 0)
  else JInt 0.

Definition trials_with_coupon (event : dict json) : result number :=
  sum (map (fun p => get_default event (p ++ "_total_trials") (JInt 0))
           (filter (fun p => negb (is_no_coupon p)) (coupon_prefixes event))).

(** The statements of [build_message] in their order: each f-string is
    evaluated where its line is appended. *)
Definition build_message (refused : json -> option py_exn) (event : dict json)
           (df_clicks : list click_record) (df_views : list view_record)
  : result text :=
  let report_date := get_default event "report_date" (JStr "") in
  bind_result (format refused report_date) (fun date_text =>
  let line1 := Lit "Stats for " :: date_text in
  bind_result (format refused (get_default event "total" (JInt 0))) (fun total_text =>
  let line2 := Lit "•  Lifetime user total: " :: total_text in
  bind_result (total_active_users event) (fun total_active_users =>
  let trials_without_coupon := trials_without_coupon event in
  bind_result (trials_with_coupon event) (fun trials_with_coupon =>
  let line3 := [Lit "•  Active snapshot stats :"] in
  bind_result (format refused (json_of_number total_active_users)) (fun active_text =>
  let line4 := Lit "   ○  Total Active Users: " :: active_text in
  bind_result (format refused trials_without_coupon) (fun without_text =>
  let line5 := Lit "   ○  Total Active Trial Users without a coupon: " :: without_text in
  bind_result (format refused (json_of_number trials_with_coupon)) (fun with_text =>
  let line6 := Lit "   ○  Total Active Trial Users with a coupon: " :: with_text in
  inr (join_lines [line1; line2; line3; line4; line5; line6])))))))).

(** [build_message] begins with [event.get]: a payload that is not a dict
    has no such attribute. *)
Definition as_dict (payload : json) : result (dict json) :=
  match payload with
  | JObj m => inr m
  | _ => inl (PyExn "AttributeError"
                ("'" ++ type_name payload ++ "' object has no attribute 'get'") None)
  end.

Definition quote : string := String (ascii_of_nat 34) EmptyString.

(** The [try] block of [lambda_handler] (lines 185 to 193). *)
Definition try_block (c : config) (w : world) (event : json) : M effect (dict json) :=
  payload <- match event with
             | JStr s => lift (json_loads w s)
             | _ => ret event
             end ;;
  dfs <- extract_data c w ;;
  let '(df_clicks, df_views) := dfs in
  message <- lift (bind_result (as_dict payload)
                     (fun d => build_message (str_refused w) d df_clicks df_views)) ;;
  emit (LogInfo (Lit ("Constructed Slack message:" ++ newline) :: message)) ;;
  send_to_slack c w message ;;
  ret [("status", JInt 200);
       ("body", JStr ("{" ++ quote ++ "message_sent" ++ quote ++ ": true}"))].

(** Its [except] block (lines 195 to 198). *)
Definition except_block (w : world) (e : py_exn) : M effect (dict json) :=
  let error_message := "Lambda job revii_stats_notify failed: " ++ exn_str e in
  emit (LogError error_message) ;;
  send_sns_notification w error_message ;;
  reraise e.

Definition lambda_handler (c : config) (w : world) (event : json) : M effect (dict json) :=
  try_except (try_block c w event) (except_block w).

End Notify.

(* ===================================================================== *)
(** * Notions used in the statements *)
(* ===================================================================== *)

Module Aux.

Import PyStr.

(** The tails of a text, the text itself first. *)
Fixpoint tails (s : string) : list string :=
  s :: match s with
       | EmptyString => []
       | String _ s' => tails s'
       end.

(** [old] has no border: no proper non-empty tail of [old] begins [old]. *)
Definition borderless (old : string) : bool :=
  match old with
  | EmptyString => false
  | String _ rest =>
      forallb (fun t => String.eqb t "" || negb (startswith old t)) (tails rest)
  end.

(** The four suffixes of the keys of a coupon, and the keys of a code. *)
Definition coupon_suffixes : list string :=
  [ "_coupon_active_subscriptions"; "_total_trials"; "_total_conversions";
    "_conversion_rate" ].

Definition coupon_keys (code : string) : list string :=
  map (fun suffix => code ++ suffix) coupon_suffixes.

(** The test of the consumer: [key.endswith("_coupon_active_subscriptions")]. *)
Definition is_coupon_key (key : string) : bool :=
  endswith key "_coupon_active_subscriptions".

(** The keys of a mapping that pass a test, in order. *)
Definition keys_where (V : Type) (test : string -> bool) (d : dict V) : list string :=
  filter test (keys d).


(** The sum of a list of integers. *)
Definition total_of (zs : list Z) : Z := fold_right Z.add 0 zs.

(** Kinds of effects of the notifier. *)
Definition is_pendo (ev : Notify.effect) : bool :=
  match ev with Notify.PendoPost _ _ => true | _ => false end.

Definition is_slack (ev : Notify.effect) : bool :=
  match ev with Notify.SlackPost _ _ _ => true | _ => false end.

(** An analytics call that did not succeed: the request itself raised, or
    the response is not [ok]. *)
Definition analytics_failed (ev : Notify.effect) : bool :=
  match ev with
  | Notify.PendoPost _ (inr resp) => negb (Notify.ok resp)
  | Notify.PendoPost _ (inl _) => true
  | _ => false
  end.

(** Every effect that a computation adds to the trace passes [P]. *)
Definition emits_only (P : Notify.effect -> bool) (A : Type) (m : M Notify.effect A)
  : Prop :=
  forall h tr, exists evs,
    fst (m h tr) = (tr ++ evs)%list /\ Forall (fun ev => P ev = true) evs.

(** A computation that posts nothing to the chat and that, when it returns,
    has met no failed analytics call. *)
Definition fail_fast (A : Type) (m : M Notify.effect A) : Prop :=
  forall h tr, exists evs,
    fst (m h tr) = (tr ++ evs)%list
    /\ Forall (fun ev => is_slack ev = false) evs
    /\ ((exists a, snd (m h tr) = inr a) ->
        Forall (fun ev => analytics_failed ev = false) evs).

End Aux.

Import Aux.

(* ===================================================================== *)
(** * The signup query of the extractor (its three CTEs) *)
(* ===================================================================== *)

Module Signups.

Import Calendar.

(** A row of [daily_bot_trial_signups_by_coupon]; [None] is SQL [NULL].
    Only the day of [signup_date] is kept: the query casts it to a date. *)
Record signup : Type := mk_signup {
  coupon_code : option string;
  signup_date : option date
}.

Definition table : Type := list signup.

(** [DATEADD(day, n, d)] and [DATEADD(month, n, d)] *)
Definition dateadd_day (n : Z) (d : date) : date := minus_days d (- n).
Definition dateadd_month (n : Z) (d : date) : date := minus_months d (- n).

(** [signup_date::date <= d], [>= d] and [< d]: a comparison with a [NULL]
    operand is not true. *)
Definition date_le (r : signup) (d : date) : bool :=
  match signup_date r with
  | Some sd => days_from_civil sd <=? days_from_civil d
  | None => false
  end.

Definition date_ge (r : signup) (d : date) : bool :=
  match signup_date r with
  | Some sd => geb sd d
  | None => false
  end.

Definition date_lt (r : signup) (d : date) : bool :=
  match signup_date r with
  | Some sd => ltb sd d
  | None => false
  end.

(** [coupon_code IS NULL OR coupon_code = 'No Coupon Code'] *)
Definition no_coupon (r : signup) : bool :=
  match coupon_code r with
  | None => true
  | Some c => String.eqb c "No Coupon Code"
  end.

(** [coupon_code IS NOT NULL AND coupon_code <> 'No Coupon Code'] *)
Definition has_coupon (r : signup) : bool :=
  match coupon_code r with
  | None => false
  | Some c => negb (String.eqb c "No Coupon Code")
  end.

(** [CASE WHEN cond THEN 1 ELSE 0 END] *)
Definition flag (cond : signup -> bool) (r : signup) : Z :=
  if cond r then 1 else 0.

(** [SUM(e)] over the selected rows: [NULL] when there is no row. *)
Definition sql_sum (zs : list Z) : option Z :=
  match zs with
  | [] => None
  | _ => Some (total_of zs)
  end.

(** [COUNT(1)] *)
Definition count_rows (rows : list signup) : Z := Z.of_nat (List.length rows).

(** A figure as the driver hands it over: an [int], or [None] for [NULL]. *)
Definition db_of (z : option Z) : dbval :=
  match z with
  | Some z => DInt z
  | None => DNone
  end.

(** The three CTEs: the literal of [period] and the [WHERE] clause. *)
Definition windows (current_date : date) : list (string * (signup -> bool)) :=
  [ ("all", fun r => date_le r (dateadd_day (-1) current_date));
    ("last_week",
     fun r => date_ge r (dateadd_day (-7) current_date)
              && date_lt r (dateadd_day 0 current_date));
    ("last_month",
     fun r => date_ge r (dateadd_month (-1) current_date)
              && date_lt r (dateadd_day 0 current_date)) ].

(** The row of one CTE. *)
Definition cte (t : table) (window : string * (signup -> bool)) : Extract.signup_row :=
  let rows := filter (snd window) t in
  Extract.mk_signup_row
    (fst window)
    (db_of (sql_sum (map (flag no_coupon) rows)))
    (db_of (sql_sum (map (flag has_coupon) rows)))
    (DInt (count_rows rows)).

(** The answer to the query: the rows of the three CTEs, one after the
    other. *)
Definition signup_rows (t : table) (current_date : date) : list Extract.signup_row :=
  map (cte t) (windows current_date).

End Signups.

(* ===================================================================== *)
(** * Observations on traces *)
(* ===================================================================== *)

Module Obs.

(** [l1] is an initial part of [l2]. *)
Definition is_prefix (A : Type) (l1 l2 : list A) : Prop :=
  exists rest, l2 = (l1 ++ rest)%list.

(** The analytics queries of a trace, in the order they were posted. *)
Definition posts (tr : list Notify.effect) : list Notify.pendo_query :=
  flat_map (fun ev => match ev with
                      | Notify.PendoPost q _ => [q]
                      | _ => []
                      end) tr.

(** What a query asks: a segment and a page or a feature. *)
Definition cell_of (q : Notify.pendo_query) : string * Notify.source :=
  (Notify.segment q, Notify.events q).

Definition asked (tr : list Notify.effect) : list (string * Notify.source) :=
  map cell_of (posts tr).

(** The grid of the notifier: for each segment each page, then for each
    segment each feature of each feature group. *)
Definition grid (c : Notify.config) : list (string * Notify.source) :=
  (flat_map (fun seg => map (fun page => (snd seg, Notify.pageEvents (snd page)))
                            (Notify.PAGES c))
            (Notify.SEGMENTS c)
   ++ flat_map (fun seg =>
                  flat_map (fun grp => map (fun fid => (snd seg, Notify.featureEvents fid))
                                           (snd grp))
                           (Notify.FEATURE_GROUPS c))
               (Notify.SEGMENTS c))%list.

(** A computation that asks the cells [cells] in order and stops at the
    first failure. *)
Definition asks (A : Type) (m : M Notify.effect A) (cells : list (string * Notify.source))
  : Prop :=
  forall h tr, exists evs,
    fst (m h tr) = (tr ++ evs)%list
    /\ is_prefix (asked evs) cells
    /\ ((exists a, snd (m h tr) = inr a) -> asked evs = cells).


(** The effects of the failure path: an error log line or a call to SNS. *)
Definition is_alert (ev : Notify.effect) : bool :=
  match ev with
  | Notify.SnsClient _ | Notify.SnsPublish _ _ _ _ | Notify.LogError _ => true
  | _ => false
  end.

(** The labels of the rows of the two dataframes. *)
Definition view_labels (df : list Notify.view_record) : list (string * string) :=
  map (fun r => (Notify.view_Segment r, Notify.view_Page r)) df.

Definition click_labels (df : list Notify.click_record) : list (string * string) :=
  map (fun r => (Notify.click_Segment r, Notify.click_Feature_Group r)) df.

(** The three suffixes of the keys of a signup period. *)
Definition signup_suffixes : list string :=
  [ "_new_signups_without_coupon"; "_new_signups_with_coupon"; "_total_new_signups" ].

(** The values of a mapping. *)
Definition values (V : Type) (d : dict V) : list V := map snd d.

(** The queries that a trace of the extractor executed, in order. *)
Definition executed (tr : list Extract.effect) : list Extract.query :=
  flat_map (fun ev => match ev with
                      | Extract.Called (Extract.Execute q) _ => [q]
                      | _ => []
                      end) tr.

(** The four queries in the order of the source. *)
Definition four_queries : list Extract.query :=
  [Extract.static_metrics_query; Extract.churn_query;
   Extract.coupon_query; Extract.signup_query].

(** The effects of the failure path of the extractor. *)
Definition extract_alert (ev : Extract.effect) : bool :=
  match ev with
  | Extract.Called Extract.SnsClient _
  | Extract.Called (Extract.SnsPublish _ _ _) _
  | Extract.LogError _ => true
  | _ => false
  end.

(** A sample environment and a sample world of the extractor in which
    every call succeeds; [static_row] is what the first [fetchone] gives. *)
Definition sample_environ : dict string :=
  [("DBNAME", "dw"); ("USER", "bot"); ("PASSWORD", "pw"); ("HOST", "h");
   ("PORT", "5439"); ("SNS_TOPIC_ARN", "arn:aws:sns:alerts")].

Definition sample_warehouse (static_row : option (list dbval))
           (coupons : list Extract.coupon_row) : Extract.world :=
  {| Extract.environ := sample_environ;
     Extract.connect := fun _ _ _ _ _ => None;
     Extract.cursor := None;
     Extract.execute := fun _ => None;
     Extract.fetchone := fun q =>
       match q with
       | Extract.static_metrics_query => inr static_row
       | _ => inr (Some (map DInt [8; 2; 1; 5; 0; 1; 0; 0; 1; 0; 3; 1; 0; 2; 1]))
       end;
     Extract.fetchall_coupon := inr coupons;
     Extract.fetchall_signup :=
       inr [Extract.mk_signup_row "all" (DInt 10) (DInt 4) (DInt 14);
            Extract.mk_signup_row "last_week" (DInt 2) (DInt 1) (DInt 3);
            Extract.mk_signup_row "last_month" (DInt 5) (DInt 2) (DInt 7)];
     Extract.cursor_close := None;
     Extract.conn_close := None;
     Extract.invoke := fun _ => None;
     Extract.sns_client := None;
     Extract.sns_publish := fun _ _ _ => None |}.

Definition sample_static_row : list dbval :=
  DStr "05/01/2025" :: map DInt [1200; 7; 3; 2; 55; 1; 4; 6; 2; 1; 9; 30; 12].

Definition sample_coupons : list Extract.coupon_row :=
  [Extract.mk_coupon_row "SAVE10" (DInt 5) (DInt 20) (DInt 8)
                         (DDecimal (DecFinite false 40 (-2)));
   Extract.mk_coupon_row "No Coupon Code" (DInt 50) (DInt 100) (DInt 60)
                         (DDecimal (DecFinite false 60 (-2)))].

(** A successful answer whose first result row carries the integer [n] in
    the field [field]. *)
Definition answers_count (resp : Notify.response) (field : string) (n : Z) : Prop :=
  Notify.ok resp = true
  /\ exists members row rest,
      Notify.json_body resp = inr (JObj members)
      /\ get members "results" = Some (JArr (JObj row :: rest))
      /\ get row field = Some (JInt n).

(** ** Sample inputs of the notifier, for the witnesses *)

Definition sample_config : Notify.config :=
  {| Notify.SLACK_WEBHOOK_URL := "https://hooks.example/T1";
     Notify.API_KEY := "key";
     Notify.API_URL := "https://analytics.example/aggregation";
     Notify.START := "1739318400000";
     Notify.END_ := "1762214400000";
     Notify.SEGMENT_A_ID := "segA";
     Notify.SEGMENT_B_ID := "segB";
     Notify.PAGE_WEB_ID := "web";
     Notify.PAGE_IOS_ID := "ios";
     Notify.PAGE_ANDROID_ID := "android";
     Notify.FEATURE_ROLEPLAY_ID := "f0";
     Notify.FEATURE_AUTOMATION_1_ID := "f1";
     Notify.FEATURE_AUTOMATION_2_ID := "f2";
     Notify.FEATURE_AUTOMATION_3_ID := "f3" |}.

(** A response with the given status and decoded body. *)
Definition sample_response (status : Z) (doc : json) : Notify.response :=
  {| Notify.status_code := status;
     Notify.reason := "";
     Notify.url := "https://analytics.example/aggregation";
     Notify.body_text := "";
     Notify.json_body := inr doc |}.

(** A world in which the analytics API gives [answer q] to the query [q]
    and the chat webhook answers with the status [slack_status]. *)
Definition sample_world (answer : Notify.pendo_query -> Notify.response)
           (slack_status : Z) : Notify.world :=
  {| Notify.json_loads := fun _ => inr JNull;
     Notify.str_refused := fun _ => None;
     Notify.pendo_post := fun _ q => inr (answer q);
     Notify.slack_post := fun _ => inr (sample_response slack_status JNull);
     Notify.sns_client := None;
     Notify.sns_topic_arn := Some "arn:aws:sns:alerts";
     Notify.sns_publish := fun _ _ _ => None |}.

(** Three views of every page, two clicks on every feature. *)
Definition sample_answer (q : Notify.pendo_query) : Notify.response :=
  sample_response 200
    (JObj [("results", JArr [JObj [("views", JInt 3); ("clicks", JInt 2)]])]).

(** The integer that a database value holds, 0 when it is not an [int]. *)
Definition int_value (v : dbval) : Z :=
  match v with DInt z => z | _ => 0 end.



(** The length of the context chain of an exception. *)
Fixpoint chain_length (e : py_exn) : nat :=
  match e with
  | PyExn _ _ None => O
  | PyExn _ _ (Some e') => S (chain_length e')
  end.

End Obs.

Import Obs.

(* ===================================================================== *)
(** * Facts about strings and dictionaries *)
(* ===================================================================== *)

Module StrFacts.

Import PyStr.

Lemma app_assoc (a b c : string) : (a ++ b) ++ c = a ++ (b ++ c).
Proof. induction a as [|x a IH]; simpl; [reflexivity | now rewrite IH]. Qed.

Lemma app_nil_r (a : string) : a ++ "" = a.
Proof. induction a as [|x a IH]; simpl; [reflexivity | now rewrite IH]. Qed.

Lemma length_app (a b : string) :
  String.length (a ++ b) = (String.length a + String.length b)%nat.
Proof. induction a as [|x a IH]; simpl; [reflexivity | now rewrite IH]. Qed.

(** Two ways of cutting the same text: one cut lies before the other. *)
Lemma app_split (a b c d : string) :
  a ++ b = c ++ d ->
  (exists m, a = c ++ m /\ d = m ++ b) \/ (exists m, c = a ++ m /\ b = m ++ d).
Proof.
  revert c. induction a as [|x a IH]; intros c H; simpl in H.
  - right. exists c. split; [reflexivity | exact H].
  - destruct c as [|y c]; simpl in H.
    + left. exists (String x a). split; [reflexivity | now rewrite <- H].
    + injection H as Hxy H. subst y.
      destruct (IH c H) as [[m [H1 H2]] | [m [H1 H2]]].
      * left. exists m. simpl. now rewrite H1.
      * right. exists m. simpl. now rewrite H1.
Qed.

Lemma app_inv_tail (a b s : string) : a ++ s = b ++ s -> a = b.
Proof.
  revert b. induction a as [|x a IH]; intros b H.
  - destruct b as [|y b]; [reflexivity|].
    apply (f_equal String.length) in H. simpl in H.
    rewrite length_app in H. lia.
  - destruct b as [|y b].
    + apply (f_equal String.length) in H. simpl in H.
      rewrite length_app in H. lia.
    + simpl in H. injection H as -> H. f_equal. now apply IH.
Qed.

Lemma startswith_spec (s p : string) :
  startswith s p = true <-> exists t, s = p ++ t.
Proof.
  revert s. induction p as [|a p IH]; intros s; simpl.
  - split; [intros _; now exists s | reflexivity].
  - destruct s as [|b s].
    + split; [discriminate | intros [t Ht]; discriminate].
    + rewrite andb_true_iff, Ascii.eqb_eq, IH. split.
      * intros [-> [t ->]]. now exists t.
      * intros [t Ht]. injection Ht as -> ->. split; [reflexivity | now exists t].
Qed.

Lemma endswith_nil (suf : string) : endswith "" suf = String.eqb "" suf.
Proof. simpl. apply orb_false_r. Qed.

Lemma endswith_cons (c : ascii) (s suf : string) :
  endswith (String c s) suf = (String.eqb (String c s) suf || endswith s suf)%bool.
Proof. reflexivity. Qed.

Lemma endswith_spec (s suf : string) :
  endswith s suf = true <-> exists p, s = p ++ suf.
Proof.
  induction s as [|c s IH].
  - rewrite endswith_nil, String.eqb_eq. split.
    + intros <-. now exists "".
    + intros [p Hp]. destruct p; simpl in Hp; [exact Hp | discriminate].
  - rewrite endswith_cons, orb_true_iff, String.eqb_eq, IH. split.
    + intros [<- | [p ->]]; [now exists "" | now exists (String c p)].
    + intros [p Hp]. destruct p as [|x p]; simpl in Hp.
      * now left.
      * right. injection Hp as _ ->. now exists p.
Qed.

Lemma endswith_app (c a : string) : endswith (c ++ a) a = true.
Proof. apply endswith_spec. now exists c. Qed.

(** A text that ends with [a] and with [b]: one of the two ends with the
    other. *)
Lemma endswith_two (c a b : string) :
  endswith (c ++ a) b = true -> endswith a b = true \/ endswith b a = true.
Proof.
  intros H. apply endswith_spec in H. destruct H as [p Hp].
  destruct (app_split _ _ _ _ Hp) as [[m [_ H2]] | [m [_ H2]]].
  - right. apply endswith_spec. now exists m.
  - left. apply endswith_spec. now exists m.
Qed.

Lemma in_tails (u v : string) : In v (tails (u ++ v)).
Proof.
  induction u as [|x u IH]; simpl.
  - destruct v; simpl; now left.
  - now right.
Qed.

(** An occurrence of a borderless [old] in [u ++ old] that starts inside a
    non-empty [u] lies inside [u]. *)
Lemma startswith_straddle (old u : string) :
  borderless old = true -> u <> "" ->
  startswith (u ++ old) old = true -> startswith u old = true.
Proof.
  intros Hb Hu H. apply startswith_spec in H. destruct H as [t Ht].
  destruct (app_split _ _ _ _ Ht) as [[m [H1 _]] | [m [H1 H2]]].
  - apply startswith_spec. now exists m.
  - destruct m as [|y m].
    + (* the occurrence is all of [u] *)
      rewrite app_nil_r in H1. apply startswith_spec. exists "".
      now rewrite app_nil_r.
    + exfalso. destruct old as [|o rest]; [discriminate Hb|].
      unfold borderless in Hb. rewrite forallb_forall in Hb.
      destruct u as [|x u]; [now apply Hu|].
      simpl in H1. injection H1 as _ H1.
      assert (Hin : In (String y m) (tails rest)) by (rewrite H1; apply in_tails).
      specialize (Hb _ Hin). simpl in Hb.
      apply negb_true_iff in Hb.
      assert (Hs : startswith (String o rest) (String y m) = true).
      { apply startswith_spec. exists t. exact H2. }
      simpl in Hs. rewrite Hs in Hb. discriminate.
Qed.

Lemma replace_from_skip_all (old new s : string) :
  replace_from old new (String.length s) s = "".
Proof. induction s as [|c s IH]; simpl; [reflexivity | exact IH]. Qed.

Lemma replace_from_cons (old new : string) (c : ascii) (s : string) :
  replace_from old new O (String c s) =
  if startswith (String c s) old
  then new ++ replace_from old new (Nat.pred (String.length old)) s
  else String c (replace_from old new O s).
Proof. reflexivity. Qed.

Lemma startswith_refl (s : string) : startswith s s = true.
Proof. apply startswith_spec. exists "". now rewrite app_nil_r. Qed.

(** Stripping a borderless suffix: when [old] does not occur in [u], the
    replacement removes exactly the [old] at the end of [u ++ old]. *)
Lemma replace_strip (old u : string) :
  borderless old = true -> contains u old = false ->
  replace (u ++ old) old "" = u.
Proof.
  intros Hb Hc.
  assert (Hrep : replace (u ++ old) old "" = replace_from old "" O (u ++ old)).
  { destruct old; [discriminate Hb | reflexivity]. }
  rewrite Hrep. clear Hrep.
  induction u as [|x u IH].
  - destruct old as [|o rest] eqn:Hold; [discriminate Hb|].
    change ("" ++ String o rest) with (String o rest).
    rewrite replace_from_cons, startswith_refl. simpl.
    apply replace_from_skip_all.
  - simpl in Hc. apply orb_false_iff in Hc. destruct Hc as [Hc1 Hc2].
    change (String x u ++ old) with (String x (u ++ old)).
    rewrite replace_from_cons.
    destruct (startswith (String x (u ++ old)) old) eqn:Hs.
    + assert (Hs' : startswith (String x u) old = true).
      { apply (startswith_straddle old (u := String x u) Hb); [discriminate | exact Hs]. }
      rewrite Hs' in Hc1. discriminate.
    + f_equal. now apply IH.
Qed.

End StrFacts.

Module DictFacts.

Section Facts.
Variable V : Type.
Implicit Types (d : dict V) (k : string) (v : V).

Lemma get_set_same d k v : get (set d k v) k = Some v.
Proof.
  induction d as [|[k' v'] d IH]; simpl.
  - now rewrite String.eqb_refl.
  - destruct (String.eqb k' k) eqn:E; simpl; rewrite E; [reflexivity | exact IH].
Qed.

Lemma get_set_other d k k' v : k <> k' -> get (set d k v) k' = get d k'.
Proof.
  intros H. induction d as [|[k0 v0] d IH]; simpl.
  - apply String.eqb_neq in H. now rewrite H.
  - destruct (String.eqb k0 k) eqn:E; simpl.
    + apply String.eqb_eq in E. subst k0.
      apply String.eqb_neq in H. now rewrite H.
    + now rewrite IH.
Qed.

Lemma get_none_iff d k : get d k = None <-> ~ In k (keys d).
Proof.
  induction d as [|[k0 v0] d IH]; simpl.
  - tauto.
  - destruct (String.eqb k0 k) eqn:E.
    + apply String.eqb_eq in E. split; [discriminate | intros H; exfalso; apply H; now left].
    + apply String.eqb_neq in E. rewrite IH. tauto.
Qed.

(** Storing under a present key keeps the keys; under a new one it adds the
    key at the end. *)
Lemma keys_set_present d k v : In k (keys d) -> keys (set d k v) = keys d.
Proof.
  induction d as [|[k0 v0] d IH]; simpl; [tauto|].
  intros H. destruct (String.eqb k0 k) eqn:E; simpl; [reflexivity|].
  apply String.eqb_neq in E. f_equal. apply IH. tauto.
Qed.

Lemma keys_set_absent d k v : ~ In k (keys d) -> keys (set d k v) = (keys d ++ [k])%list.
Proof.
  induction d as [|[k0 v0] d IH]; simpl; [reflexivity|].
  intros H. destruct (String.eqb k0 k) eqn:E; simpl.
  - apply String.eqb_eq in E. tauto.
  - f_equal. apply IH. tauto.
Qed.

Lemma in_keys_set d k v x : In x (keys (set d k v)) <-> x = k \/ In x (keys d).
Proof.
  destruct (in_dec string_dec k (keys d)) as [Hin | Hout].
  - rewrite keys_set_present by exact Hin. split; [tauto | intros [-> | H]; assumption].
  - rewrite keys_set_absent by exact Hout. rewrite in_app_iff. simpl.
    split; [intros [H | [H | []]]; auto | intros [H | H]; auto].
Qed.

Lemma keys_where_set_other (test : string -> bool) d k v :
  test k = false -> keys_where test (set d k v) = keys_where test d.
Proof.
  intros H. unfold keys_where.
  destruct (in_dec string_dec k (keys d)) as [Hin | Hout].
  - now rewrite keys_set_present.
  - rewrite keys_set_absent by exact Hout.
    rewrite filter_app. simpl. rewrite H. apply app_nil_r.
Qed.

Lemma keys_where_set_new (test : string -> bool) d k v :
  test k = true -> ~ In k (keys d) ->
  keys_where test (set d k v) = (keys_where test d ++ [k])%list.
Proof.
  intros H Hout. unfold keys_where.
  rewrite keys_set_absent by exact Hout.
  rewrite filter_app. simpl. now rewrite H.
Qed.

Lemma in_keys_update d items x :
  In x (keys (update d items)) -> In x (keys d) \/ In x (map fst items).
Proof.
  unfold update. revert d. induction items as [|[k v] items IH]; intros d; simpl.
  - tauto.
  - intros H. apply IH in H. destruct H as [H | H]; [|tauto].
    apply in_keys_set in H. destruct H as [-> | H]; tauto.
Qed.

End Facts.

End DictFacts.

(* ===================================================================== *)
(** * The coupon flattening of the extractor *)
(* ===================================================================== *)

Module CouponFacts.

Import PyStr StrFacts DictFacts Extract.

(** Among the four suffixes none ends another. *)
Lemma suffix_ends_suffix (a b : string) :
  In a coupon_suffixes -> In b coupon_suffixes -> endswith a b = true -> a = b.
Proof.
  unfold coupon_suffixes. simpl.
  intros [<-|[<-|[<-|[<-|[]]]]] [<-|[<-|[<-|[<-|[]]]]] H;
    first [reflexivity | vm_compute in H; discriminate H].
Qed.

(** Two coupon keys are equal only for the same code and the same suffix. *)
Lemma coupon_key_inj (c1 c2 a b : string) :
  In a coupon_suffixes -> In b coupon_suffixes ->
  c1 ++ a = c2 ++ b -> c1 = c2 /\ a = b.
Proof.
  intros Ha Hb H.
  assert (E : a = b).
  { pose proof (endswith_app c2 b) as He. rewrite <- H in He.
    destruct (endswith_two _ _ _ He) as [H1 | H1].
    - now apply suffix_ends_suffix.
    - symmetry. now apply suffix_ends_suffix. }
  subst b. split; [now apply app_inv_tail with a | reflexivity].
Qed.

Lemma in_coupon_keys (c k : string) :
  In k (coupon_keys c) <-> exists a, In a coupon_suffixes /\ k = c ++ a.
Proof.
  unfold coupon_keys. rewrite in_map_iff. split; intros [a [H1 H2]]; exists a; auto.
Qed.

Lemma coupon_keys_other_code (c1 c2 k : string) :
  c1 <> c2 -> In k (coupon_keys c1) -> ~ In k (coupon_keys c2).
Proof.
  intros Hne H1 H2. apply in_coupon_keys in H1, H2.
  destruct H1 as [a [Ha ->]]. destruct H2 as [b [Hb E]].
  destruct (coupon_key_inj _ _ Ha Hb E) as [E' _]. contradiction.
Qed.

(** One pass of the loop body: the keys. *)
Lemma keys_store_coupon_row (d : dict dbval) (r : coupon_row) (k : string) :
  In k (keys (store_coupon_row d r)) <-> In k (keys d) \/ In k (coupon_keys (code r)).
Proof.
  unfold store_coupon_row, coupon_keys, coupon_suffixes. simpl.
  rewrite !in_keys_set. intuition (subst; auto).
Qed.

(** One pass of the loop body: a key of another code is not touched. *)
Lemma get_store_coupon_row_other (d : dict dbval) (r : coupon_row) (k : string) :
  ~ In k (coupon_keys (code r)) -> get (store_coupon_row d r) k = get d k.
Proof.
  unfold store_coupon_row, coupon_keys, coupon_suffixes. simpl. intros H.
  rewrite !get_set_other; [reflexivity | | | | ]; intros E; apply H; subst k; tauto.
Qed.

(** One pass of the loop body: the four values of the row. *)
Lemma get_store_coupon_row (d : dict dbval) (r : coupon_row) :
  let m := store_coupon_row d r in
  get m (code r ++ "_coupon_active_subscriptions") = Some (active r)
  /\ get m (code r ++ "_total_trials") = Some (trials r)
  /\ get m (code r ++ "_total_conversions") = Some (convs r)
  /\ get m (code r ++ "_conversion_rate") = Some (conversion_rate (rate r)).
Proof.
  assert (Hne : forall a b, In a coupon_suffixes -> In b coupon_suffixes ->
                            a <> b -> code r ++ a <> code r ++ b).
  { intros a b Ha Hb Hab E. destruct (coupon_key_inj _ _ Ha Hb E). contradiction. }
  unfold store_coupon_row. cbv zeta.
  repeat split.
  - rewrite 3 get_set_other
      by (apply Hne; unfold coupon_suffixes; simpl; try tauto; discriminate).
    apply get_set_same.
  - rewrite 2 get_set_other
      by (apply Hne; unfold coupon_suffixes; simpl; try tauto; discriminate).
    apply get_set_same.
  - rewrite get_set_other
      by (apply Hne; unfold coupon_suffixes; simpl; try tauto; discriminate).
    apply get_set_same.
  - apply get_set_same.
Qed.

(** What line 161 stores: the float of a Decimal, any other value as it
    is. *)
Lemma conversion_rate_value (v : dbval) :
  (forall d, v = DDecimal d -> conversion_rate v = DFloat (float_of_decimal d))
  /\ (is_decimal v = false -> conversion_rate v = v).
Proof.
  split.
  - intros d ->. reflexivity.
  - destruct v; first [reflexivity | discriminate].
Qed.

Lemma flatten_coupons_app (d : dict dbval) (rows1 rows2 : list coupon_row) :
  flatten_coupons d (rows1 ++ rows2) = flatten_coupons (flatten_coupons d rows1) rows2.
Proof. unfold flatten_coupons. apply fold_left_app. Qed.

(** The loop: the keys. *)
Lemma keys_flatten_coupons (rows : list coupon_row) (d : dict dbval) (k : string) :
  In k (keys (flatten_coupons d rows)) <->
  In k (keys d) \/ exists r, In r rows /\ In k (coupon_keys (code r)).
Proof.
  revert d. induction rows as [|r rows IH]; intros d.
  - simpl. split; [tauto | intros [H | [r [[] _]]]; exact H].
  - change (flatten_coupons d (r :: rows)) with (flatten_coupons (store_coupon_row d r) rows).
    rewrite IH, keys_store_coupon_row. split.
    + intros [[H | H] | [r' [H1 H2]]]; [now left | right; exists r; simpl; auto |].
      right. exists r'. simpl. auto.
    + intros [H | [r' [[<- | H1] H2]]]; [tauto | tauto |].
      right. exists r'. auto.
Qed.

(** The loop: rows of other codes leave a key alone. *)
Lemma get_flatten_coupons_other (rows : list coupon_row) (d : dict dbval) (k : string) :
  (forall r, In r rows -> ~ In k (coupon_keys (code r))) ->
  get (flatten_coupons d rows) k = get d k.
Proof.
  revert d. induction rows as [|r rows IH]; intros d H; [reflexivity|].
  change (flatten_coupons d (r :: rows)) with (flatten_coupons (store_coupon_row d r) rows).
  rewrite IH by (intros r' Hr'; apply H; now right).
  apply get_store_coupon_row_other. apply H. now left.
Qed.

(** The loop: the mapping holds the values of the last row of each code. *)
Lemma get_flatten_coupons_last
      (d : dict dbval) (before after : list coupon_row) (r : coupon_row) :
  (forall r', In r' after -> code r' <> code r) ->
  let m := flatten_coupons d (before ++ r :: after) in
  get m (code r ++ "_coupon_active_subscriptions") = Some (active r)
  /\ get m (code r ++ "_total_trials") = Some (trials r)
  /\ get m (code r ++ "_total_conversions") = Some (convs r)
  /\ get m (code r ++ "_conversion_rate") = Some (conversion_rate (rate r)).
Proof.
  intros Hafter m. subst m.
  rewrite flatten_coupons_app.
  change (flatten_coupons (flatten_coupons d before) (r :: after))
    with (flatten_coupons (store_coupon_row (flatten_coupons d before) r) after).
  assert (Hk : forall a, In a coupon_suffixes ->
                         forall r', In r' after -> ~ In (code r ++ a) (coupon_keys (code r'))).
  { intros a Ha r' Hr'. apply coupon_keys_other_code with (c1 := code r).
    - intros E. apply (Hafter r' Hr'). now symmetry.
    - apply in_coupon_keys. now exists a. }
  rewrite !get_flatten_coupons_other
    by (apply Hk; unfold coupon_suffixes; simpl; tauto).
  apply get_store_coupon_row.
Qed.

(** Every code of the rows has a last row. *)
Lemma last_row_of_code (rows : list coupon_row) (c : string) :
  In c (map code rows) ->
  exists before r after,
    rows = (before ++ r :: after)%list /\ code r = c
    /\ forall r', In r' after -> code r' <> c.
Proof.
  induction rows as [|x rows IH]; intros Hin; [contradiction|].
  destruct (in_dec string_dec c (map code rows)) as [Hlater | Hnot].
  - destruct (IH Hlater) as [before [r [after [-> [Hc Hafter]]]]].
    exists (x :: before), r, after. repeat split; assumption.
  - destruct Hin as [Hx | Hin]; [|contradiction].
    exists [], x, rows. repeat split; [exact Hx|].
    intros r' Hr' E. apply Hnot. rewrite <- E. now apply in_map.
Qed.

End CouponFacts.

Import PyStr StrFacts DictFacts CouponFacts.

(** C6.  The flattening loop of [get_data_from_redshift] (lines 156 to 161):
    for every coupon code C present in the rows the mapping gets exactly the
    four keys [C_coupon_active_subscriptions], [C_total_trials],
    [C_total_conversions] and [C_conversion_rate], and no other key.  The
    four keys hold the values of the row of C (of its last row, should the
    result list a code twice): the first three as they are; under the fourth
    the float [float(d)] when the rate of the row is the Decimal [d], and
    the rate of the row itself when it is not a Decimal. *)
Theorem coupon_flattening_four_keys
        (result : dict dbval) (rows : list Extract.coupon_row) (c : string) :
  In c (map Extract.code rows) ->
  let m := Extract.flatten_coupons result rows in
  (exists before r after,
      rows = (before ++ r :: after)%list
      /\ Extract.code r = c
      /\ (forall r', In r' after -> Extract.code r' <> c)
      /\ get m (c ++ "_coupon_active_subscriptions") = Some (Extract.active r)
      /\ get m (c ++ "_total_trials") = Some (Extract.trials r)
      /\ get m (c ++ "_total_conversions") = Some (Extract.convs r)
      /\ (forall d, Extract.rate r = DDecimal d ->
                    get m (c ++ "_conversion_rate") = Some (DFloat (float_of_decimal d)))
      /\ (is_decimal (Extract.rate r) = false ->
          get m (c ++ "_conversion_rate") = Some (Extract.rate r)))
  /\ (forall k, In k (keys m) <->
                In k (keys result)
                \/ exists r', In r' rows /\ In k (coupon_keys (Extract.code r'))).
Proof.
  intros Hin m. split.
  - destruct (last_row_of_code rows c Hin) as [before [r [after [Hrows [Hc Hafter]]]]].
    exists before, r, after. subst c.
    split; [exact Hrows|]. split; [reflexivity|]. split; [exact Hafter|].
    subst m. rewrite Hrows.
    destruct (@get_flatten_coupons_last result before after r Hafter)
      as [H1 [H2 [H3 H4]]].
    destruct (conversion_rate_value (Extract.rate r)) as [Hdec Hother].
    repeat split; try assumption.
    + intros d Hd. rewrite H4. f_equal. now apply Hdec.
    + intros Hd. rewrite H4. f_equal. now apply Hother.
  - intros k. apply keys_flatten_coupons.
Qed.

(** The scenario of the specification: the rows of SAVE10 and of
    No Coupon Code, SAVE10 read back; its fixed-point 0.40 is stored as the
    float nearest to 0.4. *)
Lemma coupon_flattening_four_keys_witness :
  let save10 :=
    Extract.mk_coupon_row "SAVE10" (DInt 5) (DInt 20) (DInt 8)
                          (DDecimal (DecFinite false 40 (-2))) in
  let none :=
    Extract.mk_coupon_row "No Coupon Code" (DInt 50) (DInt 100) (DInt 60)
                          (DDecimal (DecFinite false 60 (-2))) in
  let rows := [save10; none] in
  let m := Extract.flatten_coupons [] rows in
  (exists before r after,
      rows = (before ++ r :: after)%list
      /\ Extract.code r = "SAVE10"
      /\ (forall r', In r' after -> Extract.code r' <> "SAVE10")
      /\ get m "SAVE10_coupon_active_subscriptions" = Some (Extract.active r)
      /\ get m "SAVE10_total_trials" = Some (Extract.trials r)
      /\ get m "SAVE10_total_conversions" = Some (Extract.convs r)
      /\ (forall d, Extract.rate r = DDecimal d ->
                    get m "SAVE10_conversion_rate" = Some (DFloat (float_of_decimal d)))
      /\ (is_decimal (Extract.rate r) = false ->
          get m "SAVE10_conversion_rate" = Some (Extract.rate r)))
  /\ (forall k, In k (keys m) <->
                In k (keys (@nil (string * dbval)))
                \/ exists r', In r' rows /\ In k (coupon_keys (Extract.code r'))).
Proof.
  intros save10 none rows m.
  apply (@coupon_flattening_four_keys [] rows "SAVE10").
  simpl. now left.
Defined.

(** The same scenario, evaluated. *)
Lemma coupon_flattening_scenario :
  Extract.flatten_coupons []
    [Extract.mk_coupon_row "SAVE10" (DInt 5) (DInt 20) (DInt 8)
                           (DDecimal (DecFinite false 40 (-2)));
     Extract.mk_coupon_row "No Coupon Code" (DInt 50) (DInt 100) (DInt 60)
                           (DDecimal (DecFinite false 60 (-2)))]
  = [("SAVE10_coupon_active_subscriptions", DInt 5);
     ("SAVE10_total_trials", DInt 20);
     ("SAVE10_total_conversions", DInt 8);
     ("SAVE10_conversion_rate", DFloat (S754_finite false 7205759403792794 (-54)));
     ("No Coupon Code_coupon_active_subscriptions", DInt 50);
     ("No Coupon Code_total_trials", DInt 100);
     ("No Coupon Code_total_conversions", DInt 60);
     ("No Coupon Code_conversion_rate",
      DFloat (S754_finite false 5404319552844595 (-53)))].
Proof. reflexivity. Qed.

(** C3, the claim as stated fails: a conversion rate that the warehouse
    returns as an integer is stored as that integer, not as a float. *)
Lemma conversion_rate_integer_stays_integer :
  let r := Extract.mk_coupon_row "SAVE10" (DInt 5) (DInt 20) (DInt 8) (DInt 0) in
  exists v, get (Extract.flatten_coupons [] [r]) "SAVE10_conversion_rate" = Some v
            /\ v = DInt 0 /\ is_float v = false.
Proof. exists (DInt 0). repeat split. Qed.

(** C3, amended.  For every coupon row, the value stored under
    [C_conversion_rate] is never a fixed-point decimal.  It comes from the
    row of that code (its last row, should the result list the code twice):
    when the rate of that row is the fixed-point decimal [d] it is the float
    [float(d)]; when the rate is not a fixed-point decimal (an integer, a
    null, a float) it is the rate itself, unchanged.  So it is a float
    exactly when the rate is a fixed-point decimal or a float. *)
Theorem conversion_rate_normalized
        (result : dict dbval) (rows : list Extract.coupon_row)
        (r : Extract.coupon_row) :
  In r rows ->
  exists r' v,
    In r' rows /\ Extract.code r' = Extract.code r
    /\ get (Extract.flatten_coupons result rows)
           (Extract.code r ++ "_conversion_rate") = Some v
    /\ is_decimal v = false
    /\ (forall d, Extract.rate r' = DDecimal d -> v = DFloat (float_of_decimal d))
    /\ (is_decimal (Extract.rate r') = false -> v = Extract.rate r')
    /\ (is_float v = true <->
        is_decimal (Extract.rate r') = true \/ is_float (Extract.rate r') = true).
Proof.
  intros Hin.
  assert (Hc : In (Extract.code r) (map Extract.code rows)) by now apply in_map.
  destruct (last_row_of_code rows _ Hc) as [before [r' [after [Hrows [Hcode Hafter]]]]].
  exists r', (Extract.conversion_rate (Extract.rate r')).
  split; [rewrite Hrows; apply in_or_app; right; now left|].
  split; [exact Hcode|].
  split.
  - rewrite Hrows, <- Hcode.
    rewrite <- Hcode in Hafter.
    apply (@get_flatten_coupons_last result before after r' Hafter).
  - destruct (conversion_rate_value (Extract.rate r')) as [Hdec Hother].
    split; [destruct (Extract.rate r'); reflexivity|].
    split; [exact Hdec|]. split; [exact Hother|].
    destruct (Extract.rate r'); simpl; split; intros H;
      first [reflexivity | discriminate H | tauto | destruct H; discriminate].
Qed.

(** A fixed-point 0.40 is stored as the float nearest to 0.4. *)
Lemma conversion_rate_normalized_witness :
  let r := Extract.mk_coupon_row "SAVE10" (DInt 5) (DInt 20) (DInt 8)
                                 (DDecimal (DecFinite false 40 (-2))) in
  exists r' v,
    In r' [r] /\ Extract.code r' = "SAVE10"
    /\ get (Extract.flatten_coupons [] [r]) "SAVE10_conversion_rate" = Some v
    /\ is_decimal v = false
    /\ (forall d, Extract.rate r' = DDecimal d -> v = DFloat (float_of_decimal d))
    /\ (is_decimal (Extract.rate r') = false -> v = Extract.rate r')
    /\ (is_float v = true <->
        is_decimal (Extract.rate r') = true \/ is_float (Extract.rate r') = true).
Proof.
  intros r.
  apply (@conversion_rate_normalized [] [r] r).
  simpl. now left.
Defined.

(** The value of the scenario: [float(Decimal("0.40"))] is the binary64
    number 0x1.999999999999ap-2. *)
Lemma conversion_rate_of_forty_hundredths :
  let r := Extract.mk_coupon_row "SAVE10" (DInt 5) (DInt 20) (DInt 8)
                                 (DDecimal (DecFinite false 40 (-2))) in
  get (Extract.flatten_coupons [] [r]) "SAVE10_conversion_rate"
  = Some (DFloat (S754_finite false 7205759403792794 (-54))).
Proof. reflexivity. Qed.

(* ===================================================================== *)
(** * The run of [get_data_from_redshift] *)
(* ===================================================================== *)

Module ExtractFacts.

Import Extract.

(** Case analysis on the next answer of the world. *)
Ltac world_case w :=
  match goal with
  | |- context [get (environ w) ?k] => destruct (get (environ w) k) eqn:?
  | |- context [connect w ?a ?b ?c ?d ?e] => destruct (connect w a b c d e) eqn:?
  | |- context [cursor w] => destruct (cursor w) eqn:?
  | |- context [execute w ?q] => destruct (execute w q) eqn:?
  | |- context [fetchone w ?q] => destruct (fetchone w q) as [?|[?|]] eqn:?
  | |- context [fetchall_coupon w] => destruct (fetchall_coupon w) eqn:?
  | |- context [fetchall_signup w] => destruct (fetchall_signup w) eqn:?
  | |- context [cursor_close w] => destruct (cursor_close w) eqn:?
  | |- context [conn_close w] => destruct (conn_close w) eqn:?
  end.

Ltac unfold_run :=
  unfold run, get_data_from_redshift, do_call, do_fetch, try_except, bind, lift,
    check, emit, ret, raise_, reraise, environ_lookup, zip_row, failure_of.

(** What a run of [get_data_from_redshift] ends with: either an exception,
    and then no successful [conn.close()] is in the trace; or the mapping
    built from the four answers of the warehouse, and then [conn.close()]
    was the last call. *)
Lemma get_data_outcome (w : world) :
  match snd (run (get_data_from_redshift w)) with
  | inl _ => ~ In (Called ConnClose None) (fst (run (get_data_from_redshift w)))
  | inr result =>
      In (Called ConnClose None) (fst (run (get_data_from_redshift w)))
      /\ exists static_row churn_row coupons signups,
          fetchone w static_metrics_query = inr (Some static_row)
          /\ fetchone w churn_query = inr (Some churn_row)
          /\ fetchall_coupon w = inr coupons
          /\ fetchall_signup w = inr signups
          /\ result =
             flatten_signups
               (flatten_coupons
                  (update (update [] (of_items (combine static_cols static_row)))
                          (of_items (combine churn_cols churn_row)))
                  coupons)
               signups
  end.
Proof.
  unfold_run.
  cbn -[combine update of_items flatten_coupons flatten_signups static_cols churn_cols].
  repeat (world_case w;
          cbn -[combine update of_items flatten_coupons flatten_signups
                static_cols churn_cols]).
  all: try (intros Hin; intuition discriminate).
  split; [tauto | eauto 10].
Qed.

Lemma json_dumps_keys (d : dict dbval) (payload : dict json) :
  json_dumps d = inr payload -> keys payload = keys d.
Proof.
  revert payload. induction d as [|[k v] d IH]; intros payload H; simpl in H.
  - now injection H as <-.
  - destruct (to_json v); [discriminate|].
    destruct (json_dumps d); [discriminate|].
    injection H as <-. simpl. f_equal. now apply IH.
Qed.

End ExtractFacts.

(** C4, the claim as stated fails: in a run where the connection is opened
    and the first query raises, the function ends with the error and
    [conn.close()] is never called. *)
Lemma connection_left_open_on_query_error :
  let w :=
    {| Extract.environ := [("DBNAME", "dw"); ("USER", "bot"); ("PASSWORD", "pw");
                           ("HOST", "h"); ("PORT", "5439")];
       Extract.connect := fun _ _ _ _ _ => None;
       Extract.cursor := None;
       Extract.execute := fun _ => Some (PyExn "OperationalError" "timeout" None);
       Extract.fetchone := fun _ => inr None;
       Extract.fetchall_coupon := inr [];
       Extract.fetchall_signup := inr [];
       Extract.cursor_close := None;
       Extract.conn_close := None;
       Extract.invoke := fun _ => None;
       Extract.sns_client := None;
       Extract.sns_publish := fun _ _ _ => None |} in
  run (Extract.get_data_from_redshift w)
  = ([Extract.Called (Extract.Connect "dw" "bot" "pw" "h" "5439") None;
      Extract.Called Extract.Cursor None;
      Extract.Called (Extract.Execute Extract.static_metrics_query)
                     (Some (PyExn "OperationalError" "timeout" None))],
     inl (PyExn "OperationalError" "timeout" None))
  /\ forall failure,
      ~ In (Extract.Called Extract.ConnClose failure)
           (fst (run (Extract.get_data_from_redshift w))).
Proof.
  split; [reflexivity|].
  intros failure H. vm_compute in H. intuition discriminate.
Qed.

(** C4, amended.  The connection opened by [get_data_from_redshift] is
    closed before the function ends exactly when the function returns
    normally: when connecting, the four queries, the row handling and the
    closing calls all succeed, [conn.close()] is called; when any of them
    raises, the error leaves the function and no successful [conn.close()]
    has been made. *)
Theorem connection_closed_iff_success (w : Extract.world) :
  (exists result, snd (run (Extract.get_data_from_redshift w)) = inr result)
  <-> In (Extract.Called Extract.ConnClose None)
         (fst (run (Extract.get_data_from_redshift w))).
Proof.
  pose proof (ExtractFacts.get_data_outcome w) as H.
  destruct (snd (run (Extract.get_data_from_redshift w))) as [e | result].
  - split; [intros [result Hr]; discriminate | intros Hin; contradiction].
  - split; [intros _; apply H | intros _; now exists result].
Qed.

(* ===================================================================== *)
(** * Key discovery on the flattened mapping *)
(* ===================================================================== *)

Module KeyFacts.

Import Extract.

Lemma suffix_borderless : borderless "_coupon_active_subscriptions" = true.
Proof. vm_compute. reflexivity. Qed.

(** A key made with one of the other three suffixes is not found. *)
Lemma other_suffix_not_coupon_key (c a : string) :
  In a coupon_suffixes -> a <> "_coupon_active_subscriptions" ->
  endswith (c ++ a) "_coupon_active_subscriptions" = false.
Proof.
  intros Ha Hne.
  destruct (endswith (c ++ a) "_coupon_active_subscriptions") eqn:E; [|reflexivity].
  exfalso. apply Hne.
  assert (Hs : In "_coupon_active_subscriptions" coupon_suffixes) by (simpl; tauto).
  destruct (endswith_two _ _ _ E) as [H | H].
  - now apply suffix_ends_suffix.
  - symmetry. now apply suffix_ends_suffix.
Qed.

(** Neither is a key of the signup loop. *)
Lemma signup_key_not_coupon_key (p a : string) :
  In a ["_new_signups_without_coupon"; "_new_signups_with_coupon"; "_total_new_signups"] ->
  endswith (p ++ a) "_coupon_active_subscriptions" = false.
Proof.
  intros Ha.
  destruct (endswith (p ++ a) "_coupon_active_subscriptions") eqn:E; [|reflexivity].
  exfalso. simpl in Ha.
  destruct (endswith_two _ _ _ E) as [H | H];
    destruct Ha as [<-|[<-|[<-|[]]]]; vm_compute in H; discriminate H.
Qed.

Lemma keys_where_store_coupon_row (d : dict dbval) (r : coupon_row) :
  ~ In (code r ++ "_coupon_active_subscriptions") (keys d) ->
  keys_where is_coupon_key (store_coupon_row d r)
  = (keys_where is_coupon_key d
     ++ [(code r ++ "_coupon_active_subscriptions")%string])%list.
Proof.
  intros Hnew. unfold store_coupon_row. cbv zeta.
  rewrite 3 keys_where_set_other
    by (apply other_suffix_not_coupon_key; [simpl; tauto | discriminate]).
  apply keys_where_set_new; [apply endswith_app | exact Hnew].
Qed.

Lemma keys_where_flatten_coupons (rows : list coupon_row) (d : dict dbval) :
  NoDup (map code rows) ->
  (forall r, In r rows -> ~ In (code r ++ "_coupon_active_subscriptions") (keys d)) ->
  keys_where is_coupon_key (flatten_coupons d rows)
  = (keys_where is_coupon_key d
     ++ map (fun r => (code r ++ "_coupon_active_subscriptions")%string) rows)%list.
Proof.
  revert d. induction rows as [|r rows IH]; intros d Hnd Hnew.
  - simpl. now rewrite List.app_nil_r.
  - change (flatten_coupons d (r :: rows)) with (flatten_coupons (store_coupon_row d r) rows).
    simpl in Hnd. inversion Hnd as [|? ? Hr Hnd']. subst.
    rewrite IH.
    + rewrite keys_where_store_coupon_row by (apply Hnew; now left).
      rewrite <- List.app_assoc. reflexivity.
    + exact Hnd'.
    + intros r' Hr' Hin. apply keys_store_coupon_row in Hin.
      destruct Hin as [Hin | Hin].
      * apply (Hnew r'); [now right | exact Hin].
      * assert (Hne : code r' <> code r).
        { intros E. apply Hr. rewrite <- E. now apply in_map. }
        apply (@coupon_keys_other_code (code r') (code r)
                 (code r' ++ "_coupon_active_subscriptions") Hne); [|exact Hin].
        apply in_coupon_keys. exists "_coupon_active_subscriptions".
        split; [simpl; tauto | reflexivity].
Qed.

Lemma keys_where_flatten_signups (rows : list signup_row) (d : dict dbval) :
  keys_where is_coupon_key (flatten_signups d rows) = keys_where is_coupon_key d.
Proof.
  revert d. induction rows as [|r rows IH]; intros d; [reflexivity|].
  change (flatten_signups d (r :: rows)) with (flatten_signups (store_signup_row d r) rows).
  rewrite IH. unfold store_signup_row. cbv zeta.
  rewrite 3 keys_where_set_other by (apply signup_key_not_coupon_key; simpl; tauto).
  reflexivity.
Qed.

(** The columns of the first two queries are not coupon keys. *)
Lemma fixed_columns_not_coupon_keys :
  forallb (fun k => negb (endswith k "_coupon_active_subscriptions"))
          (static_cols ++ churn_cols) = true.
Proof. vm_compute. reflexivity. Qed.

Lemma in_keys_of_row (cols : list string) (row : list dbval) (k : string) :
  In k (keys (of_items (combine cols row))) -> In k cols.
Proof.
  intros H. unfold of_items in H. apply in_keys_update in H.
  destruct H as [[] | H].
  apply in_map_iff in H. destruct H as [[k' v] [<- H]].
  now apply in_combine_l in H.
Qed.

Lemma base_has_no_coupon_key (static_row churn_row : list dbval) (k : string) :
  In k (keys (update (update [] (of_items (combine static_cols static_row)))
                     (of_items (combine churn_cols churn_row)))) ->
  endswith k "_coupon_active_subscriptions" = false.
Proof.
  intros H.
  assert (Hin : In k (static_cols ++ churn_cols)%list).
  { apply in_or_app.
    apply in_keys_update in H. destruct H as [H | H].
    - apply in_keys_update in H. destruct H as [[] | H].
      left. now apply in_keys_of_row with static_row.
    - right. now apply in_keys_of_row with churn_row. }
  pose proof fixed_columns_not_coupon_keys as Hf.
  rewrite forallb_forall in Hf. specialize (Hf k Hin).
  now apply negb_true_iff in Hf.
Qed.

Lemma keys_where_nil (V : Type) (test : string -> bool) (d : dict V) :
  (forall k, In k (keys d) -> test k = false) -> keys_where test d = [].
Proof.
  unfold keys_where. induction (keys d) as [|k ks IH]; intros H; [reflexivity|].
  simpl. rewrite H by now left. apply IH. intros k' Hk'. apply H. now right.
Qed.

End KeyFacts.

Import ExtractFacts KeyFacts.

(** C7.  Round trip of flattening and key discovery.  Take a run of
    [get_data_from_redshift] that returns, with distinct coupon codes none of
    which contains the text [_coupon_active_subscriptions]; serialize the
    mapping as the extractor does.  Then the prefixes that [build_message]
    discovers (the keys ending in [_coupon_active_subscriptions], with that
    text removed) are exactly the coupon codes of the rows, in the order of
    the rows: none is missing and none is added. *)
Theorem coupon_codes_round_trip
        (w : Extract.world) (result : dict dbval) (payload : dict json)
        (coupons : list Extract.coupon_row) :
  snd (run (Extract.get_data_from_redshift w)) = inr result ->
  Extract.fetchall_coupon w = inr coupons ->
  NoDup (map Extract.code coupons) ->
  (forall r, In r coupons ->
             contains (Extract.code r) "_coupon_active_subscriptions" = false) ->
  Extract.json_dumps result = inr payload ->
  Notify.coupon_prefixes payload = map Extract.code coupons.
Proof.
  intros Hrun Hfetch Hnd Hclean Hdump.
  pose proof (get_data_outcome w) as H. rewrite Hrun in H.
  destruct H as [_ [static_row [churn_row [coupons' [signups [_ [_ [Hc [_ ->]]]]]]]]].
  rewrite Hfetch in Hc. injection Hc as <-.
  unfold Notify.coupon_prefixes.
  rewrite (json_dumps_keys _ Hdump).
  change (filter (fun key => endswith key "_coupon_active_subscriptions") (keys ?d))
    with (keys_where is_coupon_key d).
  rewrite keys_where_flatten_signups.
  rewrite keys_where_flatten_coupons.
  - rewrite keys_where_nil by (intros k Hk; unfold is_coupon_key;
                               now apply base_has_no_coupon_key in Hk).
    rewrite List.app_nil_l, map_map. apply map_ext_in. intros r Hr.
    apply replace_strip; [apply suffix_borderless | now apply Hclean].
  - exact Hnd.
  - intros r Hr Hin. apply base_has_no_coupon_key in Hin.
    rewrite endswith_app in Hin. discriminate.
Qed.

(** A run in which every call succeeds, with two coupon codes. *)
Lemma coupon_codes_round_trip_witness :
  let rows :=
    [Extract.mk_coupon_row "SAVE10" (DInt 5) (DInt 20) (DInt 8)
                           (DDecimal (DecFinite false 40 (-2)));
     Extract.mk_coupon_row "No Coupon Code" (DInt 50) (DInt 100) (DInt 60)
                           (DDecimal (DecFinite false 60 (-2)))] in
  let w :=
    {| Extract.environ := [("DBNAME", "dw"); ("USER", "bot"); ("PASSWORD", "pw");
                           ("HOST", "h"); ("PORT", "5439")];
       Extract.connect := fun _ _ _ _ _ => None;
       Extract.cursor := None;
       Extract.execute := fun _ => None;
       Extract.fetchone := fun q =>
         match q with
         | Extract.static_metrics_query =>
             inr (Some (DStr "05/01/2025" :: map DInt [1200; 7; 3; 2; 55; 1; 4; 6; 2; 1; 9; 30; 12]))
         | _ => inr (Some (map DInt [8; 2; 1; 5; 0; 1; 0; 0; 1; 0; 3; 1; 0; 2; 1]))
         end;
       Extract.fetchall_coupon := inr rows;
       Extract.fetchall_signup :=
         inr [Extract.mk_signup_row "all" (DInt 10) (DInt 4) (DInt 14);
              Extract.mk_signup_row "last_week" (DInt 2) (DInt 1) (DInt 3);
              Extract.mk_signup_row "last_month" (DInt 5) (DInt 2) (DInt 7)];
       Extract.cursor_close := None;
       Extract.conn_close := None;
       Extract.invoke := fun _ => None;
       Extract.sns_client := None;
       Extract.sns_publish := fun _ _ _ => None |} in
  exists result payload,
    snd (run (Extract.get_data_from_redshift w)) = inr result
    /\ Extract.json_dumps result = inr payload
    /\ Notify.coupon_prefixes payload = map Extract.code rows.
Proof.
  intros rows w. eexists. eexists.
  split; [vm_compute; reflexivity|].
  split; [vm_compute; reflexivity|].
  refine (@coupon_codes_round_trip w _ _ rows _ _ _ _ _).
  - vm_compute. reflexivity.
  - reflexivity.
  - simpl. repeat constructor; simpl; intuition discriminate.
  - intros r [<- | [<- | []]]; vm_compute; reflexivity.
  - vm_compute. reflexivity.
Defined.

(* ===================================================================== *)
(** * The past-due figure of the churn query *)
(* ===================================================================== *)

Module ChurnFacts.

Import Calendar Churn.

Lemma non_null_case_when (cond : churn_row -> bool) (rows : list churn_row) :
  non_null (map (case_when cond) rows) = non_null (map email (filter cond rows)).
Proof.
  induction rows as [|r rows IH]; [reflexivity|].
  simpl. unfold case_when at 1. destruct (cond r); simpl.
  - destruct (email r); [now rewrite IH | exact IH].
  - exact IH.
Qed.

(** [COUNT(DISTINCT CASE WHEN cond THEN email END)] counts the distinct
    emails of the rows that meet the condition. *)
Lemma count_distinct_case_when (cond : churn_row -> bool) (rows : list churn_row) :
  count_distinct (case_when cond) rows = count_distinct email (filter cond rows).
Proof. unfold count_distinct. now rewrite non_null_case_when. Qed.

Lemma filter_twice (A : Type) (f g : A -> bool) (l : list A) :
  filter g (filter f l) = filter (fun x => f x && g x) l.
Proof.
  induction l as [|x l IH]; [reflexivity|].
  simpl. destruct (f x); simpl; [destruct (g x); now rewrite IH | exact IH].
Qed.

End ChurnFacts.

(** C1, the claim as stated fails: on 2024-03-15, a single status change
    dated 2024-02-24 is counted by the past-due figure of the last-month CTE,
    although it lies outside the seven days before the current date. *)
Lemma past_due_month_counts_beyond_seven_days :
  let current_date := Calendar.mk_date 2024 3 15 in
  let t := [Churn.mk_churn_row (Some "a@example.com") (Some "Canceled")
                               (Some (Calendar.mk_date 2024 2 24))] in
  Churn.churn_past_due (Churn.churn_last_month t current_date) = 1
  /\ Churn.emails_in_window t (Calendar.minus_days current_date 7) current_date = 0
  /\ Churn.emails_since t (Calendar.minus_days current_date 7) = 0.
Proof. vm_compute. repeat split. Qed.

(** C1, amended.  The past-due figure uses the seven-day threshold in the
    all-time and the last-week CTE, and the one-month threshold in the
    last-month CTE.  All-time: the distinct emails whose status date is on or
    after the current date minus 7 days.  Last week: the distinct emails
    whose status date is on or after the current date minus 7 days and before
    the current date.  Last month: the distinct emails whose status date is
    on or after the current date minus 1 month and before the current
    date. *)
Theorem past_due_windows (t : Churn.table) (current_date : Calendar.date) :
  Churn.churn_past_due (Churn.churn_total t current_date)
  = Churn.emails_since t (Calendar.minus_days current_date 7)
  /\ Churn.churn_past_due (Churn.churn_last_week t current_date)
     = Churn.emails_in_window t (Calendar.minus_days current_date 7) current_date
  /\ Churn.churn_past_due (Churn.churn_last_month t current_date)
     = Churn.emails_in_window t (Calendar.minus_months current_date 1) current_date.
Proof.
  unfold Churn.churn_total, Churn.churn_last_week, Churn.churn_last_month,
    Churn.emails_since, Churn.emails_in_window.
  cbn [Churn.churn_past_due].
  rewrite !ChurnFacts.count_distinct_case_when, !ChurnFacts.filter_twice.
  repeat split; f_equal; apply filter_ext; intros r;
    destruct (Churn.email_not_null r); simpl; try reflexivity;
    match goal with
    | |- context [Churn.date_on_or_after r ?d] =>
        destruct (Churn.date_on_or_after r d); simpl; try reflexivity
    end;
    destruct (Churn.date_before r current_date); reflexivity.
Qed.

(* ===================================================================== *)
(** * Failure handling of the extractor *)
(* ===================================================================== *)

Lemma exn_str_raised_while_handling (e0 e : py_exn) :
  exn_str (raised_while_handling e0 e) = exn_str e.
Proof. destruct e. reflexivity. Qed.

(* ===================================================================== *)
(** * The run of the notifier *)
(* ===================================================================== *)

Module NotifyFacts.

Import Notify.

Section EmitsOnly.
Variable P : effect -> bool.

Lemma emits_only_ret (A : Type) (a : A) : emits_only P (ret a).
Proof.
  intros h tr. exists []. simpl. rewrite List.app_nil_r. split; constructor.
Qed.

Lemma emits_only_raise (A : Type) (e : py_exn) : emits_only P (@raise_ effect A e).
Proof.
  intros h tr. exists []. simpl. rewrite List.app_nil_r. split; constructor.
Qed.

Lemma emits_only_reraise (A : Type) (e : py_exn) : emits_only P (@reraise effect A e).
Proof.
  intros h tr. exists []. simpl. rewrite List.app_nil_r. split; constructor.
Qed.

Lemma emits_only_lift (A : Type) (r : result A) : emits_only P (lift r).
Proof. destruct r; [apply emits_only_raise | apply emits_only_ret]. Qed.

Lemma emits_only_check (r : option py_exn) : emits_only P (check r).
Proof. destruct r; [apply emits_only_raise | apply emits_only_ret]. Qed.

Lemma emits_only_emit (ev : effect) : P ev = true -> emits_only P (emit ev).
Proof.
  intros H h tr. exists [ev]. simpl. split; [reflexivity | now constructor].
Qed.

Lemma emits_only_bind (A B : Type) (m : M effect A) (k : A -> M effect B) :
  emits_only P m -> (forall a, emits_only P (k a)) -> emits_only P (bind m k).
Proof.
  intros Hm Hk h tr. unfold bind.
  destruct (Hm h tr) as [evs1 [E1 F1]].
  destruct (m h tr) as [tr1 [e | a]]; simpl in E1; subst tr1.
  - exists evs1. now split.
  - destruct (Hk a h (tr ++ evs1)%list) as [evs2 [E2 F2]].
    exists (evs1 ++ evs2)%list. rewrite E2, List.app_assoc.
    split; [reflexivity | now apply Forall_app].
Qed.

Lemma emits_only_try_except (A : Type) (body : M effect A) (handler : py_exn -> M effect A) :
  emits_only P body -> (forall e, emits_only P (handler e)) ->
  emits_only P (try_except body handler).
Proof.
  intros Hm Hk h tr. unfold try_except.
  destruct (Hm h tr) as [evs1 [E1 F1]].
  destruct (body h tr) as [tr1 [e | a]]; simpl in E1; subst tr1.
  - destruct (Hk e (Some e) (tr ++ evs1)%list) as [evs2 [E2 F2]].
    exists (evs1 ++ evs2)%list. rewrite E2, List.app_assoc.
    split; [reflexivity | now apply Forall_app].
  - exists evs1. now split.
Qed.

End EmitsOnly.

(** ** Fail-fast computations *)

Lemma fail_fast_silent (A : Type) (m : M effect A) :
  emits_only (fun ev => negb (is_slack ev) && negb (analytics_failed ev)) m ->
  fail_fast m.
Proof.
  intros H h tr. destruct (H h tr) as [evs [E F]]. exists evs.
  split; [exact E|].
  split; [| intros _];
    (eapply Forall_impl; [|exact F]); intros ev Hev; cbv beta in Hev;
    apply andb_true_iff in Hev; destruct Hev as [H1 H2];
    now apply negb_true_iff.
Qed.

Lemma fail_fast_ret (A : Type) (a : A) : fail_fast (@ret effect A a).
Proof. apply fail_fast_silent, emits_only_ret. Qed.

Lemma fail_fast_lift (A : Type) (r : result A) : fail_fast (@lift effect A r).
Proof. apply fail_fast_silent, emits_only_lift. Qed.

Lemma fail_fast_print (what : printed) : fail_fast (emit (Print what)).
Proof. apply fail_fast_silent, emits_only_emit. reflexivity. Qed.

Lemma fail_fast_bind (A B : Type) (m : M effect A) (k : A -> M effect B) :
  fail_fast m -> (forall a, fail_fast (k a)) -> fail_fast (bind m k).
Proof.
  intros Hm Hk h tr. unfold bind.
  destruct (Hm h tr) as [evs1 [E1 [S1 Q1]]].
  destruct (m h tr) as [tr1 [e | a]]; simpl in E1, Q1; subst tr1.
  - exists evs1. split; [reflexivity|]. split; [exact S1|].
    intros [b Hb]. discriminate Hb.
  - destruct (Hk a h (tr ++ evs1)%list) as [evs2 [E2 [S2 Q2]]].
    exists (evs1 ++ evs2)%list. rewrite E2, List.app_assoc.
    split; [reflexivity|]. split; [now apply Forall_app|].
    intros Hex. apply Forall_app. split; [apply Q1; now exists a | now apply Q2].
Qed.

Lemma fail_fast_fold_m (A S : Type) (body : S -> A -> M effect S) :
  (forall s x, fail_fast (body s x)) ->
  forall xs s, fail_fast (fold_m xs s body).
Proof.
  intros Hb xs. induction xs as [|x xs IH]; intros s; simpl.
  - apply fail_fast_ret.
  - apply fail_fast_bind; [apply Hb | exact IH].
Qed.

(** A response that is not [ok] makes [raise_for_status] raise. *)
Lemma raise_for_status_not_ok (r : response) :
  ok r = false -> exists e, raise_for_status r = inl e.
Proof.
  unfold ok, raise_for_status. intros H. apply negb_false_iff in H.
  apply andb_true_iff in H. destruct H as [H1 H2].
  destruct (status_code r <? 500) eqn:E.
  - rewrite H1. simpl. eauto.
  - rewrite H1, H2. simpl.
    assert (H5 : (500 <=? status_code r) = true).
    { apply Z.leb_le. apply Z.ltb_ge in E. exact E. }
    rewrite H5. simpl. eauto.
Qed.

(** An analytics call followed by steps that raise on a response that is
    not [ok]. *)
Lemma fail_fast_post (A : Type) (w : world) (q : pendo_query)
      (k : response -> M effect A) :
  (forall r, fail_fast (k r)) ->
  (forall r h tr, ok r = false -> exists e, snd (k r h tr) = inl e) ->
  fail_fast (bind (post_query w q) k).
Proof.
  intros Hk Hraise h tr. unfold bind, post_query, emit, lift, raise_, ret.
  destruct (pendo_post w tr q) as [e | r] eqn:Ep.
  - exists [PendoPost q (inl e)]. simpl.
    split; [reflexivity|]. split; [now constructor|].
    intros [a Ha]. discriminate Ha.
  - simpl.
    destruct (Hk r h (tr ++ [PendoPost q (inr r)])%list) as [evs2 [E2 [S2 Q2]]].
    exists (PendoPost q (inr r) :: evs2). rewrite E2, <- List.app_assoc.
    split; [reflexivity|]. split; [now constructor|].
    intros Hex. constructor; [|now apply Q2].
    simpl. destruct (ok r) eqn:Eok; [reflexivity|].
    destruct (Hraise r h (tr ++ [PendoPost q (inr r)])%list Eok) as [e He].
    destruct Hex as [a Ha]. rewrite He in Ha. discriminate Ha.
Qed.

End NotifyFacts.

Module NotifyRun.

Import Notify NotifyFacts.

(** The steps after the request in [clicks_for_feature] and in the first
    loop of [extract_data] raise when the response is not [ok]. *)
Ltac raise_on_bad_status Hok :=
  let e := fresh "e" in
  let He := fresh "He" in
  destruct (raise_for_status_not_ok _ Hok) as [e He];
  unfold bind, emit, lift, raise_, ret; cbn; rewrite He; cbn; eauto.

Lemma fail_fast_clicks_for_feature (c : config) (w : world) (seg_id feat_id : string) :
  fail_fast (clicks_for_feature c w seg_id feat_id).
Proof.
  unfold clicks_for_feature. cbv zeta. apply fail_fast_post.
  - intros r.
    repeat first [apply fail_fast_lift | apply fail_fast_bind; [|intros ?]].
  - intros r h tr Hok. raise_on_bad_status Hok.
Qed.

Lemma fail_fast_view_step (c : config) (w : world) (results : list view_record)
      (cell : (string * string) * (string * string)) :
  fail_fast (view_step c w results cell).
Proof.
  destruct cell as [[seg_name seg_id] [page_name page_id]].
  unfold view_step. cbv zeta. apply fail_fast_post.
  - intros r.
    apply fail_fast_bind; [apply fail_fast_print | intros _].
    apply fail_fast_bind; [apply fail_fast_print | intros _].
    apply fail_fast_bind; [apply fail_fast_lift | intros _].
    apply fail_fast_bind; [apply fail_fast_lift | intros doc].
    apply fail_fast_bind; [apply fail_fast_lift | intros view_rows].
    apply fail_fast_bind; [| intros total_views; apply fail_fast_ret].
    destruct (truthy view_rows); [|apply fail_fast_ret].
    apply fail_fast_bind; [apply fail_fast_lift | intros row; apply fail_fast_lift].
  - intros r h tr Hok. raise_on_bad_status Hok.
Qed.

Lemma fail_fast_sum_clicks (c : config) (w : world) (seg_id : string) (feats : list string) :
  fail_fast (sum_clicks c w seg_id feats).
Proof.
  unfold sum_clicks. apply fail_fast_fold_m. intros acc fid.
  apply fail_fast_bind; [apply fail_fast_clicks_for_feature | intros v; apply fail_fast_lift].
Qed.

Lemma fail_fast_click_step (c : config) (w : world) (rows : list click_record)
      (cell : (string * string) * (string * list string)) :
  fail_fast (click_step c w rows cell).
Proof.
  destruct cell as [[seg_name seg_id] [grp_name feats]].
  unfold click_step.
  apply fail_fast_bind; [apply fail_fast_sum_clicks | intros n; apply fail_fast_ret].
Qed.

(** [extract_data] posts nothing to the chat, and returns only when every
    analytics call it made succeeded. *)
Lemma fail_fast_extract_data (c : config) (w : world) : fail_fast (extract_data c w).
Proof.
  unfold extract_data.
  apply fail_fast_bind; [apply fail_fast_fold_m; intros; apply fail_fast_view_step|].
  intros results.
  apply fail_fast_bind; [apply fail_fast_fold_m; intros; apply fail_fast_click_step|].
  intros rows. apply fail_fast_ret.
Qed.

(** The rest of the [try] block makes no analytics call. *)
Lemma send_to_slack_no_pendo (c : config) (w : world) (message : text) :
  emits_only (fun ev => negb (is_pendo ev)) (send_to_slack c w message).
Proof.
  unfold send_to_slack. cbv zeta. apply emits_only_try_except.
  - apply emits_only_bind; [now apply emits_only_emit | intros _].
    apply emits_only_bind; [apply emits_only_lift | intros resp; apply emits_only_lift].
  - intros e. apply emits_only_raise.
Qed.

(** The [except] block makes no analytics call and posts nothing to the
    chat; it always ends with an exception. *)
Lemma except_block_quiet (w : world) (e : py_exn) :
  emits_only (fun ev => negb (is_pendo ev) && negb (is_slack ev)) (except_block w e).
Proof.
  unfold except_block, send_sns_notification. cbv zeta.
  apply emits_only_bind; [now apply emits_only_emit | intros _].
  apply emits_only_bind; [| intros _; apply emits_only_reraise].
  apply emits_only_bind; [now apply emits_only_emit | intros _].
  apply emits_only_bind; [apply emits_only_check | intros _].
  apply emits_only_try_except.
  - apply emits_only_bind; [now apply emits_only_emit | intros _].
    apply emits_only_bind; [apply emits_only_check | intros _].
    now apply emits_only_emit.
  - intros e'. apply emits_only_bind; [now apply emits_only_emit | intros _].
    apply emits_only_reraise.
Qed.

Lemma except_block_raises (w : world) (e : py_exn) (h : option py_exn) (tr : list effect) :
  exists e', snd (except_block w e h tr) = inl e'.
Proof.
  unfold except_block. cbv zeta. unfold bind.
  destruct (emit (LogError _) h tr) as [tr1 [e1 | []]]; [simpl; eauto|].
  destruct (send_sns_notification w _ h tr1) as [tr2 [e2 | []]]; simpl; eauto.
Qed.

End NotifyRun.

Import NotifyFacts NotifyRun.

Lemma bind_run (E A B : Type) (m : M E A) (k : A -> M E B)
      (h : option py_exn) (tr : list E) :
  bind m k h tr =
  match m h tr with
  | (tr', inr a) => k a h tr'
  | (tr', inl e) => (tr', inl e)
  end.
Proof. reflexivity. Qed.

(** The trace of the [try] block of the notifier: first the effects of
    [extract_data], then the rest.  Either [extract_data] returned, and then
    no analytics call failed; or nothing follows it and the block raised. *)
Lemma try_block_trace (c : Notify.config) (w : Notify.world) (event : json)
      (h : option py_exn) (tr : list Notify.effect) :
  exists evs1 evs2,
    fst (Notify.try_block c w event h tr) = (tr ++ evs1 ++ evs2)%list
    /\ Forall (fun ev => is_slack ev = false) evs1
    /\ Forall (fun ev => is_pendo ev = false) evs2
    /\ (Forall (fun ev => analytics_failed ev = false) evs1
        \/ (evs2 = [] /\ exists e, snd (Notify.try_block c w event h tr) = inl e)).
Proof.
  unfold Notify.try_block.
  match goal with
  | |- context [bind ?m _] =>
      match m with
      | match event with _ => _ end => set (pstep := m)
      end
  end.
  assert (Hs : forall h tr, fst (pstep h tr) = tr).
  { intros h' tr'. subst pstep. destruct event; simpl; try reflexivity.
    destruct (Notify.json_loads w s); reflexivity. }
  rewrite (bind_run pstep).
  destruct (pstep h tr) as [tr0 [e | payload]] eqn:E;
    pose proof (Hs h tr) as H0; rewrite E in H0; simpl in H0; subst tr0.
  - exists [], []. simpl. rewrite List.app_nil_r.
    split; [reflexivity|]. split; [constructor|]. split; [constructor|].
    right. split; [reflexivity | eauto].
  - rewrite (bind_run (Notify.extract_data c w)).
    destruct (fail_fast_extract_data c w h tr) as [evs1 [E1 [S1 Q1]]].
    destruct (Notify.extract_data c w h tr) as [tr1 [e | [df_clicks df_views]]];
      simpl in E1, Q1; subst tr1.
    + exists evs1, []. simpl. rewrite List.app_nil_r.
      split; [reflexivity|]. split; [exact S1|]. split; [constructor|].
      right. split; [reflexivity | eauto].
    + cbv beta iota.
      match goal with
      | |- context [fst (?rest h (tr ++ evs1)%list)] =>
          assert (HR : emits_only (fun ev => negb (is_pendo ev)) rest)
      end.
      { apply emits_only_bind; [apply emits_only_lift | intros message].
        apply emits_only_bind; [now apply emits_only_emit | intros _].
        apply emits_only_bind; [apply send_to_slack_no_pendo | intros _].
        apply emits_only_ret. }
      destruct (HR h (tr ++ evs1)%list) as [evs2 [E2 F2]].
      exists evs1, evs2.
      split; [rewrite List.app_assoc; exact E2|]. split; [exact S1|].
      split.
      * eapply Forall_impl; [|exact F2]. intros ev Hev. now apply negb_true_iff.
      * left. apply Q1. eauto.
Qed.

Lemma analytics_failed_is_pendo (ev : Notify.effect) :
  analytics_failed ev = true -> is_pendo ev = true.
Proof. destruct ev; simpl; congruence. Qed.

Lemma Forall_not_in (A : Type) (P : A -> bool) (l : list A) (x : A) :
  Forall (fun y => P y = false) l -> In x l -> P x = true -> False.
Proof.
  intros HF Hin Hx. rewrite Forall_forall in HF. specialize (HF x Hin). congruence.
Qed.

(** C8, the claim as stated fails: the analytics API answers every query
    with the status 300 and an empty JSON document.  This is not a success
    status, yet [raise_for_status] raises only for 4xx and 5xx: every count
    is read as 0, the report is posted to the chat and the handler
    returns. *)
Lemma chat_message_after_redirect_status :
  let w := sample_world (fun _ => sample_response 300 (JObj [])) 200 in
  let event := JObj [("report_date", JStr "05/01/2025"); ("total", JInt 1200)] in
  let tr := fst (run (Notify.lambda_handler sample_config w event)) in
  List.length (posts tr) = 14%nat
  /\ Forall (fun ev => match ev with
                       | Notify.PendoPost _ (inr resp) =>
                           Notify.status_code resp = 300
                       | _ => True
                       end) tr
  /\ (exists message resp,
        In (Notify.SlackPost "https://hooks.example/T1" message (inr resp)) tr
        /\ Notify.status_code resp = 200)
  /\ exists a, snd (run (Notify.lambda_handler sample_config w event)) = inr a.
Proof.
  vm_compute. split; [reflexivity|]. split; [repeat constructor|].
  split; [|eexists; reflexivity].
  eexists. eexists.
  split; [repeat (first [left; reflexivity | right]) | reflexivity].
Qed.

(** C8, amended.  If in a run of the notifier any analytics call (a
    page-view query or a per-feature click query) gets a response on which
    [raise_for_status] raises (the status is 4xx or 5xx, [Response.ok] is
    false), the run ends with an exception and the chat webhook is never
    called in that run.  A response with any other status, 2xx or not, is
    read like a success. *)
Theorem no_chat_message_after_analytics_failure
        (c : Notify.config) (w : Notify.world) (event : json) :
  (exists q resp,
      In (Notify.PendoPost q (inr resp)) (fst (run (Notify.lambda_handler c w event)))
      /\ Notify.ok resp = false) ->
  (forall webhook message outcome,
      ~ In (Notify.SlackPost webhook message outcome)
           (fst (run (Notify.lambda_handler c w event))))
  /\ exists e, snd (run (Notify.lambda_handler c w event)) = inl e.
Proof.
  intros [q [resp [Hin Hbad]]].
  assert (Hfailed : analytics_failed (Notify.PendoPost q (inr resp)) = true).
  { simpl. now rewrite Hbad. }
  pose proof (analytics_failed_is_pendo _ Hfailed) as Hpendo.
  revert Hin. unfold run, Notify.lambda_handler, try_except.
  destruct (try_block_trace c w event None []) as [evs1 [evs2 [E [S1 [P2 Hcase]]]]].
  destruct (Notify.try_block c w event None []) as [tr1 [e | a]]; simpl in E, Hcase; subst tr1.
  - (* the [try] block raised: the [except] block runs *)
    destruct (except_block_quiet w e (Some e) (evs1 ++ evs2)%list) as [evs3 [E3 F3]].
    destruct (except_block_raises w e (Some e) (evs1 ++ evs2)%list) as [e' He'].
    rewrite E3. intros Hin.
    assert (H3 : forall ev, In ev evs3 -> is_pendo ev = false /\ is_slack ev = false).
    { intros ev Hev. rewrite Forall_forall in F3. specialize (F3 ev Hev).
      apply andb_true_iff in F3. destruct F3 as [F3a F3b].
      split; now apply negb_true_iff. }
    destruct Hcase as [Hok | [-> _]].
    + exfalso. apply in_app_or in Hin. destruct Hin as [Hin | Hin].
      * apply in_app_or in Hin. destruct Hin as [Hin | Hin].
        -- exact (@Forall_not_in _ analytics_failed _ _ Hok Hin Hfailed).
        -- exact (@Forall_not_in _ is_pendo _ _ P2 Hin Hpendo).
      * destruct (H3 _ Hin) as [H3a _]. congruence.
    + split; [| eauto].
      intros webhook message outcome Hs. rewrite List.app_nil_r in Hs.
      apply in_app_or in Hs. destruct Hs as [Hs | Hs].
      * exact (@Forall_not_in _ is_slack _ _ S1 Hs eq_refl).
      * destruct (H3 _ Hs) as [_ H3b]. discriminate H3b.
  - (* the [try] block returned: no analytics call failed *)
    simpl. intros Hin. exfalso.
    destruct Hcase as [Hok | [_ [e He]]]; [|discriminate He].
    apply in_app_or in Hin. destruct Hin as [Hin | Hin].
    + exact (@Forall_not_in _ analytics_failed _ _ Hok Hin Hfailed).
    + exact (@Forall_not_in _ is_pendo _ _ P2 Hin Hpendo).
Qed.

(** The third page-view query (Segment-A, Android) is answered with a 500. *)
Lemma no_chat_message_after_analytics_failure_witness :
  let c :=
    {| Notify.SLACK_WEBHOOK_URL := "https://hooks.example/T1";
       Notify.API_KEY := "key";
       Notify.API_URL := "https://analytics.example/aggregation";
       Notify.START := "1739318400000";
       Notify.END_ := "1762214400000";
       Notify.SEGMENT_A_ID := "segA";
       Notify.SEGMENT_B_ID := "segB";
       Notify.PAGE_WEB_ID := "web";
       Notify.PAGE_IOS_ID := "ios";
       Notify.PAGE_ANDROID_ID := "android";
       Notify.FEATURE_ROLEPLAY_ID := "f0";
       Notify.FEATURE_AUTOMATION_1_ID := "f1";
       Notify.FEATURE_AUTOMATION_2_ID := "f2";
       Notify.FEATURE_AUTOMATION_3_ID := "f3" |} in
  let good :=
    {| Notify.status_code := 200; Notify.reason := "OK";
       Notify.url := "https://analytics.example/aggregation";
       Notify.body_text :=
         "{" ++ Notify.quote ++ "results" ++ Notify.quote ++ ": [{"
         ++ Notify.quote ++ "views" ++ Notify.quote ++ ": 3}]}";
       Notify.json_body := inr (JObj [("results", JArr [JObj [("views", JInt 3)]])]) |} in
  let bad :=
    {| Notify.status_code := 500; Notify.reason := "Internal Server Error";
       Notify.url := "https://analytics.example/aggregation";
       Notify.body_text := "";
       Notify.json_body := inl (PyExn "JSONDecodeError" "Expecting value" None) |} in
  let w :=
    {| Notify.json_loads := fun _ => inr JNull;
       Notify.str_refused := fun _ => None;
       Notify.pendo_post :=
         fun _ q => inr (if String.eqb (Notify.name q) "Segment-A-Android" then bad else good);
       Notify.slack_post := fun _ => inr good;
       Notify.sns_client := None;
       Notify.sns_topic_arn := Some "arn:aws:sns:alerts";
       Notify.sns_publish := fun _ _ _ => None |} in
  let event := JObj [("report_date", JStr "05/01/2025"); ("total", JInt 1200)] in
  (forall webhook message outcome,
      ~ In (Notify.SlackPost webhook message outcome)
           (fst (run (Notify.lambda_handler c w event))))
  /\ exists e, snd (run (Notify.lambda_handler c w event)) = inl e.
Proof.
  intros c good bad w event.
  apply no_chat_message_after_analytics_failure.
  exists {| Notify.name := "Segment-A-Android"; Notify.events := Notify.pageEvents "android";
            Notify.first := "1739318400000"; Notify.last := "1762214400000";
            Notify.segment := "segA"; Notify.group_field := "views";
            Notify.requestId := "Segment-A-Android" |}, bad.
  split; [|reflexivity].
  cbn. do 6 right. left. reflexivity.
Defined.

(* ===================================================================== *)
(** * The report *)
(* ===================================================================== *)

(** C5.  The text of [build_message] does not depend on the two
    dataframes: whatever the analytics results are, the same event mapping
    gives the same report.  (The docstring of the function says that the
    message is built from the event and the dataframes; its body never reads
    [df_clicks] or [df_views].) *)
Theorem report_ignores_analytics
        (refused : json -> option py_exn) (event : dict json)
        (df_clicks df_clicks' : list Notify.click_record)
        (df_views df_views' : list Notify.view_record) :
  Notify.build_message refused event df_clicks df_views
  = Notify.build_message refused event df_clicks' df_views'.
Proof. reflexivity. Qed.

(** The same, evaluated: 3 views or 7000 views of the Web page give the
    same six lines. *)
Lemma report_same_for_different_views :
  let event := [("report_date", JStr "05/01/2025"); ("total", JInt 1200);
                ("SAVE10_coupon_active_subscriptions", JInt 5);
                ("SAVE10_total_trials", JInt 20)] in
  let clicks := [Notify.mk_click "Segment-A" "Roleplay" (JInt 4)] in
  let clicks' := [Notify.mk_click "Segment-A" "Roleplay" (JInt 900)] in
  let views := [Notify.mk_view "Segment-A" "Web" (JInt 3)] in
  let views' := [Notify.mk_view "Segment-A" "Web" (JInt 7000)] in
  Notify.build_message (fun _ => None) event clicks views
  = Notify.build_message (fun _ => None) event clicks' views'
  /\ match Notify.build_message (fun _ => None) event clicks views with
     | inr message => Notify.text_str message
     | inl _ => None
     end
     = Some ("Stats for 05/01/2025" ++ Notify.newline
             ++ "•  Lifetime user total: 1200" ++ Notify.newline
             ++ "•  Active snapshot stats :" ++ Notify.newline
             ++ "   ○  Total Active Users: 5" ++ Notify.newline
             ++ "   ○  Total Active Trial Users without a coupon: 0" ++ Notify.newline
             ++ "   ○  Total Active Trial Users with a coupon: 20").
Proof. split; reflexivity. Qed.

Module ReportFacts.

Import Notify.

(** A sum of integers does not raise and is the integer sum. *)
Lemma sum_from_ints (items : list json) (zs : list Z) (acc : Z) :
  items = map JInt zs ->
  sum_from (NInt acc) items = inr (NInt (acc + total_of zs)).
Proof.
  intros ->. revert acc. induction zs as [|z zs IH]; intros acc; simpl.
  - now rewrite Z.add_0_r.
  - rewrite IH. now rewrite Z.add_assoc.
Qed.

Lemma sum_ints (zs : list Z) : sum (map JInt zs) = inr (NInt (total_of zs)).
Proof. unfold sum. now rewrite (@sum_from_ints _ zs 0 eq_refl). Qed.


Lemma is_no_coupon_nonempty (k : string) : is_no_coupon k = true -> k <> "".
Proof. intros H ->. discriminate H. Qed.

(** [next(...)] gives the first prefix that passes the test. *)
Lemma find_first (A : Type) (f : A -> bool) (before after : list A) (x : A) :
  (forall y, In y before -> f y = false) -> f x = true ->
  find f (before ++ x :: after)%list = Some x.
Proof.
  intros Hb Hx. induction before as [|y before IH]; simpl.
  - now rewrite Hx.
  - rewrite (Hb y) by now left. apply IH. intros z Hz. apply Hb. now right.
Qed.

Lemma filter_skip (A : Type) (f : A -> bool) (before after : list A) (x : A) :
  f x = false ->
  filter f (before ++ x :: after)%list = filter f (before ++ after)%list.
Proof. intros Hx. rewrite !filter_app. simpl. now rewrite Hx. Qed.





End ReportFacts.

Import ReportFacts.


(** Integer counts are not enough either: two active counts of 4300 digits
    each add up to a total of 4301 digits, which the f-string of the total
    line refuses to print. *)
Lemma build_message_raises_on_long_total :
  let event := [("report_date", JStr "05/01/2025"); ("total", JInt 1200);
                ("A_coupon_active_subscriptions", JInt (5 * 10 ^ 4299));
                ("B_coupon_active_subscriptions", JInt (5 * 10 ^ 4299))] in
  PyStr.digits (5 * 10 ^ 4299) = 4300
  /\ Notify.build_message (fun _ => None) event [] []
     = inl (PyExn "ValueError"
              ("Exceeds the limit (4300 digits) for integer string conversion; "
               ++ "use sys.set_int_max_str_digits() to increase the limit") None).
Proof. vm_compute. split; reflexivity. Qed.



(** C10, the claim as stated fails: with two prefixes whose lowercase form
    is [no coupon code], only the first counts toward the trials without a
    coupon; the 7 trials of the second are in neither figure. *)
Lemma second_no_coupon_prefix_is_dropped :
  let event := [("report_date", JStr "05/01/2025"); ("total", JInt 1200);
                ("SAVE10_coupon_active_subscriptions", JInt 5);
                ("SAVE10_total_trials", JInt 20);
                ("No Coupon Code_coupon_active_subscriptions", JInt 50);
                ("No Coupon Code_total_trials", JInt 100);
                ("NO COUPON CODE_coupon_active_subscriptions", JInt 1);
                ("NO COUPON CODE_total_trials", JInt 7)] in
  Notify.is_no_coupon "NO COUPON CODE" = true
  /\ In "NO COUPON CODE" (Notify.coupon_prefixes event)
  /\ Notify.trials_without_coupon event = JInt 100
  /\ Notify.trials_with_coupon event = inr (NInt 20)
  /\ match Notify.build_message (fun _ => None) event [] [] with
     | inr message => Notify.text_str message
     | inl _ => None
     end
     = Some ("Stats for 05/01/2025" ++ Notify.newline
             ++ "•  Lifetime user total: 1200" ++ Notify.newline
             ++ "•  Active snapshot stats :" ++ Notify.newline
             ++ "   ○  Total Active Users: 56" ++ Notify.newline
             ++ "   ○  Total Active Trial Users without a coupon: 100" ++ Notify.newline
             ++ "   ○  Total Active Trial Users with a coupon: 20").
Proof.
  repeat split; try reflexivity.
  vm_compute. tauto.
Qed.

(** C10, amended.  The split of the trial counts is case-insensitive on the
    discovered prefix.  The first prefix whose lowercase form is
    [no coupon code] gives the trials without a coupon (its [total_trials],
    0 when that key is absent); every prefix whose lowercase form differs is
    summed into the trials with a coupon; a later prefix whose lowercase form
    is also [no coupon code] counts in neither. *)
Theorem trial_split_first_no_coupon_prefix
        (event : dict json) (before after : list string) (k : string) :
  Notify.coupon_prefixes event = (before ++ k :: after)%list ->
  (forall p, In p before -> PyStr.lower p <> "no coupon code") ->
  PyStr.lower k = "no coupon code" ->
  Notify.trials_without_coupon event = get_default event (k ++ "_total_trials") (JInt 0)
  /\ Notify.trials_with_coupon event
     = sum (map (fun p => get_default event (p ++ "_total_trials") (JInt 0))
                (filter (fun p => negb (String.eqb (PyStr.lower p) "no coupon code"))
                        (before ++ after)%list)).
Proof.
  intros Hprefixes Hbefore Hk.
  assert (Hk' : Notify.is_no_coupon k = true).
  { unfold Notify.is_no_coupon. now apply String.eqb_eq. }
  unfold Notify.trials_without_coupon, Notify.trials_with_coupon, Notify.no_coupon_key.
  rewrite Hprefixes. split.
  - rewrite find_first; [| | exact Hk'].
    + cbn [Notify.key_truthy Notify.format_key].
      pose proof (@is_no_coupon_nonempty k Hk') as Hne.
      apply String.eqb_neq in Hne. now rewrite Hne.
    + intros p Hp. unfold Notify.is_no_coupon. apply String.eqb_neq. now apply Hbefore.
  - rewrite filter_skip; [reflexivity|].
    now rewrite Hk'.
Qed.

(** The prefix NO COUPON CODE is the one without a coupon. *)
Lemma trial_split_first_no_coupon_prefix_witness :
  let event := [("SAVE10_coupon_active_subscriptions", JInt 5);
                ("SAVE10_total_trials", JInt 20);
                ("NO COUPON CODE_coupon_active_subscriptions", JInt 1);
                ("NO COUPON CODE_total_trials", JInt 7)] in
  Notify.trials_without_coupon event = JInt 7
  /\ Notify.trials_with_coupon event = inr (NInt 20).
Proof.
  intros event.
  refine (@trial_split_first_no_coupon_prefix event ["SAVE10"] [] "NO COUPON CODE" _ _ _).
  - reflexivity.
  - intros p [<- | []]. vm_compute. discriminate.
  - reflexivity.
Defined.

(* ===================================================================== *)
(** * The analytics grid of [extract_data] *)
(* ===================================================================== *)

Module GridFacts.

Import Notify.

Lemma is_prefix_nil (A : Type) (l : list A) : is_prefix [] l.
Proof. now exists l. Qed.

Lemma is_prefix_refl (A : Type) (l : list A) : is_prefix l l.
Proof. exists []. now rewrite List.app_nil_r. Qed.

Lemma is_prefix_app_r (A : Type) (l1 l2 more : list A) :
  is_prefix l1 l2 -> is_prefix l1 (l2 ++ more)%list.
Proof. intros [rest ->]. exists (rest ++ more)%list. now rewrite List.app_assoc. Qed.

Lemma is_prefix_app_l (A : Type) (l l1 l2 : list A) :
  is_prefix l1 l2 -> is_prefix (l ++ l1)%list (l ++ l2)%list.
Proof. intros [rest ->]. exists rest. now rewrite List.app_assoc. Qed.

Lemma asked_app (tr1 tr2 : list effect) :
  asked (tr1 ++ tr2)%list = (asked tr1 ++ asked tr2)%list.
Proof. unfold asked, posts. now rewrite flat_map_app, map_app. Qed.

(** Effects that are not analytics calls ask nothing. *)
Lemma asked_no_pendo (evs : list effect) :
  Forall (fun ev => negb (is_pendo ev) = true) evs -> asked evs = [].
Proof.
  induction 1 as [|ev evs Hev _ IH]; [reflexivity|].
  change (ev :: evs) with ([ev] ++ evs)%list. rewrite asked_app, IH.
  destruct ev; try reflexivity. discriminate Hev.
Qed.

Lemma asks_silent (A : Type) (m : M effect A) :
  emits_only (fun ev => negb (is_pendo ev)) m -> asks m [].
Proof.
  intros H h tr. destruct (H h tr) as [evs [E F]]. exists evs.
  rewrite (asked_no_pendo F). split; [exact E|]. split; [apply is_prefix_nil | reflexivity].
Qed.

Lemma asks_bind (A B : Type) (m : M effect A) (k : A -> M effect B)
      (c1 c2 : list (string * source)) :
  asks m c1 -> (forall a, asks (k a) c2) -> asks (bind m k) (c1 ++ c2)%list.
Proof.
  intros Hm Hk h tr. unfold bind.
  destruct (Hm h tr) as [evs1 [E1 [P1 Q1]]].
  destruct (m h tr) as [tr1 [e | a]]; simpl in E1, Q1; subst tr1.
  - exists evs1. split; [reflexivity|]. split; [now apply is_prefix_app_r|].
    intros [b Hb]. discriminate Hb.
  - destruct (Hk a h (tr ++ evs1)%list) as [evs2 [E2 [P2 Q2]]].
    exists (evs1 ++ evs2)%list. rewrite E2, List.app_assoc, asked_app.
    rewrite Q1 by now exists a.
    split; [reflexivity|]. split; [now apply is_prefix_app_l|].
    intros Hex. now rewrite Q2.
Qed.

Lemma asks_fold_m (A S : Type) (body : S -> A -> M effect S)
      (cells_of : A -> list (string * source)) :
  (forall s x, asks (body s x) (cells_of x)) ->
  forall xs s, asks (fold_m xs s body) (flat_map cells_of xs).
Proof.
  intros Hb xs. induction xs as [|x xs IH]; intros s; simpl.
  - apply asks_silent, emits_only_ret.
  - apply asks_bind; [apply Hb | exact IH].
Qed.

(** One request followed by steps that make no request. *)
Lemma asks_post (A : Type) (w : world) (q : pendo_query) (k : response -> M effect A) :
  (forall r, emits_only (fun ev => negb (is_pendo ev)) (k r)) ->
  asks (bind (post_query w q) k) [cell_of q].
Proof.
  intros Hk h tr. unfold bind, post_query, emit, lift, raise_, ret.
  destruct (pendo_post w tr q) as [e | r].
  - exists [PendoPost q (inl e)]. simpl.
    split; [reflexivity|]. split; [apply is_prefix_refl|]. reflexivity.
  - simpl. destruct (Hk r h (tr ++ [PendoPost q (inr r)])%list) as [evs2 [E2 F2]].
    exists (PendoPost q (inr r) :: evs2). rewrite E2, <- List.app_assoc.
    change (PendoPost q (inr r) :: evs2) with ([PendoPost q (inr r)] ++ evs2)%list.
    rewrite asked_app, (asked_no_pendo F2).
    split; [reflexivity|]. split; [apply is_prefix_refl | reflexivity].
Qed.

Ltac no_pendo :=
  repeat first
    [ apply emits_only_lift
    | apply emits_only_ret
    | apply emits_only_emit; reflexivity
    | apply emits_only_bind; [|intros ?] ].

Lemma asks_clicks_for_feature (c : config) (w : world) (seg_id feat_id : string) :
  asks (clicks_for_feature c w seg_id feat_id) [(seg_id, featureEvents feat_id)].
Proof.
  unfold clicks_for_feature. cbv zeta.
  apply (@asks_post _ w
           {| name := "oneFeature"; events := featureEvents feat_id;
              first := START c; last := END_ c; segment := seg_id;
              group_field := "clicks"; requestId := "oneFeature" |}).
  intros r. no_pendo.
Qed.

Lemma asks_view_step (c : config) (w : world) (results : list view_record)
      (cell : (string * string) * (string * string)) :
  asks (view_step c w results cell) [(snd (fst cell), pageEvents (snd (snd cell)))].
Proof.
  destruct cell as [[seg_name seg_id] [page_name page_id]].
  unfold view_step. cbv zeta.
  apply (@asks_post _ w
           {| name := seg_name ++ "-" ++ page_name; events := pageEvents page_id;
              first := START c; last := END_ c; segment := seg_id;
              group_field := "views"; requestId := seg_name ++ "-" ++ page_name |}).
  intros r. no_pendo.
  match goal with |- context [truthy ?v] => destruct (truthy v) end; no_pendo.
Qed.

Lemma asks_sum_clicks (c : config) (w : world) (seg_id : string) (feats : list string) :
  asks (sum_clicks c w seg_id feats) (map (fun fid => (seg_id, featureEvents fid)) feats).
Proof.
  unfold sum_clicks.
  assert (E : map (fun fid => (seg_id, featureEvents fid)) feats
              = flat_map (fun fid => [(seg_id, featureEvents fid)]) feats).
  { induction feats as [|f fs IH]; [reflexivity | simpl; now rewrite IH]. }
  rewrite E. apply asks_fold_m. intros acc fid.
  rewrite <- (List.app_nil_r [(seg_id, featureEvents fid)]).
  apply asks_bind; [apply asks_clicks_for_feature|].
  intros v. apply asks_silent, emits_only_lift.
Qed.

Lemma asks_click_step (c : config) (w : world) (rows : list click_record)
      (cell : (string * string) * (string * list string)) :
  asks (click_step c w rows cell)
       (map (fun fid => (snd (fst cell), featureEvents fid)) (snd (snd cell))).
Proof.
  destruct cell as [[seg_name seg_id] [grp_name feats]].
  unfold click_step. cbn [fst snd].
  rewrite <- (List.app_nil_r (map _ feats)).
  apply asks_bind; [apply asks_sum_clicks|].
  intros n. apply asks_silent, emits_only_ret.
Qed.

End GridFacts.

Import GridFacts.

(** X1.  [extract_data] asks the analytics API in a fixed order: for each
    segment each page, then for each segment each feature of each feature
    group, one request per feature.  Whatever the API answers, the requests
    made are an initial part of these fourteen, and they are all fourteen
    when [extract_data] returns. *)
Theorem extract_data_asks_grid (c : Notify.config) (w : Notify.world) :
  is_prefix (asked (fst (run (Notify.extract_data c w)))) (grid c)
  /\ ((exists dfs, snd (run (Notify.extract_data c w)) = inr dfs) ->
      asked (fst (run (Notify.extract_data c w))) = grid c)
  /\ List.length (grid c) = 14%nat.
Proof.
  assert (H : asks (Notify.extract_data c w) (grid c)).
  { unfold Notify.extract_data.
    change (grid c) with
      (flat_map (fun cell : (string * string) * (string * string) =>
                   [(snd (fst cell), Notify.pageEvents (snd (snd cell)))])
                (Notify.product (Notify.SEGMENTS c) (Notify.PAGES c))
       ++ (flat_map (fun cell : (string * string) * (string * list string) =>
                       map (fun fid => (snd (fst cell), Notify.featureEvents fid))
                           (snd (snd cell)))
                    (Notify.product (Notify.SEGMENTS c) (Notify.FEATURE_GROUPS c))
           ++ []))%list.
    apply asks_bind; [apply asks_fold_m; intros; apply asks_view_step|].
    intros results.
    apply asks_bind; [apply asks_fold_m; intros; apply asks_click_step|].
    intros rows. apply asks_silent, emits_only_ret. }
  destruct (H None []) as [evs [E [P Q]]].
  unfold run. rewrite E. simpl. auto.
Qed.

Module FrameFacts.

Import Notify.

Ltac run_steps :=
  unfold post_query, bind, emit, lift, raise_, ret; cbn;
  repeat (match goal with
          | |- context [match ?x with _ => _ end] => destruct x eqn:?
          end; cbn).

(** A pass of the first loop that returns has added one row, labelled with
    the names of its segment and page. *)
Lemma view_step_adds_row (c : config) (w : world) (results results' : list view_record)
      (seg page : string * string) (h : option py_exn) (tr : list effect) :
  snd (view_step c w results (seg, page) h tr) = inr results' ->
  exists v, results' = (results ++ [mk_view (fst seg) (fst page) v])%list.
Proof.
  destruct seg as [seg_name seg_id], page as [page_name page_id].
  unfold view_step. run_steps; intros H; try discriminate H;
    injection H as <-; eauto.
Qed.

Lemma view_loop_labels (c : config) (w : world)
      (cells : list ((string * string) * (string * string))) :
  forall results results' h tr,
    snd (fold_m cells results (view_step c w) h tr) = inr results' ->
    view_labels results'
    = (view_labels results
       ++ map (fun cell => (fst (fst cell), fst (snd cell))) cells)%list.
Proof.
  induction cells as [|[seg page] cells IH]; intros results results' h tr H.
  - simpl in H. injection H as <-. now rewrite List.app_nil_r.
  - cbn [fold_m] in H. rewrite bind_run in H.
    destruct (view_step c w results (seg, page) h tr) as [tr1 [e | r1]] eqn:E;
      [discriminate H|].
    assert (E' : snd (view_step c w results (seg, page) h tr) = inr r1) by now rewrite E.
    destruct (view_step_adds_row _ _ _ _ _ _ _ E') as [v ->].
    rewrite (IH _ _ _ _ H). unfold view_labels. rewrite map_app, <- List.app_assoc.
    reflexivity.
Qed.

Lemma click_step_adds_row (c : config) (w : world) (rows rows' : list click_record)
      (seg : string * string) (grp : string * list string)
      (h : option py_exn) (tr : list effect) :
  snd (click_step c w rows (seg, grp) h tr) = inr rows' ->
  exists v, rows' = (rows ++ [mk_click (fst seg) (fst grp) v])%list.
Proof.
  destruct seg as [seg_name seg_id], grp as [grp_name feats].
  unfold click_step, bind, ret.
  destruct (sum_clicks c w seg_id feats h tr) as [tr1 [e | n]]; simpl;
    intros H; [discriminate H|]. injection H as <-. eauto.
Qed.

Lemma click_loop_labels (c : config) (w : world)
      (cells : list ((string * string) * (string * list string))) :
  forall rows rows' h tr,
    snd (fold_m cells rows (click_step c w) h tr) = inr rows' ->
    click_labels rows'
    = (click_labels rows
       ++ map (fun cell => (fst (fst cell), fst (snd cell))) cells)%list.
Proof.
  induction cells as [|[seg grp] cells IH]; intros rows rows' h tr H.
  - simpl in H. injection H as <-. now rewrite List.app_nil_r.
  - cbn [fold_m] in H. rewrite bind_run in H.
    destruct (click_step c w rows (seg, grp) h tr) as [tr1 [e | r1]] eqn:E;
      [discriminate H|].
    assert (E' : snd (click_step c w rows (seg, grp) h tr) = inr r1) by now rewrite E.
    destruct (click_step_adds_row _ _ _ _ _ _ _ E') as [v ->].
    rewrite (IH _ _ _ _ H). unfold click_labels. rewrite map_app, <- List.app_assoc.
    reflexivity.
Qed.

End FrameFacts.

(** X2.  When [extract_data] returns, the dataframe of views has one row for
    each pair of a segment and a page, segment by segment, and the dataframe
    of clicks one row for each pair of a segment and a feature group. *)
Theorem extract_data_frames
        (c : Notify.config) (w : Notify.world)
        (df_clicks : list Notify.click_record) (df_views : list Notify.view_record) :
  snd (run (Notify.extract_data c w)) = inr (df_clicks, df_views) ->
  view_labels df_views
  = [("Segment-A", "Web"); ("Segment-A", "iOS"); ("Segment-A", "Android");
     ("Segment-B", "Web"); ("Segment-B", "iOS"); ("Segment-B", "Android")]
  /\ click_labels df_clicks
     = [("Segment-A", "Roleplay"); ("Segment-A", "Automation");
        ("Segment-B", "Roleplay"); ("Segment-B", "Automation")].
Proof.
  unfold run, Notify.extract_data. rewrite bind_run.
  destruct (fold_m _ _ (Notify.view_step c w) None []) as [tr1 [e | results]] eqn:E1;
    [discriminate|].
  rewrite bind_run.
  destruct (fold_m _ _ (Notify.click_step c w) None tr1) as [tr2 [e | rows]] eqn:E2;
    [discriminate|].
  simpl. intros H. injection H as <- <-.
  split.
  - apply (f_equal snd) in E1. cbn [snd] in E1.
    now rewrite (FrameFacts.view_loop_labels _ _ _ _ _ _ E1).
  - apply (f_equal snd) in E2. cbn [snd] in E2.
    now rewrite (FrameFacts.click_loop_labels _ _ _ _ _ _ E2).
Qed.

(** All fourteen queries answered: the labels of the two dataframes. *)
Lemma extract_data_frames_witness :
  exists df_clicks df_views,
    snd (run (Notify.extract_data sample_config (sample_world sample_answer 200)))
    = inr (df_clicks, df_views)
    /\ view_labels df_views
       = [("Segment-A", "Web"); ("Segment-A", "iOS"); ("Segment-A", "Android");
          ("Segment-B", "Web"); ("Segment-B", "iOS"); ("Segment-B", "Android")]
    /\ click_labels df_clicks
       = [("Segment-A", "Roleplay"); ("Segment-A", "Automation");
          ("Segment-B", "Roleplay"); ("Segment-B", "Automation")].
Proof.
  eexists. eexists. split.
  2: { eapply (@extract_data_frames sample_config (sample_world sample_answer 200)).
       vm_compute. reflexivity. }
  vm_compute. reflexivity.
Defined.

Module AnswerFacts.

Import Notify.

Lemma raise_for_status_ok (r : response) : ok r = true -> raise_for_status r = inr tt.
Proof.
  unfold ok, raise_for_status. intros H. apply negb_true_iff in H.
  apply andb_false_iff in H.
  destruct (400 <=? status_code r) eqn:E1; simpl.
  - destruct H as [H | H]; [discriminate H|].
    assert (H5 : (status_code r <? 500) = false).
    { apply Z.ltb_ge. apply Z.ltb_ge in H. lia. }
    rewrite H5, H. now rewrite andb_false_r.
  - assert (H5 : (500 <=? status_code r) = false).
    { apply Z.leb_gt. apply Z.leb_gt in E1. lia. }
    now rewrite H5.
Qed.

Lemma exn_cls_raised_while_handling (e0 e : py_exn) :
  exn_cls (raised_while_handling e0 e) = exn_cls e.
Proof. destruct e. reflexivity. Qed.

End AnswerFacts.

(** X3.  A page-view query that is answered successfully with a document
    without [results], or with an empty [results] list, is recorded with 0
    views. *)
Theorem view_step_no_result_rows
        (c : Notify.config) (w : Notify.world) (results : list Notify.view_record)
        (seg page : string * string) (h : option py_exn) (tr : list Notify.effect)
        (resp : Notify.response) (members : list (string * json)) :
  (forall q, Notify.pendo_post w tr q = inr resp) ->
  Notify.ok resp = true ->
  Notify.json_body resp = inr (JObj members) ->
  get members "results" = None \/ get members "results" = Some (JArr []) ->
  snd (Notify.view_step c w results (seg, page) h tr)
  = inr (results ++ [Notify.mk_view (fst seg) (fst page) (JInt 0)])%list.
Proof.
  intros Hpost Hok Hbody Hres.
  destruct seg as [seg_name seg_id], page as [page_name page_id].
  unfold Notify.view_step, Notify.post_query, bind, emit, lift, raise_, ret.
  cbv zeta. rewrite Hpost. cbn -[Notify.raise_for_status].
  rewrite (AnswerFacts.raise_for_status_ok _ Hok), Hbody. cbn.
  unfold get_default. destruct Hres as [-> | ->]; reflexivity.
Qed.

Lemma view_step_no_result_rows_witness :
  let resp := sample_response 200 (JObj [("results", JArr [])]) in
  snd (Notify.view_step sample_config (sample_world (fun _ => resp) 200) []
                        (("Segment-A", "segA"), ("Web", "web")) None [])
  = inr [Notify.mk_view "Segment-A" "Web" (JInt 0)].
Proof.
  intros resp.
  refine (@view_step_no_result_rows sample_config (sample_world (fun _ => resp) 200) []
            ("Segment-A", "segA") ("Web", "web") None [] resp
            [("results", JArr [])] _ _ _ _).
  - reflexivity.
  - reflexivity.
  - reflexivity.
  - right. reflexivity.
Defined.

(** X4.  In [clicks_for_feature] the two cases differ: an answer without
    [results] counts as 0 clicks, an answer with an empty [results] list
    raises [IndexError]. *)
Theorem clicks_for_feature_no_result_rows
        (c : Notify.config) (w : Notify.world) (seg_id feat_id : string)
        (h : option py_exn) (tr : list Notify.effect)
        (resp : Notify.response) (members : list (string * json)) :
  (forall q, Notify.pendo_post w tr q = inr resp) ->
  Notify.ok resp = true ->
  Notify.json_body resp = inr (JObj members) ->
  (get members "results" = None ->
   snd (Notify.clicks_for_feature c w seg_id feat_id h tr) = inr (JInt 0))
  /\ (get members "results" = Some (JArr []) ->
      exists e, snd (Notify.clicks_for_feature c w seg_id feat_id h tr) = inl e
                /\ exn_cls e = "IndexError"
                /\ exn_str e = "list index out of range").
Proof.
  intros Hpost Hok Hbody.
  unfold Notify.clicks_for_feature, Notify.post_query, bind, emit, lift, raise_, ret.
  cbv zeta. rewrite Hpost. cbn -[Notify.raise_for_status].
  rewrite (AnswerFacts.raise_for_status_ok _ Hok), Hbody. cbn.
  unfold get_default. split; intros ->.
  - reflexivity.
  - cbn. eexists. split; [reflexivity|].
    destruct h; split; reflexivity.
Qed.

Lemma clicks_for_feature_no_result_rows_witness :
  let resp := sample_response 200 (JObj [("results", JArr [])]) in
  exists e,
    snd (Notify.clicks_for_feature sample_config (sample_world (fun _ => resp) 200)
                                   "segA" "f0" None [])
    = inl e
    /\ exn_cls e = "IndexError"
    /\ exn_str e = "list index out of range".
Proof.
  intros resp.
  refine (proj2 (@clicks_for_feature_no_result_rows
                   sample_config (sample_world (fun _ => resp) 200) "segA" "f0" None []
                   resp [("results", JArr [])] _ _ _) _); reflexivity.
Defined.

Module ClickFacts.

Import Notify.

(** A feature query answered with [n] clicks returns [n]. *)
Lemma clicks_for_feature_value
      (c : config) (w : world) (seg_id feat_id : string)
      (h : option py_exn) (tr : list effect) (n : Z) :
  (forall q, events q = featureEvents feat_id -> segment q = seg_id ->
             exists resp, pendo_post w tr q = inr resp
                          /\ answers_count resp "clicks" n) ->
  snd (clicks_for_feature c w seg_id feat_id h tr) = inr (JInt n).
Proof.
  intros Hpost.
  unfold clicks_for_feature, post_query, bind, emit, lift, raise_, ret.
  cbv zeta.
  match goal with
  | |- context [pendo_post w tr ?q] =>
      destruct (Hpost q eq_refl eq_refl)
        as [resp [Hp [Hok [members [row [rest [Hbody [Hres Hclicks]]]]]]]]
  end.
  rewrite Hp. cbn -[raise_for_status].
  rewrite (AnswerFacts.raise_for_status_ok _ Hok), Hbody. cbn.
  unfold get_default. rewrite Hres. cbn. unfold get_default. now rewrite Hclicks.
Qed.

Lemma sum_clicks_from
      (c : config) (w : world) (seg_id : string) (clicks : string -> Z)
      (feats : list string) :
  (forall fid tr q,
      In fid feats -> events q = featureEvents fid -> segment q = seg_id ->
      exists resp, pendo_post w tr q = inr resp
                   /\ answers_count resp "clicks" (clicks fid)) ->
  forall acc h tr,
    snd (fold_m feats (NInt acc)
           (fun acc fid =>
              bind (clicks_for_feature c w seg_id fid) (fun v => lift (add acc v)))
           h tr)
    = inr (NInt (acc + total_of (map clicks feats))).
Proof.
  induction feats as [|fid feats IH]; intros Hw acc h tr.
  - simpl. now rewrite Z.add_0_r.
  - cbn [fold_m]. rewrite bind_run.
    assert (Hv : snd (clicks_for_feature c w seg_id fid h tr) = inr (JInt (clicks fid))).
    { apply clicks_for_feature_value. intros q Hq Hs.
      apply (Hw fid tr q); [now left | exact Hq | exact Hs]. }
    rewrite bind_run.
    destruct (clicks_for_feature c w seg_id fid h tr) as [tr1 r1]. simpl in Hv. subst r1.
    cbn [lift add ret]. cbn.
    rewrite IH.
    + now rewrite Z.add_assoc.
    + intros fid' tr' q Hin. apply Hw. now right.
Qed.

End ClickFacts.

(** X5.  The clicks of a feature group are the sum of the clicks of its
    features: when every feature query of the group is answered successfully
    with an integer count, the row of the group holds the sum of the counts. *)
Theorem group_clicks_are_summed
        (c : Notify.config) (w : Notify.world) (rows : list Notify.click_record)
        (seg : string * string) (grp : string * list string) (clicks : string -> Z)
        (h : option py_exn) (tr : list Notify.effect) :
  (forall fid tr' q,
      In fid (snd grp) ->
      Notify.events q = Notify.featureEvents fid -> Notify.segment q = snd seg ->
      exists resp, Notify.pendo_post w tr' q = inr resp
                   /\ answers_count resp "clicks" (clicks fid)) ->
  snd (Notify.click_step c w rows (seg, grp) h tr)
  = inr (rows ++ [Notify.mk_click (fst seg) (fst grp)
                                  (JInt (total_of (map clicks (snd grp))))])%list.
Proof.
  destruct seg as [seg_name seg_id], grp as [grp_name feats]. cbn [fst snd].
  intros Hw. unfold Notify.click_step. rewrite bind_run.
  pose proof (@ClickFacts.sum_clicks_from c w seg_id clicks feats Hw 0 h tr) as Hs.
  change (fold_m feats (NInt 0) _) with (Notify.sum_clicks c w seg_id feats) in Hs.
  destruct (Notify.sum_clicks c w seg_id feats h tr) as [tr1 r1].
  simpl in Hs. subst r1. reflexivity.
Qed.

(** Two clicks on each of the three Automation features: six. *)
Lemma group_clicks_are_summed_witness :
  snd (Notify.click_step sample_config (sample_world sample_answer 200) []
         (("Segment-A", "segA"), ("Automation", ["f1"; "f2"; "f3"])) None [])
  = inr [Notify.mk_click "Segment-A" "Automation" (JInt 6)].
Proof.
  refine (@group_clicks_are_summed sample_config (sample_world sample_answer 200) []
            ("Segment-A", "segA") ("Automation", ["f1"; "f2"; "f3"]) (fun _ => 2)
            None [] _).
  intros fid tr' q _ _ _. exists (sample_answer q). split; [reflexivity|].
  split; [reflexivity|].
  exists [("results", JArr [JObj [("views", JInt 3); ("clicks", JInt 2)]])],
         [("views", JInt 3); ("clicks", JInt 2)], [].
  repeat split.
Defined.

(* ===================================================================== *)
(** * Delivery and alerts of the notifier *)
(* ===================================================================== *)

Module DeliveryFacts.

Import Notify.


End DeliveryFacts.

Import DeliveryFacts.






(** Every query answered: the fourteen cells of the grid, in order. *)
Lemma extract_data_asks_grid_witness :
  asked (fst (run (Notify.extract_data sample_config (sample_world sample_answer 200))))
  = [("segA", Notify.pageEvents "web"); ("segA", Notify.pageEvents "ios");
     ("segA", Notify.pageEvents "android");
     ("segB", Notify.pageEvents "web"); ("segB", Notify.pageEvents "ios");
     ("segB", Notify.pageEvents "android");
     ("segA", Notify.featureEvents "f0"); ("segA", Notify.featureEvents "f1");
     ("segA", Notify.featureEvents "f2"); ("segA", Notify.featureEvents "f3");
     ("segB", Notify.featureEvents "f0"); ("segB", Notify.featureEvents "f1");
     ("segB", Notify.featureEvents "f2"); ("segB", Notify.featureEvents "f3")].
Proof.
  apply (proj1 (proj2 (extract_data_asks_grid
                         sample_config (sample_world sample_answer 200)))).
  eexists. vm_compute. reflexivity.
Defined.

Module AlertFacts.

Import Notify.

Section Loops.
Variable P : effect -> bool.

Lemma emits_only_post (w : world) (q : pendo_query) :
  (forall outcome, P (PendoPost q outcome) = true) ->
  emits_only P (post_query w q).
Proof.
  intros HP h tr. unfold post_query, bind, emit, lift, raise_, ret.
  exists [PendoPost q (pendo_post w tr q)].
  destruct (pendo_post w tr q) as [e | r] eqn:E; simpl;
    (split; [reflexivity | constructor; [apply HP | constructor]]).
Qed.

Lemma emits_only_fold_m (A S : Type) (body : S -> A -> M effect S) :
  (forall s x, emits_only P (body s x)) ->
  forall xs s, emits_only P (fold_m xs s body).
Proof.
  intros Hb xs. induction xs as [|x xs IH]; intros s; simpl.
  - apply emits_only_ret.
  - apply emits_only_bind; [apply Hb | exact IH].
Qed.

End Loops.

Ltac only_tac :=
  repeat first
    [ apply emits_only_lift
    | apply emits_only_ret
    | apply emits_only_raise
    | apply emits_only_emit; reflexivity
    | apply emits_only_post; intros ?; reflexivity
    | apply emits_only_fold_m; intros ? ?
    | apply emits_only_try_except; [|intros ?]
    | apply emits_only_bind; [|intros ?]
    | match goal with
      | |- emits_only _ (match ?x with _ => _ end) => destruct x
      | |- emits_only _ (if ?x then _ else _) => destruct x
      | |- emits_only _ (let '(_, _) := ?x in _) => destruct x
      end ].

(** The [try] block of the notifier writes no error line and makes no call
    to SNS. *)
Lemma try_block_no_alert (c : config) (w : world) (event : json) :
  emits_only (fun ev => negb (is_alert ev)) (try_block c w event).
Proof.
  unfold try_block, extract_data, view_step, click_step, sum_clicks,
    clicks_for_feature, send_to_slack.
  cbv zeta. only_tac.
Qed.

(** The [except] block writes the error line and then asks for the SNS
    client. *)
Lemma except_block_alerts (w : world) (e : py_exn) (h : option py_exn)
      (tr : list effect) :
  exists evs,
    fst (except_block w e h tr)
    = (tr ++ LogError ("Lambda job revii_stats_notify failed: " ++ exn_str e)
          :: SnsClient (sns_client w) :: evs)%list.
Proof.
  unfold except_block, send_sns_notification, try_except, bind, emit, check,
    raise_, reraise, ret.
  cbv zeta. cbn.
  destruct (sns_client w) as [e1|]; cbn.
  - exists []. now rewrite <- !List.app_assoc.
  - destruct (sns_publish w (sns_topic_arn w) _ _) as [e2|]; cbn;
      eexists; rewrite <- !List.app_assoc; cbn; reflexivity.
Qed.

End AlertFacts.

(** X7.  The notifier raises an alert exactly on failure.  When its [try]
    block returns, the handler returns the same value and the trace holds no
    error line and no call to SNS.  When the [try] block raises [e0], the
    handler ends with an exception after writing the line
    [Lambda job revii_stats_notify failed: ] followed by the text of [e0]
    and asking for the SNS client; when the client is created, that same
    line is the message handed to [publish], with the subject
    [Slack Notification Error] and the topic of the environment. *)
Theorem notifier_alerts_exactly_on_failure
        (c : Notify.config) (w : Notify.world) (event : json) :
  let tr := fst (run (Notify.lambda_handler c w event)) in
  let r := snd (run (Notify.lambda_handler c w event)) in
  match snd (run (Notify.try_block c w event)) with
  | inr a => r = inr a /\ Forall (fun ev => is_alert ev = false) tr
  | inl e0 =>
      let error_message := "Lambda job revii_stats_notify failed: " ++ exn_str e0 in
      (exists e, r = inl e)
      /\ In (Notify.LogError error_message) tr
      /\ In (Notify.SnsClient (Notify.sns_client w)) tr
      /\ (Notify.sns_client w = None ->
          In (Notify.SnsPublish
                (Notify.sns_topic_arn w) "Slack Notification Error" error_message
                (Notify.sns_publish w (Notify.sns_topic_arn w)
                                    "Slack Notification Error" error_message))
             tr)
  end.
Proof.
  cbv zeta. unfold run, Notify.lambda_handler, try_except.
  destruct (AlertFacts.try_block_no_alert c w event None []) as [evs [E F]].
  destruct (Notify.try_block c w event None []) as [tr1 [e | a]];
    cbn [fst snd] in *; subst tr1.
  - destruct (except_block_raises w e (Some e) ([] ++ evs)%list) as [e' He'].
    split; [eauto|].
    unfold Notify.except_block, Notify.send_sns_notification, try_except, bind,
      emit, check, raise_, reraise, ret.
    cbv zeta. cbn [fst snd].
    assert (Htail : forall (x : Notify.effect) (l1 l2 : list Notify.effect),
               In x l2 -> In x (l1 ++ l2)%list).
    { intros x l1 l2 H. apply in_or_app. now right. }
    destruct (Notify.sns_client w) as [e1|]; cbn [fst snd].
    + rewrite <- !List.app_assoc.
      split; [apply Htail, Htail; simpl; tauto|].
      split; [apply Htail, Htail; simpl; tauto|].
      intros H. discriminate H.
    + destruct (Notify.sns_publish w (Notify.sns_topic_arn w) _ _) as [e2|];
        cbn [fst snd]; rewrite <- !List.app_assoc;
        (split; [apply Htail, Htail; simpl; tauto|]);
        (split; [apply Htail, Htail; simpl; tauto|]);
        intros _; apply Htail, Htail; simpl; tauto.
  - split; [reflexivity|].
    eapply Forall_impl; [|exact F]. intros ev Hev. now apply negb_true_iff.
Qed.

(** The Android page of Segment-A is answered with a 500: the line carries
    the text of the [HTTPError] and is the message that is published. *)
Lemma notifier_alerts_exactly_on_failure_witness :
  let answer q :=
    if String.eqb (Notify.name q) "Segment-A-Android"
    then sample_response 500 JNull
    else sample_answer q in
  let w := sample_world answer 200 in
  let event := JObj [("report_date", JStr "05/01/2025"); ("total", JInt 1200)] in
  let error_message :=
    "Lambda job revii_stats_notify failed: "
    ++ "500 Server Error:  for url: https://analytics.example/aggregation" in
  In (Notify.LogError error_message)
     (fst (run (Notify.lambda_handler sample_config w event)))
  /\ In (Notify.SnsPublish (Some "arn:aws:sns:alerts") "Slack Notification Error"
                           error_message None)
        (fst (run (Notify.lambda_handler sample_config w event))).
Proof.
  intros answer w event error_message.
  pose proof (notifier_alerts_exactly_on_failure sample_config w event) as H.
  cbv zeta in H.
  change (snd (run (Notify.try_block sample_config w event)))
    with (@inl py_exn (dict json)
            (PyExn "HTTPError"
               "500 Server Error:  for url: https://analytics.example/aggregation" None))
    in H.
  cbv iota in H.
  destruct H as [_ [Hlog [_ Hpub]]].
  split; [exact Hlog | exact (Hpub eq_refl)].
Defined.

(* ===================================================================== *)
(** * The order of the warehouse calls *)
(* ===================================================================== *)

Module OrderFacts.

Import Extract.

Ltac run_cases w :=
  unfold_run;
  cbn -[combine update of_items flatten_coupons flatten_signups static_cols churn_cols];
  repeat (world_case w;
          cbn -[combine update of_items flatten_coupons flatten_signups
                static_cols churn_cols]).

End OrderFacts.

(** X8.  [get_data_from_redshift] runs its four queries in the order daily
    metrics, churn, coupons, signups, each only when the one before has
    succeeded: the queries executed are always an initial part of the four,
    all four when the function returns, and none is executed unless the
    connection was opened and the cursor created. *)
Theorem queries_run_in_order (w : Extract.world) :
  let tr := fst (run (Extract.get_data_from_redshift w)) in
  let r := snd (run (Extract.get_data_from_redshift w)) in
  is_prefix (executed tr) four_queries
  /\ ((exists result, r = inr result) -> executed tr = four_queries)
  /\ (executed tr <> [] ->
      (exists dbname user password host port,
          In (Extract.Called (Extract.Connect dbname user password host port) None) tr)
      /\ In (Extract.Called Extract.Cursor None) tr).
Proof.
  cbv zeta. OrderFacts.run_cases w.
  all: split; [| split].
  all: try (intros [result Hr]; discriminate Hr).
  all: try (intros Hne; exfalso; apply Hne; reflexivity).
  all: try (intros _; reflexivity).
  all: try (unfold is_prefix, four_queries; cbn; eexists; reflexivity).
  all: intros _; split; [do 5 eexists; cbn; left; reflexivity | cbn; tauto].
Qed.

(** Every call succeeds: the four queries. *)
Lemma queries_run_in_order_witness :
  executed (fst (run (Extract.get_data_from_redshift
                        (sample_warehouse (Some sample_static_row) sample_coupons))))
  = four_queries.
Proof.
  apply (proj1 (proj2 (queries_run_in_order
                         (sample_warehouse (Some sample_static_row) sample_coupons)))).
  eexists. vm_compute. reflexivity.
Defined.

(** X9.  A failure before the cursor exists (a missing environment
    variable, a refused connection, a failing [conn.cursor()]) leaves
    [get_data_from_redshift] as a [RuntimeError] whose text is
    [Error connecting to Redshift: ] followed by the text of the cause, with
    the cause as its context; no query has been executed. *)
Theorem connection_errors_are_wrapped (w : Extract.world) :
  let tr := fst (run (Extract.get_data_from_redshift w)) in
  let r := snd (run (Extract.get_data_from_redshift w)) in
  ~ In (Extract.Called Extract.Cursor None) tr ->
  exists cause,
    r = inl (PyExn "RuntimeError" ("Error connecting to Redshift: " ++ exn_str cause)
                   (Some cause))
    /\ executed tr = [].
Proof.
  cbv zeta. OrderFacts.run_cases w.
  all: intros Hno.
  all: try (exfalso; apply Hno; cbn; tauto).
  all: match goal with
       | |- exists _, inl (PyExn _ _ (Some ?cause)) = _ /\ _ =>
           exists cause; split; reflexivity
       end.
Qed.

(** The variable PORT is missing from the environment. *)
Lemma connection_errors_are_wrapped_witness :
  let w :=
    {| Extract.environ := [("DBNAME", "dw"); ("USER", "bot"); ("PASSWORD", "pw");
                           ("HOST", "h")];
       Extract.connect := fun _ _ _ _ _ => None;
       Extract.cursor := None;
       Extract.execute := fun _ => None;
       Extract.fetchone := fun _ => inr None;
       Extract.fetchall_coupon := inr [];
       Extract.fetchall_signup := inr [];
       Extract.cursor_close := None;
       Extract.conn_close := None;
       Extract.invoke := fun _ => None;
       Extract.sns_client := None;
       Extract.sns_publish := fun _ _ _ => None |} in
  exists cause,
    snd (run (Extract.get_data_from_redshift w))
    = inl (PyExn "RuntimeError" ("Error connecting to Redshift: " ++ exn_str cause)
                 (Some cause))
    /\ executed (fst (run (Extract.get_data_from_redshift w))) = [].
Proof.
  intros w. apply (connection_errors_are_wrapped w).
  vm_compute. tauto.
Defined.

(** X10.  When the daily table has no row ([fetchone] gives [None] after the
    first query), [get_data_from_redshift] ends with the [TypeError] of
    [zip(cols, None)]: only the first query has been executed and
    [conn.close()] is never called. *)
Theorem empty_daily_table_raises (w : Extract.world) :
  let tr := fst (run (Extract.get_data_from_redshift w)) in
  let r := snd (run (Extract.get_data_from_redshift w)) in
  In (Extract.Called (Extract.FetchOne Extract.static_metrics_query) None) tr ->
  Extract.fetchone w Extract.static_metrics_query = inr None ->
  r = inl (PyExn "TypeError" "'NoneType' object is not iterable" None)
  /\ executed tr = [Extract.static_metrics_query]
  /\ forall failure, ~ In (Extract.Called Extract.ConnClose failure) tr.
Proof.
  cbv zeta. OrderFacts.run_cases w.
  all: intros Hin Hnone.
  all: try discriminate Hnone.
  all: try (exfalso; cbn in Hin; intuition discriminate).
  all: split; [reflexivity | split; [reflexivity|]].
  all: intros failure Hc; cbn in Hc; intuition discriminate.
Qed.

Lemma empty_daily_table_raises_witness :
  let w := sample_warehouse None sample_coupons in
  snd (run (Extract.get_data_from_redshift w))
  = inl (PyExn "TypeError" "'NoneType' object is not iterable" None)
  /\ executed (fst (run (Extract.get_data_from_redshift w)))
     = [Extract.static_metrics_query]
  /\ forall failure,
      ~ In (Extract.Called Extract.ConnClose failure)
           (fst (run (Extract.get_data_from_redshift w))).
Proof.
  intros w. apply (empty_daily_table_raises w).
  - vm_compute. tauto.
  - reflexivity.
Defined.

(* ===================================================================== *)
(** * The handler of the extractor *)
(* ===================================================================== *)

Module HandlerFacts.

Import Extract.

Ltac handler_case w :=
  first
    [ world_case w
    | match goal with
      | |- context [json_dumps ?d] => destruct (json_dumps d) eqn:?
      | |- context [invoke w ?p] => destruct (invoke w p) eqn:?
      | |- context [sns_client w] => destruct (sns_client w) eqn:?
      | |- context [sns_publish w ?a ?b ?c] => destruct (sns_publish w a b c) eqn:?
      end ].

Ltac handler_cases w :=
  unfold lambda_handler, try_block, send_sns_notification;
  unfold_run;
  cbn -[combine update of_items flatten_coupons flatten_signups static_cols churn_cols
        json_dumps];
  repeat (handler_case w;
          cbn -[combine update of_items flatten_coupons flatten_signups
                static_cols churn_cols json_dumps]).

Ltac split_in H :=
  cbn in H;
  repeat match type of H with
         | _ \/ _ => destruct H as [H | H]
         end;
  try discriminate H; try contradiction.

End HandlerFacts.

(** X11.  The hand-off to the notifier is made only after the warehouse
    work is complete: whenever the trace of [lambda_handler] holds an
    invocation, it is the asynchronous invocation of
    [daily_bot-stats-notify], [get_data_from_redshift] has returned a
    mapping, the payload is the serialization of that mapping, and
    [conn.close()] has succeeded.  The handler returns exactly when the
    invocation succeeded. *)
Theorem handoff_follows_extraction (w : Extract.world) :
  let tr := fst (run (Extract.lambda_handler w)) in
  let r := snd (run (Extract.lambda_handler w)) in
  (forall function_name invocation_type payload outcome,
      In (Extract.Called (Extract.LambdaInvoke function_name invocation_type payload)
                         outcome) tr ->
      function_name = "daily_bot-stats-notify"
      /\ invocation_type = "Event"
      /\ In (Extract.Called Extract.ConnClose None) tr
      /\ exists result,
          snd (run (Extract.get_data_from_redshift w)) = inr result
          /\ Extract.json_dumps result = inr payload)
  /\ ((exists a, r = inr a) <->
      exists payload,
        In (Extract.Called
              (Extract.LambdaInvoke "daily_bot-stats-notify" "Event" payload) None) tr).
Proof.
  cbv zeta. HandlerFacts.handler_cases w.
  all: split;
    [ intros function_name invocation_type payload outcome Hin;
      HandlerFacts.split_in Hin
    | split;
      [ intros [a Ha]; try discriminate Ha
      | intros [payload Hin]; HandlerFacts.split_in Hin ] ].
  all: try (injection Hin as <- <- <- <-;
            repeat split; [cbn; tauto | eexists; split; [reflexivity | eassumption]]).
  all: try (eexists; cbn; do 12 right; left; reflexivity).
  all: eauto.
Qed.

(** A run in which every call succeeds: the hand-off is in the trace and
    the handler returns. *)
Lemma handoff_follows_extraction_witness :
  let w := sample_warehouse (Some sample_static_row) sample_coupons in
  exists payload,
    In (Extract.Called
          (Extract.LambdaInvoke "daily_bot-stats-notify" "Event" payload) None)
       (fst (run (Extract.lambda_handler w)))
    /\ exists result,
        snd (run (Extract.get_data_from_redshift w)) = inr result
        /\ Extract.json_dumps result = inr payload.
Proof.
  intros w.
  pose proof (handoff_follows_extraction w) as H. cbv zeta in H.
  destruct H as [Honly Hiff].
  destruct (proj1 Hiff (ex_intro _ _ eq_refl)) as [payload Hin].
  exists payload. split; [exact Hin|].
  exact (proj2 (proj2 (proj2 (Honly _ _ _ _ Hin)))).
Defined.

Module ExtractAlertFacts.

Import Extract.

(** The [try] block of the extractor writes no error line and makes no call
    to SNS. *)
Lemma extract_try_block_no_alert (w : world) :
  Forall (fun ev => extract_alert ev = false) (fst (run (try_block w))).
Proof.
  unfold try_block. unfold_run.
  cbn -[combine update of_items flatten_coupons flatten_signups static_cols churn_cols
        json_dumps].
  repeat (HandlerFacts.handler_case w;
          cbn -[combine update of_items flatten_coupons flatten_signups
                static_cols churn_cols json_dumps]).
  all: repeat constructor.
Qed.

End ExtractAlertFacts.

(** X12.  The extractor raises an alert exactly on failure.  When its [try]
    block returns, the handler returns the same value and the trace holds no
    error line and no call to SNS.  When the [try] block raises [e0], the
    handler ends with an exception, after writing the line
    [Lambda daily_bot_stats_extract failed: ] followed by the text of [e0]
    and asking for the SNS client. *)
Theorem extractor_alerts_exactly_on_failure (w : Extract.world) :
  let tr := fst (run (Extract.lambda_handler w)) in
  let r := snd (run (Extract.lambda_handler w)) in
  match snd (run (Extract.try_block w)) with
  | inr a => r = inr a /\ Forall (fun ev => extract_alert ev = false) tr
  | inl e0 =>
      (exists e, r = inl e)
      /\ In (Extract.LogError ("Lambda daily_bot_stats_extract failed: " ++ exn_str e0)) tr
      /\ In (Extract.Called Extract.SnsClient (Extract.sns_client w)) tr
  end.
Proof.
  cbv zeta. pose proof (ExtractAlertFacts.extract_try_block_no_alert w) as Hquiet.
  unfold run in *. unfold Extract.lambda_handler, try_except.
  destruct (Extract.try_block w None []) as [tr1 [e0 | a]]; cbn [fst snd] in *.
  - unfold Extract.send_sns_notification, Extract.do_call, Extract.environ_lookup,
      try_except, bind, emit, check, lift, ret, raise_, reraise.
    cbv zeta.
    destruct (Extract.sns_client w) as [e1|]; cbn.
    + split; [eauto|].
      rewrite <- !List.app_assoc; split; apply in_or_app; right; simpl; auto.
    + destruct (get (Extract.environ w) "SNS_TOPIC_ARN") as [topic|]; cbn.
      * destruct (Extract.sns_publish w topic _ _) as [e2|]; cbn;
          (split; [eauto|]);
          rewrite <- !List.app_assoc; split; apply in_or_app; right; simpl; auto.
      * split; [eauto|].
        rewrite <- !List.app_assoc; split; apply in_or_app; right; simpl; auto.
  - split; [reflexivity | exact Hquiet].
Qed.

(** X13.  When the extractor has failed and the environment has no
    [SNS_TOPIC_ARN], nothing is published: the [KeyError] of the lookup is
    logged as the notification failure and is the exception that leaves the
    handler.  Its context is the [KeyError] of the bytes key that
    [os.environ] caught, and the context of that one is the original
    exception. *)
Theorem missing_topic_skips_publish
        (w : Extract.world) (tr : list Extract.effect) (original : py_exn) :
  run (Extract.try_block w) = (tr, inl original) ->
  Extract.sns_client w = None ->
  get (Extract.environ w) "SNS_TOPIC_ARN" = None ->
  run (Extract.lambda_handler w) =
  ((tr ++ [Extract.LogError
             ("Lambda daily_bot_stats_extract failed: " ++ exn_str original);
           Extract.Called Extract.SnsClient None;
           Extract.LogError "Failed to send SNS notification: 'SNS_TOPIC_ARN'"])%list,
   inl (PyExn "KeyError" "'SNS_TOPIC_ARN'"
              (Some (PyExn "KeyError" "b'SNS_TOPIC_ARN'" (Some original))))).
Proof.
  intros Hrun Hclient Htopic.
  unfold run, Extract.lambda_handler, try_except in *.
  rewrite Hrun.
  unfold Extract.send_sns_notification, Extract.do_call, Extract.environ_lookup,
    try_except, bind, emit, check, lift, ret, raise_, reraise.
  cbv zeta. rewrite Hclient, Htopic. cbn.
  rewrite <- !List.app_assoc. reflexivity.
Qed.

(** The warehouse refuses the connection and the topic is not configured. *)
Lemma missing_topic_skips_publish_witness :
  let w :=
    {| Extract.environ := [("DBNAME", "dw"); ("USER", "bot"); ("PASSWORD", "pw");
                           ("HOST", "h"); ("PORT", "5439")];
       Extract.connect :=
         fun _ _ _ _ _ => Some (PyExn "OperationalError" "timeout" None);
       Extract.cursor := None;
       Extract.execute := fun _ => None;
       Extract.fetchone := fun _ => inr None;
       Extract.fetchall_coupon := inr [];
       Extract.fetchall_signup := inr [];
       Extract.cursor_close := None;
       Extract.conn_close := None;
       Extract.invoke := fun _ => None;
       Extract.sns_client := None;
       Extract.sns_publish := fun _ _ _ => None |} in
  let original :=
    PyExn "RuntimeError" "Error connecting to Redshift: timeout"
          (Some (PyExn "OperationalError" "timeout" None)) in
  run (Extract.lambda_handler w) =
  ([Extract.Called (Extract.Connect "dw" "bot" "pw" "h" "5439")
                   (Some (PyExn "OperationalError" "timeout" None));
    Extract.LogError
      "Lambda daily_bot_stats_extract failed: Error connecting to Redshift: timeout";
    Extract.Called Extract.SnsClient None;
    Extract.LogError "Failed to send SNS notification: 'SNS_TOPIC_ARN'"],
   inl (PyExn "KeyError" "'SNS_TOPIC_ARN'"
              (Some (PyExn "KeyError" "b'SNS_TOPIC_ARN'" (Some original))))).
Proof.
  intros w original.
  exact (@missing_topic_skips_publish
           w [Extract.Called (Extract.Connect "dw" "bot" "pw" "h" "5439")
                             (Some (PyExn "OperationalError" "timeout" None))]
           original eq_refl eq_refl eq_refl).
Defined.

(* ===================================================================== *)
(** * Which exception leaves the extractor *)
(* ===================================================================== *)

Module ChainFacts.

(** An exception raised while another one is handled has a longer context
    chain than the handled one: it is never the handled one itself. *)
Lemma chain_length_raised_while_handling (e0 e : py_exn) :
  chain_length (raised_while_handling e0 e)
  = S (chain_length e + chain_length e0).
Proof.
  revert e.
  fix IH 1. intros [c m [e'|]].
  - cbn [raised_while_handling chain_length]. fold raised_while_handling.
    rewrite (IH e'). reflexivity.
  - reflexivity.
Qed.

Lemma raised_while_handling_neq (e0 e : py_exn) : raised_while_handling e0 e <> e0.
Proof.
  intros H. pose proof (chain_length_raised_while_handling e0 e) as L.
  rewrite H in L. lia.
Qed.

End ChainFacts.

(** C2, the claim as stated fails: the warehouse cannot be reached and the
    notification cannot be published; the exception that leaves the handler
    is the one of the notification, not the one of the job. *)
Lemma notification_failure_masks_original :
  let w :=
    {| Extract.environ := [("DBNAME", "dw"); ("USER", "bot"); ("PASSWORD", "pw");
                           ("HOST", "h"); ("PORT", "5439");
                           ("SNS_TOPIC_ARN", "arn:aws:sns:alerts")];
       Extract.connect :=
         fun _ _ _ _ _ => Some (PyExn "OperationalError" "timeout" None);
       Extract.cursor := None;
       Extract.execute := fun _ => None;
       Extract.fetchone := fun _ => inr None;
       Extract.fetchall_coupon := inr [];
       Extract.fetchall_signup := inr [];
       Extract.cursor_close := None;
       Extract.conn_close := None;
       Extract.invoke := fun _ => None;
       Extract.sns_client := None;
       Extract.sns_publish :=
         fun _ _ _ => Some (PyExn "ClientError" "AccessDenied" None) |} in
  let original :=
    PyExn "RuntimeError" "Error connecting to Redshift: timeout"
          (Some (PyExn "OperationalError" "timeout" None)) in
  let raised := PyExn "ClientError" "AccessDenied" (Some original) in
  snd (run (Extract.try_block w)) = inl original
  /\ snd (run (Extract.lambda_handler w)) = inl raised
  /\ raised <> original
  /\ In (Extract.LogError "Failed to send SNS notification: AccessDenied")
        (fst (run (Extract.lambda_handler w))).
Proof.
  repeat split; try reflexivity.
  - discriminate.
  - vm_compute. tauto.
Qed.

(** C2, amended.  When the job of the extractor fails, the outcome of the
    notification decides which exception leaves the handler.  The original
    exception leaves it exactly when the notification was published.  In
    every other case the exception of the failed step leaves it, with the
    original exception at the end of its context chain: the failure of
    [session.client('sns')], which is made outside the [try] of
    [send_sns_notification] and is not logged; the [KeyError] of a missing
    [SNS_TOPIC_ARN]; or the failure of [publish]; the last two are logged as
    [Failed to send SNS notification: ...]. *)
Theorem notification_outcome_decides_exception
        (w : Extract.world) (tr : list Extract.effect) (original : py_exn) :
  run (Extract.try_block w) = (tr, inl original) ->
  let subject := "Slack Notification" in
  let body := "Lambda job daily_bot_stats_extract failed: " ++ exn_str original in
  let logged :=
    Extract.LogError ("Lambda daily_bot_stats_extract failed: " ++ exn_str original) in
  let missing :=
    PyExn "KeyError" "'SNS_TOPIC_ARN'"
          (Some (PyExn "KeyError" "b'SNS_TOPIC_ARN'" None)) in
  run (Extract.lambda_handler w) =
  match Extract.sns_client w with
  | Some failure =>
      ((tr ++ [logged; Extract.Called Extract.SnsClient (Some failure)])%list,
       inl (raised_while_handling original failure))
  | None =>
      match get (Extract.environ w) "SNS_TOPIC_ARN" with
      | None =>
          ((tr ++ [logged;
                   Extract.Called Extract.SnsClient None;
                   Extract.LogError
                     ("Failed to send SNS notification: " ++ exn_str missing)])%list,
           inl (raised_while_handling original missing))
      | Some topic_arn =>
          match Extract.sns_publish w topic_arn subject body with
          | Some notification =>
              ((tr ++ [logged;
                       Extract.Called Extract.SnsClient None;
                       Extract.Called (Extract.SnsPublish topic_arn subject body)
                                      (Some notification);
                       Extract.LogError
                         ("Failed to send SNS notification: "
                          ++ exn_str notification)])%list,
               inl (raised_while_handling original notification))
          | None =>
              ((tr ++ [logged;
                       Extract.Called Extract.SnsClient None;
                       Extract.Called (Extract.SnsPublish topic_arn subject body) None;
                       Extract.LogInfo "SNS notification sent successfully."])%list,
               inl original)
          end
      end
  end
  /\ (snd (run (Extract.lambda_handler w)) = inl original <->
      exists topic_arn,
        In (Extract.Called (Extract.SnsPublish topic_arn subject body) None)
           (fst (run (Extract.lambda_handler w)))).
Proof.
  intros Hrun subject body logged missing.
  assert (Hquiet : Forall (fun ev => extract_alert ev = false) tr).
  { pose proof (ExtractAlertFacts.extract_try_block_no_alert w) as H.
    now rewrite Hrun in H. }
  assert (Heq : run (Extract.lambda_handler w) =
    match Extract.sns_client w with
    | Some failure =>
        ((tr ++ [logged; Extract.Called Extract.SnsClient (Some failure)])%list,
         inl (raised_while_handling original failure))
    | None =>
        match get (Extract.environ w) "SNS_TOPIC_ARN" with
        | None =>
            ((tr ++ [logged;
                     Extract.Called Extract.SnsClient None;
                     Extract.LogError
                       ("Failed to send SNS notification: " ++ exn_str missing)])%list,
             inl (raised_while_handling original missing))
        | Some topic_arn =>
            match Extract.sns_publish w topic_arn subject body with
            | Some notification =>
                ((tr ++ [logged;
                         Extract.Called Extract.SnsClient None;
                         Extract.Called (Extract.SnsPublish topic_arn subject body)
                                        (Some notification);
                         Extract.LogError
                           ("Failed to send SNS notification: "
                            ++ exn_str notification)])%list,
                 inl (raised_while_handling original notification))
            | None =>
                ((tr ++ [logged;
                         Extract.Called Extract.SnsClient None;
                         Extract.Called (Extract.SnsPublish topic_arn subject body) None;
                         Extract.LogInfo "SNS notification sent successfully."])%list,
                 inl original)
            end
        end
    end).
  { subst subject body logged missing.
    unfold run, Extract.lambda_handler, try_except in *.
    rewrite Hrun.
    unfold Extract.send_sns_notification, Extract.do_call, Extract.environ_lookup,
      try_except, bind, emit, check, lift, ret, raise_, reraise.
    cbv zeta.
    destruct (Extract.sns_client w) as [[cls msg ctx]|]; cbn.
    - rewrite <- !List.app_assoc. reflexivity.
    - destruct (get (Extract.environ w) "SNS_TOPIC_ARN") as [topic_arn|]; cbn.
      + destruct (Extract.sns_publish w topic_arn _ _) as [[cls msg ctx]|]; cbn;
          rewrite <- !List.app_assoc; reflexivity.
      + rewrite <- !List.app_assoc. reflexivity. }
  split; [exact Heq|].
  rewrite Heq.
  assert (Hnot : forall topic_arn evs,
             Forall (fun ev => extract_alert ev = true
                               -> ev <> Extract.Called
                                          (Extract.SnsPublish topic_arn subject body) None)
                    evs ->
             ~ In (Extract.Called (Extract.SnsPublish topic_arn subject body) None)
                  (tr ++ evs)%list).
  { intros topic_arn evs Hevs Hin. apply in_app_or in Hin. destruct Hin as [Hin | Hin].
    - rewrite Forall_forall in Hquiet. specialize (Hquiet _ Hin). discriminate Hquiet.
    - rewrite Forall_forall in Hevs. exact (Hevs _ Hin eq_refl eq_refl). }
  destruct (Extract.sns_client w) as [failure|]; cbn [fst snd].
  - split.
    + intros H. injection H as H.
      destruct (@ChainFacts.raised_while_handling_neq original failure H).
    + intros [topic_arn Hin]. exfalso. revert Hin. apply Hnot.
      repeat constructor; intros _; discriminate.
  - destruct (get (Extract.environ w) "SNS_TOPIC_ARN") as [topic_arn|]; cbn [fst snd].
    + destruct (Extract.sns_publish w topic_arn subject body) as [notification|];
        cbn [fst snd].
      * split.
        -- intros H. injection H as H.
           destruct (@ChainFacts.raised_while_handling_neq original notification H).
        -- intros [topic_arn' Hin]. exfalso. revert Hin. apply Hnot.
           repeat constructor; intros _; discriminate.
      * split; [intros _ | reflexivity].
        exists topic_arn. apply in_or_app. right. simpl. tauto.
    + split.
      * intros H. injection H as H.
        destruct (@ChainFacts.raised_while_handling_neq original missing H).
      * intros [topic_arn Hin]. exfalso. revert Hin. apply Hnot.
        repeat constructor; intros _; discriminate.
Qed.

(** The run in which the warehouse cannot be reached and the SNS client
    cannot be created: nothing is published, nothing more is logged, and the
    failure of the client leaves the handler. *)
Lemma notification_outcome_decides_exception_witness :
  let w :=
    {| Extract.environ := [("DBNAME", "dw"); ("USER", "bot"); ("PASSWORD", "pw");
                           ("HOST", "h"); ("PORT", "5439");
                           ("SNS_TOPIC_ARN", "arn:aws:sns:alerts")];
       Extract.connect :=
         fun _ _ _ _ _ => Some (PyExn "OperationalError" "timeout" None);
       Extract.cursor := None;
       Extract.execute := fun _ => None;
       Extract.fetchone := fun _ => inr None;
       Extract.fetchall_coupon := inr [];
       Extract.fetchall_signup := inr [];
       Extract.cursor_close := None;
       Extract.conn_close := None;
       Extract.invoke := fun _ => None;
       Extract.sns_client := Some (PyExn "NoRegionError" "You must specify a region." None);
       Extract.sns_publish := fun _ _ _ => None |} in
  let original :=
    PyExn "RuntimeError" "Error connecting to Redshift: timeout"
          (Some (PyExn "OperationalError" "timeout" None)) in
  let connect_failed :=
    Extract.Called (Extract.Connect "dw" "bot" "pw" "h" "5439")
                   (Some (PyExn "OperationalError" "timeout" None)) in
  run (Extract.lambda_handler w) =
  ([connect_failed;
    Extract.LogError
      "Lambda daily_bot_stats_extract failed: Error connecting to Redshift: timeout";
    Extract.Called Extract.SnsClient
                   (Some (PyExn "NoRegionError" "You must specify a region." None))],
   inl (PyExn "NoRegionError" "You must specify a region." (Some original))).
Proof.
  intros w original connect_failed.
  exact (proj1 (@notification_outcome_decides_exception
                  w [connect_failed] original eq_refl)).
Defined.

(* ===================================================================== *)
(** * What the returned mapping holds *)
(* ===================================================================== *)

Module MappingFacts.

Import Extract.

Section Dict.
Variable V : Type.
Implicit Types (d : dict V) (k : string) (v : V).

Lemma set_absent d k v : ~ In k (keys d) -> set d k v = (d ++ [(k, v)])%list.
Proof.
  induction d as [|[k0 v0] d IH]; simpl; [reflexivity|].
  intros H. destruct (String.eqb k0 k) eqn:E.
  - apply String.eqb_eq in E. tauto.
  - f_equal. apply IH. tauto.
Qed.

(** Storing items whose keys are new and distinct appends them. *)
Lemma update_new d (items : list (string * V)) :
  NoDup (map fst items) ->
  (forall k, In k (map fst items) -> ~ In k (keys d)) ->
  update d items = (d ++ items)%list.
Proof.
  unfold update. revert d. induction items as [|[k v] items IH]; intros d Hnd Hnew.
  - simpl. now rewrite List.app_nil_r.
  - simpl. inversion Hnd as [|? ? Hk Hnd']. subst.
    rewrite set_absent by (apply Hnew; now left).
    rewrite IH.
    + now rewrite <- List.app_assoc.
    + exact Hnd'.
    + intros k' Hk' Hin. unfold keys in Hin. rewrite map_app in Hin.
      apply in_app_or in Hin. destruct Hin as [Hin | [<- | []]].
      * apply (Hnew k'); [now right | exact Hin].
      * exact (Hk Hk').
Qed.

Lemma get_app d1 d2 k :
  get (d1 ++ d2)%list k = match get d1 k with
                          | Some v => Some v
                          | None => get d2 k
                          end.
Proof.
  induction d1 as [|[k0 v0] d1 IH]; simpl; [reflexivity|].
  destruct (String.eqb k0 k); [reflexivity | exact IH].
Qed.

(** Reading a column of a zipped row. *)
Lemma get_combine (cols : list string) (row : list V) (i : nat) k v :
  NoDup cols -> nth_error cols i = Some k -> nth_error row i = Some v ->
  get (combine cols row) k = Some v.
Proof.
  revert row i. induction cols as [|c cols IH]; intros row i Hnd Hc Hv.
  - destruct i; discriminate Hc.
  - inversion Hnd as [|? ? Hnotin Hnd']. subst.
    destruct row as [|x row]; [destruct i; discriminate Hv|].
    destruct i as [|i]; simpl in Hc, Hv |- *.
    + injection Hc as ->. injection Hv as ->. now rewrite String.eqb_refl.
    + assert (Hne : c <> k).
      { intros ->. apply Hnotin. eapply nth_error_In; eassumption. }
      apply String.eqb_neq in Hne. rewrite Hne. eapply IH; eassumption.
Qed.

Lemma keys_combine (cols : list string) (row : list V) k :
  In k (keys (combine cols row)) -> In k cols.
Proof.
  unfold keys. intros H. apply in_map_iff in H. destruct H as [[k' v] [<- H]].
  now apply in_combine_l in H.
Qed.

Lemma keys_combine_nodup (cols : list string) (row : list V) :
  NoDup cols -> NoDup (map fst (combine cols row)).
Proof.
  revert row. induction cols as [|c cols IH]; intros row Hnd; [constructor|].
  destruct row as [|x row]; [constructor|].
  inversion Hnd as [|? ? Hnotin Hnd']. subst. simpl. constructor.
  - intros H. apply Hnotin. now apply keys_combine with row.
  - now apply IH.
Qed.

Lemma in_values_set d k v x :
  In x (values (set d k v)) -> x = v \/ In x (values d).
Proof.
  induction d as [|[k0 v0] d IH]; simpl.
  - intros [<- | []]. now left.
  - destruct (String.eqb k0 k); simpl.
    + intros [<- | H]; auto.
    + intros [<- | H]; auto. destruct (IH H); auto.
Qed.

End Dict.

Lemma static_cols_nodup : NoDup static_cols.
Proof. unfold static_cols. repeat constructor; simpl; intuition discriminate. Qed.

Lemma churn_cols_nodup : NoDup churn_cols.
Proof. unfold churn_cols. repeat constructor; simpl; intuition discriminate. Qed.

Lemma churn_cols_not_static (k : string) : In k churn_cols -> ~ In k static_cols.
Proof.
  unfold churn_cols, static_cols. simpl. intros H1 H2.
  repeat (destruct H1 as [<- | H1]; [intuition discriminate|]). exact H1.
Qed.

(** The mapping after the first two queries: the zipped rows, one after the
    other. *)
Lemma base_mapping (static_row churn_row : list dbval) :
  update (update [] (of_items (combine static_cols static_row)))
         (of_items (combine churn_cols churn_row))
  = (combine static_cols static_row ++ combine churn_cols churn_row)%list.
Proof.
  assert (Hs : of_items (combine static_cols static_row) = combine static_cols static_row).
  { unfold of_items. rewrite update_new; [reflexivity | | intros k _ []].
    apply keys_combine_nodup, static_cols_nodup. }
  assert (Hc : of_items (combine churn_cols churn_row) = combine churn_cols churn_row).
  { unfold of_items. rewrite update_new; [reflexivity | | intros k _ []].
    apply keys_combine_nodup, churn_cols_nodup. }
  rewrite Hs, Hc.
  rewrite (@update_new _ [] (combine static_cols static_row));
    [| apply keys_combine_nodup, static_cols_nodup | intros k _ []].
  rewrite List.app_nil_l. apply update_new.
  - apply keys_combine_nodup, churn_cols_nodup.
  - intros k Hk Hin. apply keys_combine in Hk. apply keys_combine in Hin.
    exact (@churn_cols_not_static k Hk Hin).
Qed.

(** No fixed column ends with a suffix of the two loops. *)
Lemma fixed_columns_end_no_suffix :
  forallb (fun col => forallb (fun a => negb (endswith col a))
                              (coupon_suffixes ++ signup_suffixes))
          (static_cols ++ churn_cols) = true.
Proof. vm_compute. reflexivity. Qed.

Lemma fixed_column_not_loop_key (col p a : string) :
  In col (static_cols ++ churn_cols)%list ->
  In a (coupon_suffixes ++ signup_suffixes)%list ->
  col <> p ++ a.
Proof.
  intros Hc Ha E. pose proof fixed_columns_end_no_suffix as H.
  rewrite forallb_forall in H. specialize (H col Hc).
  rewrite forallb_forall in H. specialize (H a Ha).
  rewrite E, StrFacts.endswith_app in H. discriminate H.
Qed.

(** A coupon key is never a signup key. *)
Lemma coupon_key_not_signup_key (c p a b : string) :
  In a coupon_suffixes -> In b signup_suffixes -> c ++ a <> p ++ b.
Proof.
  intros Ha Hb E.
  pose proof (StrFacts.endswith_app p b) as He. rewrite <- E in He.
  unfold coupon_suffixes in Ha. unfold signup_suffixes in Hb. simpl in Ha, Hb.
  destruct (StrFacts.endswith_two _ _ _ He) as [H | H];
    destruct Ha as [<-|[<-|[<-|[<-|[]]]]]; destruct Hb as [<-|[<-|[<-|[]]]];
    vm_compute in H; discriminate H.
Qed.

(** Among the three suffixes of the signup keys none ends another. *)
Lemma signup_suffix_ends_suffix (a b : string) :
  In a signup_suffixes -> In b signup_suffixes -> endswith a b = true -> a = b.
Proof.
  unfold signup_suffixes. simpl.
  intros [<-|[<-|[<-|[]]]] [<-|[<-|[<-|[]]]] H;
    first [reflexivity | vm_compute in H; discriminate H].
Qed.

Lemma signup_key_inj (p1 p2 a b : string) :
  In a signup_suffixes -> In b signup_suffixes ->
  p1 ++ a = p2 ++ b -> p1 = p2 /\ a = b.
Proof.
  intros Ha Hb H.
  assert (E : a = b).
  { pose proof (StrFacts.endswith_app p2 b) as He. rewrite <- H in He.
    destruct (StrFacts.endswith_two _ _ _ He) as [H1 | H1].
    - now apply signup_suffix_ends_suffix.
    - symmetry. now apply signup_suffix_ends_suffix. }
  subst b. split; [now apply StrFacts.app_inv_tail with a | reflexivity].
Qed.

(** One pass of the signup loop leaves the other keys alone. *)
Lemma get_store_signup_row_other (d : dict dbval) (r : signup_row) (k : string) :
  (forall a, In a signup_suffixes -> k <> period r ++ a) ->
  get (store_signup_row d r) k = get d k.
Proof.
  unfold store_signup_row. cbv zeta. intros H.
  rewrite !DictFacts.get_set_other; [reflexivity | | | ];
    intros E; symmetry in E; revert E; apply H; unfold signup_suffixes; simpl; tauto.
Qed.

Lemma get_flatten_signups_other (rows : list signup_row) (d : dict dbval) (k : string) :
  (forall r a, In r rows -> In a signup_suffixes -> k <> period r ++ a) ->
  get (flatten_signups d rows) k = get d k.
Proof.
  revert d. induction rows as [|r rows IH]; intros d H; [reflexivity|].
  change (flatten_signups d (r :: rows)) with (flatten_signups (store_signup_row d r) rows).
  rewrite IH by (intros r' a Hr' Ha; apply H; [now right | exact Ha]).
  apply get_store_signup_row_other. intros a Ha. apply H; [now left | exact Ha].
Qed.

(** One pass of the signup loop: the three values of the row. *)
Lemma get_store_signup_row (d : dict dbval) (r : signup_row) :
  let m := store_signup_row d r in
  get m (period r ++ "_new_signups_without_coupon") = Some (without_coupon r)
  /\ get m (period r ++ "_new_signups_with_coupon") = Some (with_coupon r)
  /\ get m (period r ++ "_total_new_signups") = Some (total r).
Proof.
  assert (Hne : forall a b, In a signup_suffixes -> In b signup_suffixes ->
                            a <> b -> period r ++ a <> period r ++ b).
  { intros a b Ha Hb Hab E. destruct (signup_key_inj _ _ Ha Hb E). contradiction. }
  unfold store_signup_row. cbv zeta.
  repeat split.
  - rewrite 2 DictFacts.get_set_other
      by (apply Hne; unfold signup_suffixes; simpl; try tauto; discriminate).
    apply DictFacts.get_set_same.
  - rewrite DictFacts.get_set_other
      by (apply Hne; unfold signup_suffixes; simpl; try tauto; discriminate).
    apply DictFacts.get_set_same.
  - apply DictFacts.get_set_same.
Qed.

(** The signup loop: the mapping holds the values of the last row of each
    period. *)
Lemma get_flatten_signups_last
      (d : dict dbval) (before after : list signup_row) (r : signup_row) :
  (forall r', In r' after -> period r' <> period r) ->
  let m := flatten_signups d (before ++ r :: after) in
  get m (period r ++ "_new_signups_without_coupon") = Some (without_coupon r)
  /\ get m (period r ++ "_new_signups_with_coupon") = Some (with_coupon r)
  /\ get m (period r ++ "_total_new_signups") = Some (total r).
Proof.
  intros Hafter m. subst m.
  unfold flatten_signups. rewrite fold_left_app.
  change (fold_left store_signup_row (r :: after) ?x)
    with (flatten_signups (store_signup_row x r) after).
  assert (Hk : forall a, In a signup_suffixes ->
                         forall r' b, In r' after -> In b signup_suffixes ->
                                      period r ++ a <> period r' ++ b).
  { intros a Ha r' b Hr' Hb E. destruct (signup_key_inj _ _ Ha Hb E) as [E' _].
    apply (Hafter r' Hr'). now symmetry. }
  rewrite !get_flatten_signups_other
    by (apply Hk; unfold signup_suffixes; simpl; tauto).
  apply get_store_signup_row.
Qed.

(** Every label of the rows has a last row. *)
Lemma last_row_with (A : Type) (label : A -> string) (rows : list A) (c : string) :
  In c (map label rows) ->
  exists before r after,
    rows = (before ++ r :: after)%list /\ label r = c
    /\ forall r', In r' after -> label r' <> c.
Proof.
  induction rows as [|x rows IH]; intros Hin; [contradiction|].
  destruct (in_dec string_dec c (map label rows)) as [Hlater | Hnot].
  - destruct (IH Hlater) as [before [r [after [-> [Hc Hafter]]]]].
    exists (x :: before), r, after. repeat split; assumption.
  - destruct Hin as [Hx | Hin]; [|contradiction].
    exists [], x, rows. repeat split; [exact Hx|].
    intros r' Hr' E. apply Hnot. rewrite <- E. now apply in_map.
Qed.

(** The values of the mapping after the loops come from the rows. *)
Lemma in_values_flatten_coupons (rows : list coupon_row) (d : dict dbval) (x : dbval) :
  In x (values (flatten_coupons d rows)) ->
  In x (values d)
  \/ exists r, In r rows
               /\ (x = active r \/ x = trials r \/ x = convs r
                   \/ x = conversion_rate (rate r)).
Proof.
  revert d. induction rows as [|r rows IH]; intros d H; [now left|].
  change (flatten_coupons d (r :: rows))
    with (flatten_coupons (store_coupon_row d r) rows) in H.
  destruct (IH _ H) as [H1 | [r' [Hr' H1]]].
  - unfold store_coupon_row in H1. cbv zeta in H1.
    repeat (apply in_values_set in H1;
            destruct H1 as [-> | H1]; [right; exists r; simpl; tauto|]).
    now left.
  - right. exists r'. simpl. tauto.
Qed.

Lemma in_values_flatten_signups (rows : list signup_row) (d : dict dbval) (x : dbval) :
  In x (values (flatten_signups d rows)) ->
  In x (values d)
  \/ exists r, In r rows
               /\ (x = without_coupon r \/ x = with_coupon r \/ x = total r).
Proof.
  revert d. induction rows as [|r rows IH]; intros d H; [now left|].
  change (flatten_signups d (r :: rows))
    with (flatten_signups (store_signup_row d r) rows) in H.
  destruct (IH _ H) as [H1 | [r' [Hr' H1]]].
  - unfold store_signup_row in H1. cbv zeta in H1.
    repeat (apply in_values_set in H1;
            destruct H1 as [-> | H1]; [right; exists r; simpl; tauto|]).
    now left.
  - right. exists r'. simpl. tauto.
Qed.

Lemma in_values_combine (cols : list string) (row : list dbval) (x : dbval) :
  In x (values (combine cols row)) -> In x row.
Proof.
  unfold values. intros H. apply in_map_iff in H. destruct H as [[k v] [<- H]].
  now apply in_combine_r in H.
Qed.

(** [json.dumps] succeeds exactly on the mappings without a Decimal. *)
Lemma json_dumps_ok_iff (d : dict dbval) :
  (exists payload, json_dumps d = inr payload)
  <-> forall v, In v (values d) -> is_decimal v = false.
Proof.
  induction d as [|[k v] d IH]; simpl.
  - split; [intros _ v [] | intros _; now exists []].
  - split.
    + intros [payload H] x [<- | Hx].
      * destruct v; try reflexivity. discriminate H.
      * destruct (to_json v); [discriminate H|].
        destruct (json_dumps d) as [e | p]; [discriminate H|].
        apply IH; [now exists p | exact Hx].
    + intros H.
      assert (Hv : is_decimal v = false) by (apply H; now left).
      destruct IH as [_ IH].
      destruct IH as [p Hp]; [intros x Hx; apply H; now right|].
      rewrite Hp. destruct v; try discriminate Hv; simpl; eauto.
Qed.

(** What [json.dumps] writes under a key. *)
Lemma json_dumps_get (d : dict dbval) (payload : dict json) (k : string) :
  json_dumps d = inr payload ->
  match get d k with
  | Some v => exists j, to_json v = inr j /\ get payload k = Some j
  | None => get payload k = None
  end.
Proof.
  revert payload. induction d as [|[k0 v0] d IH]; intros payload H; simpl in H.
  - injection H as <-. reflexivity.
  - destruct (to_json v0) as [e | j0] eqn:Ej; [discriminate H|].
    destruct (json_dumps d) as [e | p]; [discriminate H|].
    injection H as <-. simpl.
    destruct (String.eqb k0 k).
    + exists j0. now split.
    + now apply IH.
Qed.

End MappingFacts.

(** X14.  A run of [get_data_from_redshift] that returns gives every value
    of the daily row and of the churn row under the name of its column:
    whatever the coupon codes and the periods of the later rows, no key of
    the two loops overwrites a fixed column. *)
Theorem fixed_columns_reach_mapping
        (w : Extract.world) (result : dict dbval) (static_row churn_row : list dbval) :
  snd (run (Extract.get_data_from_redshift w)) = inr result ->
  Extract.fetchone w Extract.static_metrics_query = inr (Some static_row) ->
  Extract.fetchone w Extract.churn_query = inr (Some churn_row) ->
  (forall i col v,
      nth_error Extract.static_cols i = Some col -> nth_error static_row i = Some v ->
      get result col = Some v)
  /\ (forall i col v,
         nth_error Extract.churn_cols i = Some col -> nth_error churn_row i = Some v ->
         get result col = Some v).
Proof.
  intros Hrun Hs Hc.
  pose proof (ExtractFacts.get_data_outcome w) as H. rewrite Hrun in H.
  destruct H as [_ [static_row' [churn_row' [coupons [signups [Hs' [Hc' [_ [_ ->]]]]]]]]].
  rewrite Hs in Hs'. injection Hs' as <-. rewrite Hc in Hc'. injection Hc' as <-.
  assert (Hget : forall col, In col (Extract.static_cols ++ Extract.churn_cols)%list ->
                 get (Extract.flatten_signups
                        (Extract.flatten_coupons
                           (update (update [] (of_items (combine Extract.static_cols static_row)))
                                   (of_items (combine Extract.churn_cols churn_row)))
                           coupons) signups) col
                 = get (combine Extract.static_cols static_row
                        ++ combine Extract.churn_cols churn_row)%list col).
  { intros col Hcol.
    rewrite MappingFacts.get_flatten_signups_other.
    - rewrite CouponFacts.get_flatten_coupons_other.
      + now rewrite MappingFacts.base_mapping.
      + intros r _ Hin. apply CouponFacts.in_coupon_keys in Hin.
        destruct Hin as [a [Ha E]]. revert E.
        apply MappingFacts.fixed_column_not_loop_key; [exact Hcol|].
        apply in_or_app. now left.
    - intros r a _ Ha.
      apply MappingFacts.fixed_column_not_loop_key; [exact Hcol|].
      apply in_or_app. now right. }
  split; intros i col v Hcol Hv.
  - rewrite Hget by (apply in_or_app; left; eapply nth_error_In; eassumption).
    rewrite MappingFacts.get_app.
    now rewrite (@MappingFacts.get_combine _ Extract.static_cols static_row i col v
                   MappingFacts.static_cols_nodup Hcol Hv).
  - assert (Hin : In col Extract.churn_cols) by (eapply nth_error_In; eassumption).
    rewrite Hget by (apply in_or_app; now right).
    rewrite MappingFacts.get_app.
    destruct (get (combine Extract.static_cols static_row) col) as [x|] eqn:E.
    + exfalso.
      assert (Hk : In col (keys (combine Extract.static_cols static_row))).
      { destruct (in_dec string_dec col (keys (combine Extract.static_cols static_row)))
          as [Hk | Hk]; [exact Hk|].
        apply DictFacts.get_none_iff in Hk. rewrite Hk in E. discriminate E. }
      apply MappingFacts.keys_combine in Hk.
      exact (@MappingFacts.churn_cols_not_static col Hin Hk).
    + exact (@MappingFacts.get_combine _ Extract.churn_cols churn_row i col v
               MappingFacts.churn_cols_nodup Hcol Hv).
Qed.

Lemma fixed_columns_reach_mapping_witness :
  exists result,
    snd (run (Extract.get_data_from_redshift
                (sample_warehouse (Some sample_static_row) sample_coupons))) = inr result
    /\ get result "total" = Some (DInt 1200)
    /\ get result "churn_past_due_month" = Some (DInt 1).
Proof.
  eexists. split; [vm_compute; reflexivity|].
  pose proof (@fixed_columns_reach_mapping
                (sample_warehouse (Some sample_static_row) sample_coupons) _ _ _
                eq_refl eq_refl eq_refl) as [H1 H2].
  split; [exact (H1 1%nat _ _ eq_refl eq_refl) | exact (H2 14%nat _ _ eq_refl eq_refl)].
Defined.

(** X15.  A run of [get_data_from_redshift] that returns holds, for every
    coupon code of the coupon rows, the four values of the last row of that
    code under its four keys: the first three as they are; under
    [C_conversion_rate] the float [float(d)] when the rate of the row is the
    Decimal [d], and the rate itself when it is not a Decimal.  The signup
    loop that follows never writes a coupon key, whatever its periods are. *)
Theorem coupon_values_reach_mapping
        (w : Extract.world) (result : dict dbval)
        (coupons : list Extract.coupon_row) (c : string) :
  snd (run (Extract.get_data_from_redshift w)) = inr result ->
  Extract.fetchall_coupon w = inr coupons ->
  In c (map Extract.code coupons) ->
  exists before r after,
    coupons = (before ++ r :: after)%list
    /\ Extract.code r = c
    /\ (forall r', In r' after -> Extract.code r' <> c)
    /\ get result (c ++ "_coupon_active_subscriptions") = Some (Extract.active r)
    /\ get result (c ++ "_total_trials") = Some (Extract.trials r)
    /\ get result (c ++ "_total_conversions") = Some (Extract.convs r)
    /\ (forall d, Extract.rate r = DDecimal d ->
                  get result (c ++ "_conversion_rate")
                  = Some (DFloat (float_of_decimal d)))
    /\ (is_decimal (Extract.rate r) = false ->
        get result (c ++ "_conversion_rate") = Some (Extract.rate r)).
Proof.
  intros Hrun Hc Hin.
  pose proof (ExtractFacts.get_data_outcome w) as H. rewrite Hrun in H.
  destruct H as [_ [static_row [churn_row [coupons' [signups [_ [_ [Hc' [_ ->]]]]]]]]].
  rewrite Hc in Hc'. injection Hc' as <-.
  destruct (@MappingFacts.last_row_with _ Extract.code coupons c Hin)
    as [before [r [after [Hrows [Hcode Hafter]]]]].
  exists before, r, after. subst c.
  split; [exact Hrows|]. split; [reflexivity|]. split; [exact Hafter|].
  rewrite !MappingFacts.get_flatten_signups_other
    by (intros r' b _ Hb; apply MappingFacts.coupon_key_not_signup_key;
        [unfold coupon_suffixes; simpl; tauto | exact Hb]).
  rewrite Hrows.
  destruct (@CouponFacts.get_flatten_coupons_last
              (update (update [] (of_items (combine Extract.static_cols static_row)))
                      (of_items (combine Extract.churn_cols churn_row)))
              before after r Hafter) as [H1 [H2 [H3 H4]]].
  destruct (CouponFacts.conversion_rate_value (Extract.rate r)) as [Hdec Hother].
  repeat split; try assumption.
  - intros d Hd. rewrite H4. f_equal. now apply Hdec.
  - intros Hd. rewrite H4. f_equal. now apply Hother.
Qed.

(** The sample run: the fixed-point 0.40 of SAVE10 is in the mapping as the
    float nearest to 0.4. *)
Lemma coupon_values_reach_mapping_witness :
  exists result,
    snd (run (Extract.get_data_from_redshift
                (sample_warehouse (Some sample_static_row) sample_coupons))) = inr result
    /\ get result "SAVE10_conversion_rate"
       = Some (DFloat (S754_finite false 7205759403792794 (-54)))
    /\ exists before r after,
        sample_coupons = (before ++ r :: after)%list
        /\ Extract.code r = "SAVE10"
        /\ (forall r', In r' after -> Extract.code r' <> "SAVE10")
        /\ get result "SAVE10_coupon_active_subscriptions" = Some (Extract.active r)
        /\ get result "SAVE10_total_trials" = Some (Extract.trials r)
        /\ get result "SAVE10_total_conversions" = Some (Extract.convs r)
        /\ (forall d, Extract.rate r = DDecimal d ->
                      get result "SAVE10_conversion_rate"
                      = Some (DFloat (float_of_decimal d)))
        /\ (is_decimal (Extract.rate r) = false ->
            get result "SAVE10_conversion_rate" = Some (Extract.rate r)).
Proof.
  eexists. split; [vm_compute; reflexivity|].
  split; [vm_compute; reflexivity|].
  apply (@coupon_values_reach_mapping
           (sample_warehouse (Some sample_static_row) sample_coupons) _ sample_coupons
           "SAVE10"); [vm_compute; reflexivity | reflexivity | simpl; now left].
Defined.

(** X16.  A run of [get_data_from_redshift] that returns holds, for every
    period of the signup rows, the three figures of the last row of that
    period under [<period>_new_signups_without_coupon],
    [<period>_new_signups_with_coupon] and [<period>_total_new_signups]. *)
Theorem signup_values_reach_mapping
        (w : Extract.world) (result : dict dbval)
        (signups : list Extract.signup_row) (p : string) :
  snd (run (Extract.get_data_from_redshift w)) = inr result ->
  Extract.fetchall_signup w = inr signups ->
  In p (map Extract.period signups) ->
  exists before r after,
    signups = (before ++ r :: after)%list
    /\ Extract.period r = p
    /\ (forall r', In r' after -> Extract.period r' <> p)
    /\ get result (p ++ "_new_signups_without_coupon") = Some (Extract.without_coupon r)
    /\ get result (p ++ "_new_signups_with_coupon") = Some (Extract.with_coupon r)
    /\ get result (p ++ "_total_new_signups") = Some (Extract.total r).
Proof.
  intros Hrun Hs Hin.
  pose proof (ExtractFacts.get_data_outcome w) as H. rewrite Hrun in H.
  destruct H as [_ [static_row [churn_row [coupons [signups' [_ [_ [_ [Hs' ->]]]]]]]]].
  rewrite Hs in Hs'. injection Hs' as <-.
  destruct (@MappingFacts.last_row_with _ Extract.period signups p Hin)
    as [before [r [after [Hrows [Hp Hafter]]]]].
  exists before, r, after. subst p.
  split; [exact Hrows|]. split; [reflexivity|]. split; [exact Hafter|].
  rewrite Hrows.
  apply MappingFacts.get_flatten_signups_last. exact Hafter.
Qed.

Lemma signup_values_reach_mapping_witness :
  exists result,
    snd (run (Extract.get_data_from_redshift
                (sample_warehouse (Some sample_static_row) sample_coupons))) = inr result
    /\ exists before r after,
        [Extract.mk_signup_row "all" (DInt 10) (DInt 4) (DInt 14);
         Extract.mk_signup_row "last_week" (DInt 2) (DInt 1) (DInt 3);
         Extract.mk_signup_row "last_month" (DInt 5) (DInt 2) (DInt 7)]
        = (before ++ r :: after)%list
        /\ Extract.period r = "last_week"
        /\ (forall r', In r' after -> Extract.period r' <> "last_week")
        /\ get result "last_week_new_signups_without_coupon"
           = Some (Extract.without_coupon r)
        /\ get result "last_week_new_signups_with_coupon" = Some (Extract.with_coupon r)
        /\ get result "last_week_total_new_signups" = Some (Extract.total r).
Proof.
  eexists. split; [vm_compute; reflexivity|].
  apply (@signup_values_reach_mapping
           (sample_warehouse (Some sample_static_row) sample_coupons) _ _ "last_week");
    [vm_compute; reflexivity | reflexivity | simpl; tauto].
Defined.

(** X17.  A Decimal conversion rate never blocks the hand-off: when a run
    of [get_data_from_redshift] returns and no fetched value other than the
    conversion rates is a Decimal, [json.dumps] of the returned mapping
    succeeds, whatever the rates are. *)
Theorem decimal_rates_do_not_block_dumps
        (w : Extract.world) (result : dict dbval)
        (static_row churn_row : list dbval)
        (coupons : list Extract.coupon_row) (signups : list Extract.signup_row) :
  snd (run (Extract.get_data_from_redshift w)) = inr result ->
  Extract.fetchone w Extract.static_metrics_query = inr (Some static_row) ->
  Extract.fetchone w Extract.churn_query = inr (Some churn_row) ->
  Extract.fetchall_coupon w = inr coupons ->
  Extract.fetchall_signup w = inr signups ->
  (forall v, In v (static_row ++ churn_row)%list -> is_decimal v = false) ->
  (forall r, In r coupons ->
             is_decimal (Extract.active r) = false
             /\ is_decimal (Extract.trials r) = false
             /\ is_decimal (Extract.convs r) = false) ->
  (forall r, In r signups ->
             is_decimal (Extract.without_coupon r) = false
             /\ is_decimal (Extract.with_coupon r) = false
             /\ is_decimal (Extract.total r) = false) ->
  exists payload, Extract.json_dumps result = inr payload.
Proof.
  intros Hrun Hs Hc Hcp Hsg Hfixed Hcoupons Hsignups.
  pose proof (ExtractFacts.get_data_outcome w) as H. rewrite Hrun in H.
  destruct H as [_ [static_row' [churn_row' [coupons' [signups'
                   [Hs' [Hc' [Hcp' [Hsg' ->]]]]]]]]].
  rewrite Hs in Hs'. injection Hs' as <-. rewrite Hc in Hc'. injection Hc' as <-.
  rewrite Hcp in Hcp'. injection Hcp' as <-. rewrite Hsg in Hsg'. injection Hsg' as <-.
  apply MappingFacts.json_dumps_ok_iff. intros v Hv.
  apply MappingFacts.in_values_flatten_signups in Hv.
  destruct Hv as [Hv | [r [Hr Hv]]].
  - apply MappingFacts.in_values_flatten_coupons in Hv.
    destruct Hv as [Hv | [r [Hr Hv]]].
    + rewrite MappingFacts.base_mapping in Hv.
      unfold values in Hv. rewrite map_app in Hv.
      apply Hfixed. apply in_or_app. apply in_app_or in Hv.
      destruct Hv as [Hv | Hv]; [left | right];
        now apply MappingFacts.in_values_combine in Hv.
    + destruct (Hcoupons r Hr) as [H1 [H2 H3]].
      destruct Hv as [-> | [-> | [-> | ->]]]; try assumption.
      destruct (Extract.rate r); reflexivity.
  - destruct (Hsignups r Hr) as [H1 [H2 H3]].
    destruct Hv as [-> | [-> | ->]]; assumption.
Qed.

Lemma decimal_rates_do_not_block_dumps_witness :
  exists payload,
    Extract.json_dumps
      (Extract.flatten_signups
         (Extract.flatten_coupons
            (update (update [] (of_items (combine Extract.static_cols sample_static_row)))
                    (of_items (combine Extract.churn_cols
                                 (map DInt [8; 2; 1; 5; 0; 1; 0; 0; 1; 0; 3; 1; 0; 2; 1]))))
            sample_coupons)
         [Extract.mk_signup_row "all" (DInt 10) (DInt 4) (DInt 14);
          Extract.mk_signup_row "last_week" (DInt 2) (DInt 1) (DInt 3);
          Extract.mk_signup_row "last_month" (DInt 5) (DInt 2) (DInt 7)])
    = inr payload.
Proof.
  apply (@decimal_rates_do_not_block_dumps
           (sample_warehouse (Some sample_static_row) sample_coupons) _
           sample_static_row
           (map DInt [8; 2; 1; 5; 0; 1; 0; 0; 1; 0; 3; 1; 0; 2; 1])
           sample_coupons
           [Extract.mk_signup_row "all" (DInt 10) (DInt 4) (DInt 14);
            Extract.mk_signup_row "last_week" (DInt 2) (DInt 1) (DInt 3);
            Extract.mk_signup_row "last_month" (DInt 5) (DInt 2) (DInt 7)]);
    try reflexivity.
  - intros v Hv. simpl in Hv.
    repeat (destruct Hv as [<- | Hv]; [reflexivity|]). contradiction.
  - intros r Hr. simpl in Hr.
    repeat (destruct Hr as [<- | Hr]; [repeat split|]). contradiction.
  - intros r Hr. simpl in Hr.
    repeat (destruct Hr as [<- | Hr]; [repeat split|]). contradiction.
Defined.

Module HandoffFacts.

Import Extract.

(** With distinct codes every row is the last row of its code. *)
Lemma row_is_last (rows : list coupon_row) (r : coupon_row) :
  NoDup (map code rows) -> In r rows ->
  exists before after,
    rows = (before ++ r :: after)%list
    /\ forall r', In r' after -> code r' <> code r.
Proof.
  intros Hnd Hin. destruct (in_split _ _ Hin) as [before [after ->]].
  exists before, after. split; [reflexivity|].
  intros r' Hr' E. rewrite map_app in Hnd. simpl in Hnd.
  apply NoDup_remove_2 in Hnd. apply Hnd. apply in_or_app. right.
  rewrite <- E. now apply in_map.
Qed.

(** The prefixes that the notifier finds in the serialized mapping. *)
Lemma prefixes_of_payload
      (static_row churn_row : list dbval)
      (coupons : list coupon_row) (signups : list signup_row) (payload : dict json) :
  NoDup (map code coupons) ->
  (forall r, In r coupons -> contains (code r) "_coupon_active_subscriptions" = false) ->
  json_dumps
    (flatten_signups
       (flatten_coupons
          (update (update [] (of_items (combine static_cols static_row)))
                  (of_items (combine churn_cols churn_row)))
          coupons)
       signups) = inr payload ->
  Notify.coupon_prefixes payload = map code coupons.
Proof.
  intros Hnd Hclean Hdump.
  unfold Notify.coupon_prefixes.
  rewrite (ExtractFacts.json_dumps_keys _ Hdump).
  change (filter (fun key => endswith key "_coupon_active_subscriptions") (keys ?d))
    with (keys_where is_coupon_key d).
  rewrite KeyFacts.keys_where_flatten_signups.
  rewrite KeyFacts.keys_where_flatten_coupons.
  - rewrite KeyFacts.keys_where_nil
      by (intros k Hk; unfold is_coupon_key;
          now apply KeyFacts.base_has_no_coupon_key in Hk).
    rewrite List.app_nil_l, map_map. apply map_ext_in. intros r Hr.
    apply StrFacts.replace_strip; [apply KeyFacts.suffix_borderless | now apply Hclean].
  - exact Hnd.
  - intros r Hr Hin. apply KeyFacts.base_has_no_coupon_key in Hin.
    rewrite StrFacts.endswith_app in Hin. discriminate.
Qed.

End HandoffFacts.

(** X18.  From the warehouse to the report.  Take a run of
    [get_data_from_redshift] that returns, with distinct coupon codes none of
    which contains the text [_coupon_active_subscriptions] and with integer
    active counts; serialize the mapping as the extractor does.  Then the
    notifier's [total_active_users] is the sum of the active counts of the
    coupon rows. *)
Theorem total_active_users_sums_coupon_rows
        (w : Extract.world) (result : dict dbval) (payload : dict json)
        (coupons : list Extract.coupon_row) :
  snd (run (Extract.get_data_from_redshift w)) = inr result ->
  Extract.fetchall_coupon w = inr coupons ->
  NoDup (map Extract.code coupons) ->
  (forall r, In r coupons ->
             contains (Extract.code r) "_coupon_active_subscriptions" = false) ->
  (forall r, In r coupons -> exists z, Extract.active r = DInt z) ->
  Extract.json_dumps result = inr payload ->
  Notify.total_active_users payload
  = inr (NInt (total_of (map (fun r => int_value (Extract.active r)) coupons))).
Proof.
  intros Hrun Hfetch Hnd Hclean Hint Hdump.
  pose proof (ExtractFacts.get_data_outcome w) as H. rewrite Hrun in H.
  destruct H as [_ [static_row [churn_row [coupons' [signups [_ [_ [Hc [_ ->]]]]]]]]].
  rewrite Hfetch in Hc. injection Hc as <-.
  unfold Notify.total_active_users.
  rewrite (@HandoffFacts.prefixes_of_payload static_row churn_row coupons signups payload
             Hnd Hclean Hdump).
  rewrite map_map.
  rewrite <- ReportFacts.sum_ints, map_map.
  f_equal. apply map_ext_in. intros r Hr.
  destruct (@HandoffFacts.row_is_last coupons r Hnd Hr) as [before [after [Hrows Hafter]]].
  pose proof (@CouponFacts.get_flatten_coupons_last
                (update (update [] (of_items (combine Extract.static_cols static_row)))
                        (of_items (combine Extract.churn_cols churn_row)))
                before after r Hafter) as [Hget _].
  rewrite <- Hrows in Hget.
  pose proof (@MappingFacts.json_dumps_get _ payload
                (Extract.code r ++ "_coupon_active_subscriptions") Hdump) as Hp.
  rewrite MappingFacts.get_flatten_signups_other in Hp
    by (intros r' b _ Hb; apply MappingFacts.coupon_key_not_signup_key;
        [unfold coupon_suffixes; simpl; tauto | exact Hb]).
  rewrite Hget in Hp. destruct Hp as [j [Hj Hp]].
  unfold get_default. rewrite Hp.
  destruct (Hint r Hr) as [z Hz]. rewrite Hz in Hj |- *.
  simpl in Hj. injection Hj as <-. reflexivity.
Qed.

Lemma total_active_users_sums_coupon_rows_witness :
  exists result payload,
    snd (run (Extract.get_data_from_redshift
                (sample_warehouse (Some sample_static_row) sample_coupons))) = inr result
    /\ Extract.json_dumps result = inr payload
    /\ Notify.total_active_users payload = inr (NInt 55).
Proof.
  eexists. eexists. split; [vm_compute; reflexivity|].
  split; [vm_compute; reflexivity|].
  refine (@total_active_users_sums_coupon_rows
            (sample_warehouse (Some sample_static_row) sample_coupons) _ _ sample_coupons
            _ eq_refl _ _ _ _).
  - vm_compute. reflexivity.
  - repeat constructor; simpl; intuition discriminate.
  - intros r Hr. simpl in Hr.
    repeat (destruct Hr as [<- | Hr]; [reflexivity|]). contradiction.
  - intros r Hr. simpl in Hr.
    repeat (destruct Hr as [<- | Hr]; [eexists; reflexivity|]). contradiction.
  - vm_compute. reflexivity.
Defined.

(* ===================================================================== *)
(** * The figures of the signup query *)
(* ===================================================================== *)

Module SignupFacts.

Import Signups.

(** Every row counts for exactly one of the two sums. *)
Lemma flags_add_up (rows : list signup) :
  total_of (map (flag no_coupon) rows) + total_of (map (flag has_coupon) rows)
  = count_rows rows.
Proof.
  unfold count_rows. induction rows as [|r rows IH].
  - reflexivity.
  - cbn [map total_of fold_right List.length]. fold (total_of (map (flag no_coupon) rows)).
    fold (total_of (map (flag has_coupon) rows)).
    rewrite Nat2Z.inj_succ, <- IH.
    set (a := total_of (map (flag no_coupon) rows)).
    set (b := total_of (map (flag has_coupon) rows)).
    unfold flag, no_coupon, has_coupon.
    destruct (coupon_code r) as [c|]; [destruct (String.eqb c "No Coupon Code")|];
      simpl negb; cbv iota; lia.
Qed.

Lemma flags_nonneg (cond : signup -> bool) (rows : list signup) :
  0 <= total_of (map (flag cond) rows).
Proof.
  induction rows as [|r rows IH]; [simpl; lia|].
  cbn [map total_of fold_right]. fold (total_of (map (flag cond) rows)).
  unfold flag at 1. destruct (cond r); lia.
Qed.

(** Each row of the answer is the last row of its period. *)
Lemma signup_rows_last (t : table) (current_date : Calendar.date)
      (window : string * (signup -> bool)) :
  In window (windows current_date) ->
  exists before after,
    signup_rows t current_date = (before ++ cte t window :: after)%list
    /\ forall r', In r' after -> Extract.period r' <> Extract.period (cte t window).
Proof.
  unfold signup_rows, windows. cbn [map].
  intros [<- | [<- | [<- | []]]];
    [ exists [] | eexists [_] | eexists [_; _] ];
    eexists; (split; [reflexivity|]);
    intros r' Hr'; simpl in Hr'; intuition (subst; discriminate).
Qed.

End SignupFacts.

(** X19.  In each row of the signup query, either no signup falls in the
    window, and then the total is 0 while both split figures are [None] (SQL
    [NULL]); or the two split figures are integers that are not negative and
    add up to the total, which is positive: a signup without a coupon code
    and a signup under [No Coupon Code] count as without coupon, every other
    one as with coupon. *)
Theorem signup_figures_add_up
        (t : Signups.table) (current_date : Calendar.date) (r : Extract.signup_row) :
  In r (Signups.signup_rows t current_date) ->
  (Extract.total r = DInt 0
   /\ Extract.without_coupon r = DNone /\ Extract.with_coupon r = DNone)
  \/ exists a b : Z,
       Extract.without_coupon r = DInt a /\ Extract.with_coupon r = DInt b
       /\ Extract.total r = DInt (a + b)
       /\ 0 <= a /\ 0 <= b /\ 0 < a + b.
Proof.
  intros Hr. unfold Signups.signup_rows in Hr. apply in_map_iff in Hr.
  destruct Hr as [window [<- _]]. unfold Signups.cte. cbv zeta.
  cbn [Extract.total Extract.without_coupon Extract.with_coupon].
  pose proof (SignupFacts.flags_add_up (filter (snd window) t)) as Hsum.
  pose proof (SignupFacts.flags_nonneg Signups.no_coupon (filter (snd window) t)) as Ha.
  pose proof (SignupFacts.flags_nonneg Signups.has_coupon (filter (snd window) t)) as Hb.
  destruct (filter (snd window) t) as [|x rows].
  - left. repeat split.
  - right.
    exists (total_of (map (Signups.flag Signups.no_coupon) (x :: rows))),
           (total_of (map (Signups.flag Signups.has_coupon) (x :: rows))).
    rewrite Hsum. repeat split; try assumption; reflexivity.
Qed.

Lemma signup_figures_add_up_witness :
  let t := [Signups.mk_signup None (Some (Calendar.mk_date 2025 4 28));
            Signups.mk_signup (Some "SAVE10") (Some (Calendar.mk_date 2025 4 29));
            Signups.mk_signup (Some "No Coupon Code") (Some (Calendar.mk_date 2025 3 2))] in
  let r := Extract.mk_signup_row "last_week" (DInt 1) (DInt 1) (DInt 2) in
  (Extract.total r = DInt 0
   /\ Extract.without_coupon r = DNone /\ Extract.with_coupon r = DNone)
  \/ exists a b : Z,
       Extract.without_coupon r = DInt a /\ Extract.with_coupon r = DInt b
       /\ Extract.total r = DInt (a + b)
       /\ 0 <= a /\ 0 <= b /\ 0 < a + b.
Proof.
  intros t r.
  apply (@signup_figures_add_up t (Calendar.mk_date 2025 5 1) r).
  vm_compute. right. left. reflexivity.
Defined.

(** X20.  An empty window reaches the notifier as nulls.  Take a run of
    [get_data_from_redshift] that returns, in which the warehouse answers
    the signup query on a table with no signup in the window of a period;
    serialize the mapping as the extractor does.  Then the payload holds
    [null] under [<period>_new_signups_without_coupon] and under
    [<period>_new_signups_with_coupon], and 0 under
    [<period>_total_new_signups]. *)
Theorem empty_window_hands_over_null
        (w : Extract.world) (t : Signups.table) (current_date : Calendar.date)
        (result : dict dbval) (payload : dict json)
        (p : string) (cond : Signups.signup -> bool) :
  snd (run (Extract.get_data_from_redshift w)) = inr result ->
  Extract.fetchall_signup w = inr (Signups.signup_rows t current_date) ->
  Extract.json_dumps result = inr payload ->
  In (p, cond) (Signups.windows current_date) ->
  filter cond t = [] ->
  get payload (p ++ "_new_signups_without_coupon") = Some JNull
  /\ get payload (p ++ "_new_signups_with_coupon") = Some JNull
  /\ get payload (p ++ "_total_new_signups") = Some (JInt 0).
Proof.
  intros Hrun Hs Hdump Hwin Hempty.
  pose proof (ExtractFacts.get_data_outcome w) as H. rewrite Hrun in H.
  destruct H as [_ [static_row [churn_row [coupons [signups [_ [_ [_ [Hs' ->]]]]]]]]].
  rewrite Hs in Hs'. injection Hs' as <-.
  destruct (@SignupFacts.signup_rows_last t current_date (p, cond) Hwin)
    as [before [after [Hrows Hafter]]].
  pose proof (@MappingFacts.get_flatten_signups_last
                (Extract.flatten_coupons
                   (update (update [] (of_items (combine Extract.static_cols static_row)))
                           (of_items (combine Extract.churn_cols churn_row)))
                   coupons)
                before after (Signups.cte t (p, cond)) Hafter) as Hget.
  cbv zeta in Hget. rewrite <- Hrows in Hget.
  unfold Signups.cte in Hget. cbv zeta in Hget.
  cbn [fst snd Extract.period Extract.without_coupon Extract.with_coupon Extract.total]
    in Hget.
  rewrite Hempty in Hget. cbn [map Signups.sql_sum Signups.db_of Signups.count_rows
                                 List.length Z.of_nat] in Hget.
  destruct Hget as [H1 [H2 H3]].
  pose proof (@MappingFacts.json_dumps_get _ payload
                (p ++ "_new_signups_without_coupon") Hdump) as P1.
  pose proof (@MappingFacts.json_dumps_get _ payload
                (p ++ "_new_signups_with_coupon") Hdump) as P2.
  pose proof (@MappingFacts.json_dumps_get _ payload
                (p ++ "_total_new_signups") Hdump) as P3.
  rewrite H1 in P1. rewrite H2 in P2. rewrite H3 in P3.
  destruct P1 as [j1 [E1 P1]]. destruct P2 as [j2 [E2 P2]]. destruct P3 as [j3 [E3 P3]].
  simpl in E1, E2, E3. injection E1 as <-. injection E2 as <-. injection E3 as <-.
  now repeat split.
Qed.

Lemma empty_window_hands_over_null_witness :
  let w0 := sample_warehouse (Some sample_static_row) sample_coupons in
  let t := [Signups.mk_signup (Some "SAVE10") (Some (Calendar.mk_date 2025 3 2))] in
  let current_date := Calendar.mk_date 2025 5 1 in
  let w :=
    {| Extract.environ := Extract.environ w0;
       Extract.connect := Extract.connect w0;
       Extract.cursor := Extract.cursor w0;
       Extract.execute := Extract.execute w0;
       Extract.fetchone := Extract.fetchone w0;
       Extract.fetchall_coupon := Extract.fetchall_coupon w0;
       Extract.fetchall_signup := inr (Signups.signup_rows t current_date);
       Extract.cursor_close := Extract.cursor_close w0;
       Extract.conn_close := Extract.conn_close w0;
       Extract.invoke := Extract.invoke w0;
       Extract.sns_client := Extract.sns_client w0;
       Extract.sns_publish := Extract.sns_publish w0 |} in
  exists result payload,
    snd (run (Extract.get_data_from_redshift w)) = inr result
    /\ Extract.json_dumps result = inr payload
    /\ get payload "last_week_new_signups_without_coupon" = Some JNull
    /\ get payload "last_week_new_signups_with_coupon" = Some JNull
    /\ get payload "last_week_total_new_signups" = Some (JInt 0)
    /\ get payload "all_total_new_signups" = Some (JInt 1).
Proof.
  intros w0 t current_date w.
  eexists. eexists. split; [vm_compute; reflexivity|].
  split; [vm_compute; reflexivity|].
  rewrite <- !and_assoc. split; [|vm_compute; reflexivity]. rewrite !and_assoc.
  refine (@empty_window_hands_over_null w t current_date _ _ "last_week" _ _
            eq_refl _ _ _).
  - vm_compute. reflexivity.
  - vm_compute. reflexivity.
  - right. left. reflexivity.
  - vm_compute. reflexivity.
Defined.

(* ===================================================================== *)
(** * Bounds between the churn figures *)
(* ===================================================================== *)

Module ChurnBounds.

Import Calendar Churn.

Lemma in_non_null (xs : list (option string)) (x : string) :
  In x (non_null xs) <-> In (Some x) xs.
Proof.
  induction xs as [|[y|] xs IH]; simpl.
  - tauto.
  - rewrite IH. split; intros [H | H]; auto; [left; now f_equal | injection H; auto].
  - rewrite IH. split; [auto | intros [H | H]; [discriminate H | exact H]].
Qed.

(** The emails that [COUNT(DISTINCT CASE WHEN cond THEN email END)] counts. *)
Lemma counted (cond : churn_row -> bool) (rows : list churn_row) (x : string) :
  In x (non_null (map (case_when cond) rows))
  <-> exists r, In r rows /\ cond r = true /\ email r = Some x.
Proof.
  rewrite in_non_null, in_map_iff. unfold case_when. split.
  - intros [r [H Hr]]. exists r. destruct (cond r); [auto | discriminate H].
  - intros [r [Hr [Hc He]]]. exists r. rewrite Hc. auto.
Qed.

(** Counting fewer emails gives a smaller figure. *)
Lemma count_distinct_le (e1 e2 : churn_row -> option string) (rows1 rows2 : list churn_row) :
  (forall x, In x (non_null (map e1 rows1)) -> In x (non_null (map e2 rows2))) ->
  count_distinct e1 rows1 <= count_distinct e2 rows2.
Proof.
  intros H. unfold count_distinct. apply Nat2Z.inj_le.
  apply NoDup_incl_length; [apply NoDup_nodup|].
  intros x Hx. apply nodup_In. apply H. now apply nodup_In in Hx.
Qed.

Lemma case_when_le (c1 c2 : churn_row -> bool) (rows1 rows2 : list churn_row) :
  (forall r, In r rows1 -> c1 r = true -> In r rows2 /\ c2 r = true) ->
  count_distinct (case_when c1) rows1 <= count_distinct (case_when c2) rows2.
Proof.
  intros H. apply count_distinct_le. intros x Hx.
  apply counted in Hx. destruct Hx as [r [Hr [Hc He]]].
  apply counted. exists r. destruct (H r Hr Hc). auto.
Qed.

End ChurnBounds.

(** X21.  Bounds that the churn query keeps.  Each figure of the last-week
    and of the last-month CTE is at most the all-time figure of the same
    column for the four statuses; and inside each of the two windows the
    past-due figure, which there counts every email of the window, is at
    least each of the four status figures.  The past-due figure of the last
    week is at most the all-time one. *)
Theorem churn_window_bounds (t : Churn.table) (current_date : Calendar.date) :
  let all := Churn.churn_total t current_date in
  let week := Churn.churn_last_week t current_date in
  let month := Churn.churn_last_month t current_date in
  (forall window, In window [week; month] ->
     Churn.churn_conversion window <= Churn.churn_conversion all
     /\ Churn.churn_canceled window <= Churn.churn_canceled all
     /\ Churn.churn_none window <= Churn.churn_none all
     /\ Churn.churn_new_signup window <= Churn.churn_new_signup all
     /\ Churn.churn_conversion window <= Churn.churn_past_due window
     /\ Churn.churn_canceled window <= Churn.churn_past_due window
     /\ Churn.churn_none window <= Churn.churn_past_due window
     /\ Churn.churn_new_signup window <= Churn.churn_past_due window)
  /\ Churn.churn_past_due week <= Churn.churn_past_due all.
Proof.
  cbv zeta. split.
  - intros window [<- | [<- | []]];
      unfold Churn.churn_last_week, Churn.churn_last_month, Churn.churn_total;
      cbn [Churn.churn_conversion Churn.churn_canceled Churn.churn_none
           Churn.churn_new_signup Churn.churn_past_due];
      repeat split; apply ChurnBounds.case_when_le; intros r Hr Hc;
      apply filter_In in Hr; destruct Hr as [Hin Hw];
      apply andb_true_iff in Hw; destruct Hw as [Hw Hbefore];
      apply andb_true_iff in Hw; destruct Hw as [Hmail Hafter];
      (split; [| assumption]); apply filter_In; (split; [assumption|]);
      try assumption; now rewrite Hmail, Hafter, Hbefore.
  - unfold Churn.churn_last_week, Churn.churn_total. cbn [Churn.churn_past_due].
    apply ChurnBounds.case_when_le. intros r Hr Hc.
    apply filter_In in Hr. destruct Hr as [Hin Hw].
    apply andb_true_iff in Hw. destruct Hw as [Hw Hbefore].
    apply andb_true_iff in Hw. destruct Hw as [Hmail Hafter].
    split; [| assumption]. apply filter_In. split; assumption.
Qed.

(** Two status changes of one email, one of them inside the last week. *)
Lemma churn_window_bounds_witness :
  let t := [Churn.mk_churn_row (Some "a@example.com") (Some "Conversion")
                               (Some (Calendar.mk_date 2024 3 12));
            Churn.mk_churn_row (Some "a@example.com") (Some "New Signup")
                               (Some (Calendar.mk_date 2024 1 5))] in
  let current_date := Calendar.mk_date 2024 3 15 in
  Churn.churn_conversion (Churn.churn_last_week t current_date)
  <= Churn.churn_past_due (Churn.churn_last_week t current_date)
  /\ Churn.churn_new_signup (Churn.churn_last_month t current_date)
     <= Churn.churn_new_signup (Churn.churn_total t current_date).
Proof.
  intros t current_date.
  pose proof (churn_window_bounds t current_date) as H. cbv zeta in H.
  destruct H as [H _]. split.
  - apply (H (Churn.churn_last_week t current_date)). left. reflexivity.
  - apply (H (Churn.churn_last_month t current_date)). right. left. reflexivity.
Defined.
